(** * ImageInterface (holoviews/core/data/image.py): a shallow embedding

    The interface reads a dataset (a rank 2 or rank 3 numpy array, a bounding
    region and two sample densities) and returns plain data.  Python floats
    are modelled by exact rationals ([Q]); an array entry is either
    not-a-number or a rational.  Exceptions are values of [exn], carried by
    the error monad [result]; dicts are finite maps.

    The numpy functions the interface calls are given with their numpy
    meaning.  The collaborators of the interface whose source is not at hand
    (the sheet coordinate system, the bounding box, the Dataset facade,
    [util.bound_range]) are modelled from the specification and marked
    so. *)

From Stdlib Require Import QArith Qround Qminmax Lqa.
From stdpp Require Import gmap strings list fin_maps.

Local Open Scope Z_scope.
Set Warnings "-clear-no-such-hyp".

(** ** Exceptions and the error monad *)

Inductive exn :=
| ValueError (msg : string)
| KeyError (key : string)
| IndexError
| NameError (name : string)
| ZeroDivisionError
| AttributeError (attr : string)
| TypeError
| Exception (msg : string).

Inductive result (A : Type) :=
| Ok (a : A)
| Raise (e : exn).
Arguments Ok {A} a.
Arguments Raise {A} e.

#[global] Instance result_ret : MRet result := fun A a => Ok a.

#[global] Instance result_bind : MBind result := fun A B k r =>
  match r with
  | Ok a => k a
  | Raise e => Raise e
  end.

(** ** Numbers and arrays *)

(** An array entry: float64 with its not-a-number value kept apart. *)
Inductive num :=
| NaN
| Fin (q : Q).

(** numpy arrays of rank 1, 2 and 3, in row-major nesting.  The extents of
    the inner axes are kept with the rows, so that an array without rows
    still has its shape: [Arr2 w m] has shape [(length m, w)] and
    [Arr3 w ch c] has shape [(length c, w, ch)]. *)
Inductive ndarray :=
| Arr1 (v : list num)
| Arr2 (w : nat) (m : list (list num))
| Arr3 (w ch : nat) (c : list (list (list num))).

(** What a numpy call hands back: a scalar or an array. *)
Inductive npvalue :=
| NpScalar (x : num)
| NpArray (a : ndarray).

(** Every row has [n] entries. *)
Definition rect {A} (n : nat) (m : list (list A)) : Prop :=
  Forall (fun r => length r = n) m.

(** The rows agree with the extents the array carries. *)
Definition well_shaped (a : ndarray) : Prop :=
  match a with
  | Arr1 _ => True
  | Arr2 w m => rect w m
  | Arr3 w ch c => rect w c /\ Forall (rect ch) c
  end.

(** [a.shape] *)
Definition shape (a : ndarray) : list nat :=
  match a with
  | Arr1 v => [length v]
  | Arr2 w m => [length m; w]
  | Arr3 w ch c => [length c; w; ch]
  end.

(** [a.ndim] *)
Definition ndim (a : ndarray) : nat := length (shape a).

(** [a.flatten()], row-major. *)
Definition flatten (a : ndarray) : list num :=
  match a with
  | Arr1 v => v
  | Arr2 _ m => concat m
  | Arr3 _ _ c => concat (concat c)
  end.

(** [np.flipud(a)] and [a[::-1, :]]: the first axis reversed. *)
Definition flipud (a : ndarray) : ndarray :=
  match a with
  | Arr1 v => Arr1 (reverse v)
  | Arr2 w m => Arr2 w (reverse m)
  | Arr3 w ch c => Arr3 w ch (reverse c)
  end.

(** Python's index normalisation: a negative index counts from the end. *)
Definition norm_index (n : nat) (i : Z) : result nat :=
  if (0 <=? i) && (i <? Z.of_nat n) then Ok (Z.to_nat i)
  else if (- Z.of_nat n <=? i) && (i <? 0) then Ok (Z.to_nat (i + Z.of_nat n))
  else Raise IndexError.

Definition getitem {A} (l : list A) (i : Z) : result A :=
  k ← norm_index (length l) i;
  match l !! k with
  | Some x => Ok x
  | None => Raise IndexError
  end.

(** [a[(r, c)]] on the first two axes. *)
Definition getitem2 (a : ndarray) (rc : Z * Z) : result npvalue :=
  match a with
  | Arr1 _ => Raise IndexError
  | Arr2 _ m =>
      row ← getitem m (fst rc);
      x ← getitem row (snd rc);
      Ok (NpScalar x)
  | Arr3 _ _ c =>
      row ← getitem c (fst rc);
      v ← getitem row (snd rc);
      Ok (NpArray (Arr1 v))
  end.

(** ** numpy functions used by the interface *)

(** Python's true division: dividing by zero raises. *)
Definition pydiv (a b : Q) : result Q :=
  if Qeq_bool b 0 then Raise ZeroDivisionError else Ok (a / b)%Q.

Definition Qnat (n : nat) : Q := inject_Z (Z.of_nat n).

(** [np.linspace(start, stop, num)] with the end point included: [num]
    samples, the last one set to [stop]. *)
Definition linspace (start stop : Q) (num : nat) : list Q :=
  match num with
  | O => []
  | S O => [start]
  | S (S _ as div) =>
      let step := ((stop - start) / Qnat div)%Q in
      map (fun i => (Qnat i * step + start)%Q) (seq 0 div) ++ [stop]
  end.

(** [np.meshgrid(x, y)] (indexing 'xy'): two grids of shape
    [(len y, len x)]; the first repeats [x] along the rows, the second
    holds [y[i]] all along row [i]. *)
Definition meshgrid {A} (x y : list A) : list (list A) * list (list A) :=
  (repeat x (length y), map (fun yi => repeat yi (length x)) y).

(** The entries that are numbers. *)
Fixpoint finite (xs : list num) : list Q :=
  match xs with
  | [] => []
  | NaN :: r => finite r
  | Fin q :: r => q :: finite r
  end.

Definition zero_size_msg : string :=
  "zero-size array to reduction operation which has no identity".

(** [np.nanmin]: the least entry that is a number; not-a-number when there
    is none; an empty array raises. *)
Definition nanmin (xs : list num) : result num :=
  match xs with
  | [] => Raise (ValueError zero_size_msg)
  | _ => match finite xs with
         | [] => Ok NaN
         | q :: qs => Ok (Fin (fold_left Qmin qs q))
         end
  end.

(** [np.nanmax] *)
Definition nanmax (xs : list num) : result num :=
  match xs with
  | [] => Raise (ValueError zero_size_msg)
  | _ => match finite xs with
         | [] => Ok NaN
         | q :: qs => Ok (Fin (fold_left Qmax qs q))
         end
  end.

(** [np.atleast_3d(a)[:, :, k]]: channel [k] of every cell.  An array of
    rank 1 or 2 has a single channel. *)
Definition channel (a : ndarray) (k : Z) : result (list (list num)) :=
  match a with
  | Arr1 v => _ ← norm_index 1 k; Ok [v]
  | Arr2 _ m => _ ← norm_index 1 k; Ok m
  | Arr3 _ ch c =>
      i ← norm_index ch k;
      Ok (map (map (fun cell => default NaN (cell !! i))) c)
  end.

(** [np.atleast_1d]: a scalar becomes an array with one entry; the result
    is always an array. *)
Definition atleast_1d (v : npvalue) : npvalue :=
  match v with
  | NpScalar x => NpArray (Arr1 [x])
  | NpArray a => NpArray a
  end.

(** [np.isscalar]: true of scalars only, never of an array. *)
Definition isscalar (v : npvalue) : bool :=
  match v with
  | NpScalar _ => true
  | NpArray _ => false
  end.

(** ** The dataset *)

Record BoundingBox := {
  bb_left : Q;
  bb_bottom : Q;
  bb_right : Q;
  bb_top : Q
}.

Definition lbrt (bb : BoundingBox) : Q * Q * Q * Q :=
  (bb_left bb, bb_bottom bb, bb_right bb, bb_top bb).

(** A dimension is named by its alias. *)
Abbreviation Dimension := string (only parsing).

Record Dataset := {
  data : ndarray;
  bounds : option BoundingBox;
  xdensity : Q;
  ydensity : Q;
  kdims : list Dimension;
  vdims : list Dimension
}.

(** [dataset.bounds.lbrt()]: a dataset without bounds has no such
    attribute to call. *)
Definition bounds_lbrt (dataset : Dataset) : result (Q * Q * Q * Q) :=
  match bounds dataset with
  | Some bb => Ok (lbrt bb)
  | None => Raise (AttributeError "lbrt")
  end.

(** [dim2, dim1 = a.shape[:2]] *)
Definition shape2 (a : ndarray) : result (nat * nat) :=
  match shape a with
  | d2 :: d1 :: _ => Ok (d2, d1)
  | _ => Raise (ValueError "not enough values to unpack")
  end.

(** ** [range] *)

(** [dim_idx] is the index [obj.get_dimension_index(dim)] gives.  A bounds
    attribute that is set is truthy. *)
Definition range (obj : Dataset) (dim_idx : Z)
  : result (option num * option num) :=
  if ((dim_idx =? 0) || (dim_idx =? 1)) && bool_decide (is_Some (bounds obj))
  then
    '(l, b, r, t) ← bounds_lbrt obj;
    if dim_idx =? 0 then Ok (Some (Fin l), Some (Fin r))
    else Ok (Some (Fin b), Some (Fin t))
  else if (1 <? dim_idx) && (dim_idx <? Z.of_nat (length (vdims obj)) + 2)
  then
    ch ← channel (data obj) (dim_idx - 2);
    lo ← nanmin (concat ch);
    hi ← nanmax (concat ch);
    Ok (Some lo, Some hi)
  else Ok (None, None).

(** ** [values] *)

Inductive values_result :=
| ValArray (a : ndarray)
| ValNonePair.

(** [dim_idx] is the index [dataset.get_dimension_index(dim)] gives. *)
Definition values (dataset : Dataset) (dim_idx : Z) (expanded flat : bool)
  : result values_result :=
  if (dim_idx =? 0) || (dim_idx =? 1) then
    '(l, b, r, t) ← bounds_lbrt dataset;
    '(dim2, dim1) ← shape2 (data dataset);
    w1 ← pydiv (r - l) (Qnat dim1);
    w2 ← pydiv (t - b) (Qnat dim2);
    let d1_half_unit := (w1 / 2)%Q in
    let d2_half_unit := (w2 / 2)%Q in
    let d1lin :=
      map Fin (linspace (l + d1_half_unit) (r - d1_half_unit) dim1) in
    let d2lin :=
      map Fin (linspace (b + d2_half_unit) (t - d2_half_unit) dim2) in
    if expanded then
      let grid := if Z.abs (dim_idx - 1) =? 0
                  then fst (meshgrid d2lin d1lin)
                  else snd (meshgrid d2lin d1lin) in
      Ok (ValArray (if flat then Arr1 (concat grid)
                    else Arr2 (length d2lin) grid))
    else Ok (ValArray (Arr1 (if dim_idx =? 0 then d1lin else d2lin)))
  else if dim_idx =? 2 then
    let flipped := flipud (data dataset) in
    Ok (ValArray (if flat then Arr1 (flatten flipped) else flipped))
  else Ok ValNonePair.

(** ** Sheet coordinates *)

(** Modelled from the spec: [BoundingBox(points=((x1, y1), (x2, y2)))] of
    core/boundingregion.py, which is not among the sources: the rectangle
    defined by two corner points, whose [lbrt()] is (left, bottom, right,
    top). *)
Definition BoundingBox_points (p1 p2 : Q * Q) : BoundingBox := {|
  bb_left := Qmin (fst p1) (fst p2);
  bb_bottom := Qmin (snd p1) (snd p2);
  bb_right := Qmax (fst p1) (fst p2);
  bb_top := Qmax (snd p1) (snd p2)
|}.

(** Modelled from the spec: [sheet2matrix] of core/sheetcoords.py, which is
    not among the sources: the continuous matrix position of a sheet point.
    Column 0 starts at the left edge, row 0 at the top edge, and a unit of
    sheet distance holds [density] cells. *)
Definition sheet2matrix (dataset : Dataset) (x y : Q) : result (Q * Q) :=
  '(l, b, r, t) ← bounds_lbrt dataset;
  Ok (((t - y) * ydensity dataset)%Q, ((x - l) * xdensity dataset)%Q).

(** Modelled from the spec: [sheet2matrixidx], the coordinate-to-index
    conversion of core/sheetcoords.py: the (row, column) of the cell that
    holds the point. *)
Definition sheet2matrixidx (dataset : Dataset) (x y : Q) : result (Z * Z) :=
  '(frow, fcol) ← sheet2matrix dataset x y;
  Ok (Qfloor frow, Qfloor fcol).

(** Modelled from the spec: [matrix2sheet] of core/sheetcoords.py, the
    inverse of [sheet2matrix]; the cell width is the inverse of the
    density. *)
Definition matrix2sheet (dataset : Dataset) (frow fcol : Q)
  : result (Q * Q) :=
  '(l, b, r, t) ← bounds_lbrt dataset;
  Ok ((l + fcol / xdensity dataset)%Q, (t - frow / ydensity dataset)%Q).

(** Modelled from the spec: [matrixidx2sheet], the centre of a cell. *)
Definition matrixidx2sheet (dataset : Dataset) (row col : Z)
  : result (Q * Q) :=
  matrix2sheet dataset (inject_Z row + (1 # 2))%Q (inject_Z col + (1 # 2))%Q.

(** Modelled from the spec: [closest_cell_center], the centre of the cell
    that [sheet2matrixidx] finds. *)
Definition closest_cell_center (dataset : Dataset) (x y : Q)
  : result (Q * Q) :=
  '(row, col) ← sheet2matrixidx dataset x y;
  matrixidx2sheet dataset row col.

(** Modelled from the spec: [Slice(bounds, dataset)] of core/sheetcoords.py:
    the index ranges (first row, end row, first column, end column) a
    rectangle maps onto, each edge taken to the nearest cell boundary. *)
Definition Slice (bnds : BoundingBox) (dataset : Dataset)
  : result (Z * Z * Z * Z) :=
  let '(l, b, r, t) := lbrt bnds in
  '(t_m, l_m) ← sheet2matrix dataset l t;
  '(b_m, r_m) ← sheet2matrix dataset r b;
  let l_idx := Qceiling (l_m - (1 # 2))%Q in
  let t_idx := Qceiling (t_m - (1 # 2))%Q in
  let r_idx := Qfloor (r_m + (1 # 2))%Q in
  let b_idx := Qfloor (b_m + (1 # 2))%Q in
  Ok (t_idx, b_idx, l_idx, r_idx).

(** Python's [l[start:stop]]: a negative bound counts from the end, and
    bounds beyond the list are cut to it. *)
Definition slice_bound (n : nat) (i : Z) : nat :=
  if i <? 0 then Z.to_nat (Z.max 0 (i + Z.of_nat n))
  else Z.to_nat (Z.min i (Z.of_nat n)).

Definition pyslice {A} (l : list A) (start stop : Z) : list A :=
  let s := slice_bound (length l) start in
  let e := slice_bound (length l) stop in
  take (e - s) (drop s l).

(** Modelled from the spec: [slc.submatrix(a)], the sub-array
    [a[r1:r2, c1:c2]] the slice names. *)
Definition submatrix (slc : Z * Z * Z * Z) (a : ndarray) : result ndarray :=
  let '(r1, r2, c1, c2) := slc in
  let width w := (slice_bound w c2 - slice_bound w c1)%nat in
  match a with
  | Arr1 _ => Raise IndexError
  | Arr2 w m =>
      Ok (Arr2 (width w) (map (fun row => pyslice row c1 c2) (pyslice m r1 r2)))
  | Arr3 w ch c =>
      Ok (Arr3 (width w) ch
            (map (fun row => pyslice row c1 c2) (pyslice c r1 r2)))
  end.

(** Modelled from the spec: [slc.compute_bounds(dataset)], the bounding
    region the slice realises: whole cells. *)
Definition compute_bounds (slc : Z * Z * Z * Z) (dataset : Dataset)
  : result BoundingBox :=
  let '(r1, r2, c1, c2) := slc in
  '(lft, bot) ← matrix2sheet dataset (inject_Z r2) (inject_Z c1);
  '(rgt, top) ← matrix2sheet dataset (inject_Z r1) (inject_Z c2);
  Ok (BoundingBox_points (lft, bot) (rgt, top)).

(** ** [select] *)

(** What a selection holds for a dimension: a scalar, a tuple or a slice. *)
Inductive selval :=
| SelScalar (x : Q)
| SelTuple (t : list (option Q))
| SelSlice (start stop : option Q).

(** After the tuples are turned into slices. *)
Inductive coord :=
| CScalar (x : Q)
| CSlice (start stop : option Q).

(** A tuple is unpacked into [slice]; any other value is kept. *)
Definition to_coord (sel : selval) : result coord :=
  match sel with
  | SelScalar x => Ok (CScalar x)
  | SelSlice start stop => Ok (CSlice start stop)
  | SelTuple [stop] => Ok (CSlice None stop)
  | SelTuple [start; stop] => Ok (CSlice start stop)
  | SelTuple [start; stop; _] => Ok (CSlice start stop)
  | SelTuple _ => Raise TypeError
  end.

Definition coord_of (sel : selval) : option coord :=
  match to_coord sel with
  | Ok c => Some c
  | Raise _ => None
  end.

(** The dict comprehension over [selection.items()]: every value is
    converted, whether a key dimension names it or not. *)
Definition convert_selection (selection : gmap string selval)
  : result (gmap string coord) :=
  if bool_decide (map_Forall (fun _ sel => is_Some (coord_of sel)) selection)
  then Ok (omap coord_of selection)
  else Raise TypeError.

Definition is_slice (c : coord) : bool :=
  match c with
  | CSlice _ _ => true
  | CScalar _ => false
  end.

(** [a[:, x][:, np.newaxis]]: column [x], kept as a column. *)
Definition column_keepdims (a : ndarray) (x : Z) : result ndarray :=
  match a with
  | Arr1 _ => Raise IndexError
  | Arr2 w m =>
      i ← norm_index w x;
      Ok (Arr2 1 (map (fun row => [default NaN (row !! i)]) m))
  | Arr3 w ch c =>
      i ← norm_index w x;
      Ok (Arr3 1 ch (map (fun row => [default [] (row !! i)]) c))
  end.

(** [a[y, :][np.newaxis, :]]: row [y], kept as a row. *)
Definition row_keepdims (a : ndarray) (y : Z) : result ndarray :=
  match a with
  | Arr1 _ => Raise IndexError
  | Arr2 w m => row ← getitem m y; Ok (Arr2 w [row])
  | Arr3 w ch c => row ← getitem c y; Ok (Arr3 w ch [row])
  end.

(** [l if start is None else max(l, start)] *)
Definition clamp_low (l : Q) (start : option Q) : Q :=
  match start with
  | None => l
  | Some s => Qmax l s
  end.

(** [r if stop is None else min(r, stop)] *)
Definition clamp_high (r : Q) (stop : option Q) : Q :=
  match stop with
  | None => r
  | Some s => Qmin r s
  end.

(** One axis of the rectangle asked for: cut to the dataset's bounds when
    the axis is selected by a range, left alone otherwise. *)
Definition clamp_axis (idx : coord) (lo hi : Q) : Q * Q :=
  match idx with
  | CSlice start stop => (clamp_low lo start, clamp_high hi stop)
  | CScalar _ => (lo, hi)
  end.

Definition clamp_selection (xidx yidx : coord) (lbrt0 : Q * Q * Q * Q)
  : Q * Q * Q * Q :=
  let '(l, b, r, t) := lbrt0 in
  let '(l, r) := clamp_axis xidx l r in
  let '(b, t) := clamp_axis yidx b t in
  (l, b, r, t).

(** The result is the data with the metadata dict, which holds the new
    bounds under "bounds" or nothing. *)
Definition select (dataset : Dataset) (selection : gmap string selval)
  : result (npvalue * gmap string BoundingBox) :=
  selection ← convert_selection selection;
  let coords := map (fun kd => default (CSlice None None) (selection !! kd))
                    (kdims dataset) in
  if negb (existsb is_slice coords) then
    match coords with
    | [CScalar x; CScalar y] =>
        idx ← sheet2matrixidx dataset x y;
        v ← getitem2 (data dataset) idx;
        Ok (v, ∅)
    | _ => Raise TypeError
    end
  else
    match coords with
    | [xidx; yidx] =>
        lbrt0 ← bounds_lbrt dataset;
        xunit ← pydiv 1 (xdensity dataset);
        yunit ← pydiv 1 (ydensity dataset);
        let '(l, b, r, t) := clamp_selection xidx yidx lbrt0 in
        let bnds := BoundingBox_points (l, b) (r, t) in
        slc ← Slice bnds dataset;
        sub ← submatrix slc (data dataset);
        realised ← compute_bounds slc dataset;
        let '(l, b, r, t) := lbrt realised in
        '(sub, l, b, r, t) ←
          match xidx, yidx with
          | CScalar x, _ =>
              '(xc, _) ← closest_cell_center dataset x b;
              '(_, xi) ← sheet2matrixidx dataset x b;
              sub ← column_keepdims sub xi;
              Ok (sub, xc - xunit / 2, b, xc + xunit / 2, t)%Q
          | _, CScalar y =>
              '(_, yc) ← closest_cell_center dataset l y;
              '(yi, _) ← sheet2matrixidx dataset l y;
              sub ← row_keepdims sub yi;
              Ok (sub, l, yc - yunit / 2, r, yc + yunit / 2)%Q
          | _, _ => Ok (sub, l, b, r, t)
          end;
        Ok (NpArray sub, {[ "bounds" := BoundingBox_points (l, b) (r, t) ]})
    | _ => Raise (ValueError "wrong number of values to unpack")
    end.

(** ** Dimension lookup *)

Fixpoint index_of (d : Dimension) (dims : list Dimension) : option nat :=
  match dims with
  | [] => None
  | d' :: rest => if String.eqb d d' then Some 0%nat
                  else S <$> index_of d rest
  end.

(** Modelled from the spec: [get_dimension_index] of the Dataset facade
    (core/dimension.py is not among the sources): key dimensions are
    numbered 0 and 1, value dimensions from 2 on, so a name stands for its
    place among the key dimensions followed by the value dimensions. *)
Definition get_dimension_index (dataset : Dataset) (dim : Dimension)
  : result Z :=
  match index_of dim (kdims dataset ++ vdims dataset) with
  | Some i => Ok (Z.of_nat i)
  | None => Raise (Exception "Dimension not found")
  end.

(** ** [groupby] *)

(** One index into the first two axes: [(i, slice(None))] is a row,
    [(slice(None), i)] a column. *)
Inductive sample :=
| SRow (i : Z)
| SCol (i : Z).

(** Entry [k] of every row. *)
Definition column (k : nat) (m : list (list num)) : list num :=
  map (fun row => default NaN (row !! k)) m.

(** [a[s]] *)
Definition index_sample (a : ndarray) (s : sample) : result ndarray :=
  match a, s with
  | Arr1 _, _ => Raise IndexError
  | Arr2 _ m, SRow i => row ← getitem m i; Ok (Arr1 row)
  | Arr3 _ ch c, SRow i => row ← getitem c i; Ok (Arr2 ch row)
  | Arr2 w m, SCol i => k ← norm_index w i; Ok (Arr1 (column k m))
  | Arr3 w ch c, SCol i =>
      k ← norm_index w i;
      Ok (Arr2 ch (map (fun row => default [] (row !! k)) c))
  end.

(** Iterating over what [values] returns: the entries of a flat array, or
    the two [None]s of the pair. *)
Definition items_of (v : values_result) : result (list (option num)) :=
  match v with
  | ValArray (Arr1 xs) => Ok (Some <$> xs)
  | ValArray _ => Raise TypeError
  | ValNonePair => Ok [None; None]
  end.

(** [zip] of any number of sequences: it stops with the shortest. *)
Fixpoint zip_star {A} (cols : list (list A)) (fuel : nat) : list (list A) :=
  match fuel with
  | O => []
  | S fuel' =>
      match mapM head cols with
      | Some row => row :: zip_star (tail <$> cols) fuel'
      | None => []
      end
  end.

Definition zip_all {A} (cols : list (list A)) : list (list A) :=
  match cols with
  | [] => []
  | c :: _ => zip_star cols (length c)
  end.

(** What [group_type] is called with: the pair [(xvals, data[s])] when one
    dimension is grouped, the one-row list [[g[ndims:]]] otherwise. *)
Inductive group_arg :=
| GroupColumns (xvals : values_result) (vals : ndarray)
| GroupRows (rows : list (list (option num))).

(** A group key: a coordinate, or the tuple [g[:ndims]]. *)
Inductive group_key :=
| KeyCoord (c : option num)
| KeyTuple (cs : list (option num)).

(** The group type: whether it is an Element class, and its constructor,
    which gets the [kdims] keyword when it is one.  The constructor is a
    function of what it is called with: these are the group types that
    accept the groups.  [dict], which 'raw' stands for, is not one of
    them: it raises unless both items of the pair have two entries. *)
Record group_class (G : Type) := {
  is_Element : bool;
  group_new : option (list Dimension) -> group_arg -> G
}.
Arguments is_Element {G} _.
Arguments group_new {G} _ _ _.

(** The container type: whether it is an NdMapping class, and its
    constructor from the (key, group) pairs and the [kdims] keyword. *)
Record container_class (G C : Type) := {
  is_NdMapping : bool;
  container_new : list (group_key * G) -> list Dimension -> C
}.
Arguments is_NdMapping {G C} _.
Arguments container_new {G C} _ _ _.

(** The samples and the array of the one-dimension case. *)
Definition groupby_samples (a : ndarray) (didx : Z)
  : result (list sample * ndarray) :=
  n ← getitem (shape a) (Z.abs (didx - 1));
  let samples :=
    map (fun i => if didx =? 0 then SCol (Z.of_nat i) else SRow (Z.of_nat i))
        (seq 0 n) in
  if didx =? 0 then Ok (samples, flipud a)
  else Ok (reverse samples, a).

(** Modelled from the spec: [dataset.dimension_values(dim, expanded)] of the
    Dataset facade, which is not among the sources: the facade hands the
    operation to the interface, here [values], with [flat] at its default. *)
Definition dimension_values (dataset : Dataset) (dim_idx : Z)
    (expanded : bool) : result values_result :=
  values dataset dim_idx expanded true.

(** The (key, argument of [group_type]) pairs. *)
Definition groupby_groups (dataset : Dataset) (dimensions : list Dimension)
  : result (list (group_key * group_arg)) :=
  match dimensions with
  | [dim] =>
      didx ← get_dimension_index dataset dim;
      coords ← dimension_values dataset didx false;
      xvals ← dimension_values dataset (Z.abs (didx - 1)) false;
      '(samples, a) ← groupby_samples (data dataset) didx;
      coords ← items_of coords;
      mapM (fun '(s, c) =>
              vals ← index_sample a s;
              Ok (KeyCoord c, GroupColumns xvals vals))
           (zip samples coords)
  | _ =>
      cols ← mapM (fun i =>
                     v ← dimension_values dataset (Z.of_nat i) true;
                     items_of v)
                  (seq 0 (length (kdims dataset ++ vdims dataset)));
      let ndims := length (kdims dataset) in
      Ok (map (fun g => (KeyTuple (take ndims g), GroupRows [drop ndims g]))
              (zip_all cols))
  end.

(** [dataset.get_dimension(d)] hands back the dimension of that name, so
    [dimensions] are the names given.  The last statement names
    [grouped_data] when the container is not an NdMapping; no local of
    [groupby], no name of the module and no builtin is called so, and
    looking it up raises. *)
Definition groupby {G C} (dataset : Dataset) (dim_names : list Dimension)
    (container_type : container_class G C) (group_type : group_class G)
  : result C :=
  let dimensions := dim_names in
  let kdims' := filter (fun kdim => kdim ∉ dimensions) (kdims dataset) in
  let group_kwargs := if is_Element group_type then Some kdims' else None in
  groups ← groupby_groups dataset dimensions;
  let groups :=
    map (fun '(k, arg) => (k, group_new group_type group_kwargs arg)) groups in
  if is_NdMapping container_type
  then Ok (container_new container_type groups dimensions)
  else Raise (NameError "grouped_data").

(** ** [aggregate] *)

(** What [aggregate] returns: the reduced data, the dict of the remaining
    key dimension's coordinates and the reduced values, or nothing. *)
Inductive aggregate_value :=
| AggCoords (v : values_result)
| AggData (v : npvalue).

Inductive aggregate_result :=
| AggScalar (v : npvalue)
| AggDict (d : gmap string aggregate_value)
| AggNone.

Definition first_dim (dims : list Dimension) : result Dimension :=
  match dims with
  | d :: _ => Ok d
  | [] => Raise IndexError
  end.

(** [function] is called with the array and the axes to reduce over. *)
Definition aggregate (dataset : Dataset) (kdims' : list Dimension)
    (function : ndarray -> list Z -> result npvalue)
  : result aggregate_result :=
  let ndims := Z.of_nat (length (kdims dataset)) in
  axes ← mapM (fun kdim =>
                 i ← get_dimension_index dataset kdim;
                 Ok (ndims - i - 1))
              (filter (fun kdim => kdim ∉ kdims') (kdims dataset));
  reduced ← function (data dataset) axes;
  let data' := atleast_1d reduced in
  if isscalar data' then Ok (AggScalar data')
  else if (length axes =? 1)%nat then
    k ← first_dim kdims';
    coords ← values dataset (default 0 (head axes)) false true;
    v ← first_dim (vdims dataset);
    Ok (AggDict (<[v := AggData data']> {[ k := AggCoords coords ]}))
  else Ok AggNone.

(** [np.mean(a, axis=axes)] on a rank 2 array: over both axes the mean of
    all entries, a scalar; over one axis the means of the columns (axis 0)
    or of the rows (axis 1).  A not-a-number entry makes its mean
    not-a-number. *)
Fixpoint all_finite (xs : list num) : option (list Q) :=
  match xs with
  | [] => Some []
  | NaN :: _ => None
  | Fin q :: r => cons q <$> all_finite r
  end.

Definition Qsum (qs : list Q) : Q := fold_right Qplus 0%Q qs.

Definition mean1 (xs : list num) : num :=
  match xs, all_finite xs with
  | [], _ => NaN
  | _, None => NaN
  | _, Some qs => Fin (Qred (Qsum qs / Qnat (length qs)))
  end.

Definition np_mean (a : ndarray) (axes : list Z) : result npvalue :=
  match a with
  | Arr2 w m =>
      axes ← mapM (norm_index 2) axes;
      if bool_decide (axes = [0%nat; 1%nat] \/ axes = [1%nat; 0%nat])
      then Ok (NpScalar (mean1 (concat m)))
      else if bool_decide (axes = [1%nat])
      then Ok (NpArray (Arr1 (mean1 <$> m)))
      else if bool_decide (axes = [0%nat])
      then Ok (NpArray (Arr1 (map (fun k =>
                  mean1 (map (fun row => default NaN (row !! k)) m))
                                  (seq 0 w))))
      else if bool_decide (axes = [])
      then Ok (NpArray a)
      else Raise (ValueError "duplicate value in 'axis'")
  | _ => Raise TypeError
  end.

(** ** [init] *)

(** What [init] may be handed as data. *)
Inductive pydata :=
| PyArray (a : ndarray)
| PyTuple (items : list ndarray)
| PyDict (d : gmap string ndarray)
| PyOther.

(** Modelled from the spec: [util.bound_range] (core/util.py is not among
    the sources): from the ascending cell centres of an axis, the low and
    high cell edges, half a sample unit beyond the outer centres, and the
    density, the number of samples over the distance between the edges. *)
Definition bound_range (vals : ndarray) : result (Q * Q * Q) :=
  match all_finite (flatten vals) with
  | Some (q :: qs) =>
      let low := fold_left Qmin qs q in
      let high := fold_left Qmax qs q in
      unit ← pydiv (high - low) (Qnat (length qs));
      density ← pydiv 1 unit;
      Ok ((low - unit / 2)%Q, (high + unit / 2)%Q, density)
  | _ => Raise (ValueError "Could not determine Image density")
  end.

(** [dict.__getitem__] *)
Definition dict_get (d : gmap string ndarray) (k : string) : result ndarray :=
  match d !! k with
  | Some a => Ok a
  | None => Raise (KeyError k)
  end.

(** [dict(zip(dimensions, data))]: a later pair replaces an earlier one
    with the same key. *)
Definition dict_of_pairs (kvs : list (string * ndarray))
  : gmap string ndarray :=
  fold_left (fun d kv => <[kv.1 := kv.2]> d) kvs ∅.

(** [np.atleast_3d]: the cells of the array, with the extents of the two
    inner axes. *)
Definition atleast_3d (a : ndarray)
  : nat * nat * list (list (list num)) :=
  match a with
  | Arr1 v => (length v, 1%nat, [map (fun x => [x]) v])
  | Arr2 w m => (w, 1%nat, map (map (fun x => [x])) m)
  | Arr3 w ch c => (w, ch, c)
  end.

(** [np.dstack]: the arrays joined along the third axis; their first two
    extents must agree. *)
Definition dstack (arrs : list ndarray) : result ndarray :=
  match atleast_3d <$> arrs with
  | [] => Raise (ValueError "need at least one array to concatenate")
  | (w, ch, c) :: rest =>
      if forallb (fun '(w', _, c') =>
                    (w' =? w)%nat && (length c' =? length c)%nat) rest
      then Ok (Arr3 w (fold_left (fun n '(_, ch', _) => (n + ch')%nat) rest ch)
                 (fold_left (fun acc '(_, _, c') =>
                               zip_with (zip_with app) acc c') rest c))
      else Raise (ValueError "all the input array dimensions must match")
  end.

(** The result is the array with the resolved key and value dimensions;
    the third component, an empty dict, is left out. *)
Definition init (eltype_kdims eltype_vdims : list Dimension) (data : pydata)
    (kdims' vdims' : option (list Dimension))
  : result (ndarray * list Dimension * list Dimension) :=
  let kdims' := default eltype_kdims kdims' in
  let vdims' := default eltype_vdims vdims' in
  let dimensions := kdims' ++ vdims' in
  let data := match data with
              | PyTuple items => PyDict (dict_of_pairs (zip dimensions items))
              | _ => data
              end in
  data ← match data with
         | PyDict d =>
             k0 ← getitem kdims' 0;
             xs ← dict_get d k0;
             _ ← bound_range xs;
             k1 ← getitem kdims' 1;
             ys ← dict_get d k1;
             _ ← bound_range ys;
             if (length vdims' =? 1)%nat then
               v0 ← getitem vdims' 0;
               a ← dict_get d v0;
               Ok (PyArray a)
             else
               arrs ← mapM (dict_get d) vdims';
               a ← dstack arrs;
               Ok (PyArray a)
         | _ => Ok data
         end;
  match data with
  | PyArray a =>
      if bool_decide (ndim a = 2%nat \/ ndim a = 3%nat)
      then Ok (a, kdims', vdims')
      else Raise (ValueError "ImageInterface expects a 2D array.")
  | _ => Raise (ValueError "ImageInterface expects a 2D array.")
  end.

(** ** [shape] and [length] *)

(** [np.product] of a shape. *)
Definition np_product (ns : list nat) : nat := fold_left Nat.mul ns 1%nat.

(** [ImageInterface.shape]: the shape of the array. *)
Definition interface_shape (dataset : Dataset) : list nat :=
  shape (data dataset).

(** [ImageInterface.length]: the product of the shape. *)
Definition interface_length (dataset : Dataset) : nat :=
  np_product (shape (data dataset)).

(** ** DataFrameView (holoviews/interface/pandas.py): the key dimensions *)

(** A Dimension object, with its name, and what a list of key dimensions
    may hold: such an object or a bare column label. *)
Record DimObj := {
  dim_name : string;
  dim_unit : string
}.

Inductive dim_entry :=
| Label (s : string)
| DimOf (d : DimObj).

(** [{d.name: d for d in kdims}]: a bare label has no [name] attribute; a
    later dimension replaces an earlier one of the same name. *)
Fixpoint dim_dict (kdims' : list dim_entry) (acc : gmap string DimObj)
  : result (gmap string DimObj) :=
  match kdims' with
  | [] => Ok acc
  | DimOf d :: rest => dim_dict rest (<[dim_name d := d]> acc)
  | Label _ :: _ => Raise (AttributeError "name")
  end.

(** One turn of the loop over [dimensions.items()]:
    [if name in data.columns: dims[list(data.columns).index(name)] = dim]. *)
Definition override_dim (columns : list string) (name : string)
    (dim : dim_entry) (dims : list dim_entry) : list dim_entry :=
  match index_of name columns with
  | Some i => <[i := dim]> dims
  | None => dims
  end.

(** The list [dims] before the loop over [dimensions], and whether it is
    the very list the caller passed as [kdims]. *)
Definition initial_dims (columns : list string)
    (kdims' : option (list dim_entry)) (clone_override : bool)
  : result (list dim_entry * bool) :=
  if clone_override then
    match kdims' with
    | None => Raise TypeError
    | Some ks =>
        dd ← dim_dict ks ∅;
        Ok (map (fun k => match dd !! k with
                          | Some d => DimOf d
                          | None => Label k
                          end) columns, false)
    end
  else
    match kdims' with
    | Some (k :: ks) =>
        if (length (k :: ks) =? length columns)%nat
        then Ok (k :: ks, true)
        else Raise (ValueError
                      "Supplied key dimensions do not match data columns")
    | _ => Ok (Label <$> columns, false)
    end.

(** The key dimensions [DataFrameView.__init__] hands to the element, from
    the column labels of the frame, with the list the caller passed as
    [kdims] as it is after the call: without [clone_override] that list
    itself becomes [dims], and the loop writes into it. *)
Definition dataframe_dims (pandas : bool) (columns : list string)
    (dimensions : gmap string dim_entry) (kdims' : option (list dim_entry))
    (clone_override : bool)
  : result (list dim_entry * option (list dim_entry)) :=
  if negb pandas
  then Raise (Exception "Pandas is required for the Pandas interface.")
  else
    '(dims, shared) ← initial_dims columns kdims' clone_override;
    let dims := map_fold (override_dim columns) dims dimensions in
    Ok (dims, if (shared : bool) then Some dims else kdims').

(** ** Vocabulary of the properties *)


(** Half a cell: [(high - low) / count / 2]. *)
Definition half_unit (lo hi : Q) (n : nat) : Q := ((hi - lo) / Qnat n / 2)%Q.

(** [xs] are the centres of [n] cells of equal width that fill the interval
    from [lo] to [hi]: [n] values strictly inside it, the first half a cell
    above [lo], the last half a cell below [hi], neighbours one cell
    apart. *)
Definition cell_centres (lo hi : Q) (n : nat) (xs : list Q) : Prop :=
  length xs = n /\
  (forall i x, xs !! i = Some x ->
     (x == lo + (2 * Qnat i + 1) * half_unit lo hi n)%Q /\
     (lo < x)%Q /\ (x < hi)%Q) /\
  (forall i x x', xs !! i = Some x -> xs !! S i = Some x' ->
     (x' - x == (hi - lo) / Qnat n)%Q) /\
  (exists x0 xn, xs !! 0%nat = Some x0 /\ xs !! (n - 1)%nat = Some xn /\
     (x0 == lo + half_unit lo hi n)%Q /\ (xn == hi - half_unit lo hi n)%Q).

(** The pairing of coordinates and slices when one key dimension is
    grouped, as the specification words it: for the y axis (index 1) the
    coordinates reversed, paired with the rows of the array with its rows
    reversed; for the x axis (index 0) the coordinates paired with the
    columns of the array as it is stored. *)
Definition spec_groupby_pairs (dataset : Dataset) (didx : Z)
  : result (list (group_key * group_arg)) :=
  coords ← values dataset didx false true;
  xvals ← values dataset (Z.abs (didx - 1)) false true;
  coords ← items_of coords;
  match data dataset with
  | Arr2 w m =>
      if didx =? 1 then
        Ok (zip_with (fun c row => (KeyCoord c, GroupColumns xvals (Arr1 row)))
              (reverse coords) (reverse m))
      else
        Ok (zip_with (fun c k =>
                        (KeyCoord c, GroupColumns xvals (Arr1 (column k m))))
              coords (seq 0 w))
  | _ => Raise TypeError
  end.

(** [inner] is no larger than [outer] on any side. *)
Definition within (inner outer : BoundingBox) : Prop :=
  (bb_left outer <= bb_left inner)%Q /\
  (bb_bottom outer <= bb_bottom inner)%Q /\
  (bb_right inner <= bb_right outer)%Q /\
  (bb_top inner <= bb_top outer)%Q.

(** The densities of the dataset are positive and agree with its bounds and
    the first two extents of its array: the bounds hold [nrows] by [ncols]
    whole cells. *)
Definition whole_cells (dataset : Dataset) (bb : BoundingBox)
    (nrows ncols : nat) : Prop :=
  bounds dataset = Some bb /\
  shape2 (data dataset) = Ok (nrows, ncols) /\
  (0 < xdensity dataset)%Q /\ (0 < ydensity dataset)%Q /\
  ((bb_right bb - bb_left bb) * xdensity dataset == Qnat ncols)%Q /\
  ((bb_top bb - bb_bottom bb) * ydensity dataset == Qnat nrows)%Q.

(** A selection on the x axis that meets the bounds: a scalar inside the
    columns, or a range that does not start above the right edge nor stop
    below the left edge. *)
Definition x_meets (bb : BoundingBox) (c : coord) : Prop :=
  match c with
  | CScalar x => (bb_left bb <= x)%Q /\ (x < bb_right bb)%Q
  | CSlice start stop =>
      (forall s, start = Some s -> (s <= bb_right bb)%Q) /\
      (forall s, stop = Some s -> (bb_left bb <= s)%Q)
  end.

(** The same on the y axis, where the rows are counted from the top. *)
Definition y_meets (bb : BoundingBox) (c : coord) : Prop :=
  match c with
  | CScalar y => (bb_bottom bb < y)%Q /\ (y <= bb_top bb)%Q
  | CSlice start stop =>
      (forall s, start = Some s -> (s <= bb_top bb)%Q) /\
      (forall s, stop = Some s -> (bb_bottom bb <= s)%Q)
  end.

(** Both corners of the rectangle lie on the axes of [bb]. *)
Definition corners_inside (bb : BoundingBox) (l b r t : Q) : Prop :=
  ((bb_left bb <= l)%Q /\ (l <= bb_right bb)%Q) /\
  ((bb_left bb <= r)%Q /\ (r <= bb_right bb)%Q) /\
  ((bb_bottom bb <= b)%Q /\ (b <= bb_top bb)%Q) /\
  ((bb_bottom bb <= t)%Q /\ (t <= bb_top bb)%Q).

(** The entries of what [values] returns, in row-major order. *)
Definition entries (v : values_result) : list num :=
  match v with
  | ValArray a => flatten a
  | ValNonePair => []
  end.

(** Two bounding boxes for the same rectangle. *)
Definition same_region (a b : BoundingBox) : Prop :=
  (bb_left a == bb_left b)%Q /\ (bb_bottom a == bb_bottom b)%Q /\
  (bb_right a == bb_right b)%Q /\ (bb_top a == bb_top b)%Q.

(** The dataset the facade builds from what [select] returns: the
    sub-array and the new bounds, at the densities of the dataset. *)
Definition selected (dataset : Dataset) (sub : ndarray) (bb' : BoundingBox)
  : Dataset := {|
  data := sub;
  bounds := Some bb';
  xdensity := xdensity dataset;
  ydensity := ydensity dataset;
  kdims := kdims dataset;
  vdims := vdims dataset
|}.

(** Channel [k] of every cell of a row. *)
Definition row_channel (k : nat) (row : list (list num)) : list num :=
  map (fun cell => default NaN (cell !! k)) row.

(** The rows of [acc] have [w] cells of [n] channels each. *)
Definition cells (w n : nat) (acc : list (list (list num))) : Prop :=
  Forall (fun row => length row = w /\
                     Forall (fun cell : list num => length cell = n) row) acc.



(** ** Sample datasets *)

Definition qz (n : Z) : num := Fin (inject_Z n).

(** The array [[1, NaN], [3, 4]] on the unit square, one value dimension. *)
Definition nan_image : Dataset := {|
  data := Arr2 2 [[qz 1; NaN]; [qz 3; qz 4]];
  bounds := Some {| bb_left := 0; bb_bottom := 0; bb_right := 1; bb_top := 1 |};
  xdensity := 2;
  ydensity := 2;
  kdims := ["x"; "y"];
  vdims := ["z"]
|}.

(** The same kind of image with no bounds attached. *)
Definition unbounded_image : Dataset := {|
  data := Arr2 2 [[qz 1; qz 2]; [qz 3; qz 4]];
  bounds := None;
  xdensity := 2;
  ydensity := 2;
  kdims := ["x"; "y"];
  vdims := ["z"]
|}.

(** The square from (0, 0) to (2, 2). *)
Definition square_bounds : BoundingBox :=
  {| bb_left := 0; bb_bottom := 0; bb_right := 2; bb_top := 2 |}.

(** The array [[1, 2], [3, 4]] on that square, one cell per unit. *)
Definition square_image : Dataset := {|
  data := Arr2 2 [[qz 1; qz 2]; [qz 3; qz 4]];
  bounds := Some square_bounds;
  xdensity := 1;
  ydensity := 1;
  kdims := ["x"; "y"];
  vdims := ["z"]
|}.

(** A 2 by 3 array on the rectangle from (0, 0) to (3, 2). *)
Definition wide_image : Dataset := {|
  data := Arr2 3 [[qz 1; qz 2; qz 3]; [qz 4; qz 5; qz 6]];
  bounds := Some {| bb_left := 0; bb_bottom := 0; bb_right := 3; bb_top := 2 |};
  xdensity := 1;
  ydensity := 1;
  kdims := ["x"; "y"];
  vdims := ["z"]
|}.

(** [list] as the container type: no NdMapping, it keeps the pairs it is
    given. *)
Definition plain_container
  : container_class group_arg (list (group_key * group_arg)) := {|
  is_NdMapping := false;
  container_new := fun groups _ => groups
|}.

(** [tuple] as the group type: no Element, so it is called without
    keywords, and [tuple(arg)] holds the items of [arg], whatever they
    are. *)
Definition tuple_group : group_class group_arg := {|
  is_Element := false;
  group_new := fun _ arg => arg
|}.


(** A scalar x half a cell left of the image, with the whole y range. *)
Definition selection_left_of_image : gmap string selval :=
  {[ "x" := SelScalar (-1 # 2); "y" := SelTuple [Some 0%Q; Some 2%Q] ]}.

(** A scalar x in the first column, with a y range from below the image to
    its middle. *)
Definition selection_lower_left : gmap string selval :=
  {[ "x" := SelScalar (1 # 2); "y" := SelTuple [Some (-1)%Q; Some 1%Q] ]}.

(** A tuple of the coordinates of a 2 by 2 image, its values, and one item
    more than there are dimensions. *)
Definition square_tuple : list ndarray :=
  [Arr1 [qz 0; qz 1]; Arr1 [qz 0; qz 1];
   Arr2 2 [[qz 1; qz 2]; [qz 3; qz 4]]; Arr1 [qz 7]].

(** An NdMapping container and an Element group type, both recording what
    they are constructed with. *)
Definition mapping_container
  : container_class (option (list Dimension) * group_arg)
      (list (group_key * (option (list Dimension) * group_arg))
       * list Dimension) := {|
  is_NdMapping := true;
  container_new := fun groups kdims' => (groups, kdims')
|}.

Definition element_group
  : group_class (option (list Dimension) * group_arg) := {|
  is_Element := true;
  group_new := fun kwargs arg => (kwargs, arg)
|}.

(** A frame with the columns a, b and a again, and an override for a. *)
Definition abc_columns : list string := ["a"; "b"; "a"].

Definition unit_dim (name : string) : DimObj :=
  {| dim_name := name; dim_unit := "m" |}.

Definition a_override : gmap string dim_entry :=
  {[ "a" := DimOf (unit_dim "a"); "z" := DimOf (unit_dim "z") ]}.

(** The dimensions a and b, and an override that puts time in the place
    of b. *)
Definition ab_kdims : list dim_entry :=
  [DimOf (unit_dim "a"); DimOf (unit_dim "b")].

Definition time_override : gmap string dim_entry :=
  {[ "b" := DimOf {| dim_name := "time"; dim_unit := "s" |} ]}.

(** A mapping with the coordinates of a 2 by 2 image and the arrays of two
    value dimensions. *)
Definition two_channel_mapping : gmap string ndarray :=
  {[ "x" := Arr1 [qz 0; qz 1]; "y" := Arr1 [qz 0; qz 1];
     "r" := Arr2 2 [[qz 1; qz 2]; [qz 3; qz 4]];
     "g" := Arr2 2 [[qz 5; qz 6]; [qz 7; qz 8]] ]}.

(** * Properties *)

(** ** Minimum and maximum of the entries that are numbers *)

Lemma Qmin_cases (x y : Q) :
  (Qmin x y = x /\ (x <= y)%Q) \/ (Qmin x y = y /\ (y <= x)%Q).
Proof.
  unfold Qmin, GenericMinMax.gmin.
  destruct (x ?= y)%Q eqn:E.
  - left. split; [done|]. apply Qeq_alt in E. rewrite E. apply Qle_refl.
  - left. split; [done|]. apply Qlt_alt in E. by apply Qlt_le_weak.
  - right. split; [done|]. apply Qgt_alt in E. by apply Qlt_le_weak.
Qed.

Lemma Qmax_cases (x y : Q) :
  (Qmax x y = x /\ (y <= x)%Q) \/ (Qmax x y = y /\ (x <= y)%Q).
Proof.
  unfold Qmax, GenericMinMax.gmax.
  destruct (x ?= y)%Q eqn:E.
  - left. split; [done|]. apply Qeq_alt in E. rewrite E. apply Qle_refl.
  - right. split; [done|]. apply Qlt_alt in E. by apply Qlt_le_weak.
  - left. split; [done|]. apply Qgt_alt in E. by apply Qlt_le_weak.
Qed.

Lemma fold_Qmin_least (qs : list Q) (q : Q) :
  let m := fold_left Qmin qs q in
  m ∈ q :: qs /\ forall x, x ∈ q :: qs -> (m <= x)%Q.
Proof.
  revert q. induction qs as [|a qs IH]; intros q; simpl.
  - split; [set_solver|]. intros x Hx. apply list_elem_of_singleton in Hx.
    subst. apply Qle_refl.
  - destruct (IH (Qmin q a)) as [Hin Hle]. split.
    + apply elem_of_cons in Hin as [->|Hin]; [|set_solver].
      destruct (Qmin_cases q a) as [[-> _]|[-> _]]; set_solver.
    + intros x Hx.
      assert (Hm : (fold_left Qmin qs (Qmin q a) <= Qmin q a)%Q)
        by (apply Hle; set_solver).
      apply elem_of_cons in Hx as [->|Hx].
      * eapply Qle_trans; [exact Hm|].
        destruct (Qmin_cases q a) as [[-> ?]|[-> ?]]; [apply Qle_refl|done].
      * apply elem_of_cons in Hx as [->|Hx]; [|apply Hle; set_solver].
        eapply Qle_trans; [exact Hm|].
        destruct (Qmin_cases q a) as [[-> ?]|[-> ?]]; [done|apply Qle_refl].
Qed.

Lemma fold_Qmax_greatest (qs : list Q) (q : Q) :
  let m := fold_left Qmax qs q in
  m ∈ q :: qs /\ forall x, x ∈ q :: qs -> (x <= m)%Q.
Proof.
  revert q. induction qs as [|a qs IH]; intros q; simpl.
  - split; [set_solver|]. intros x Hx. apply list_elem_of_singleton in Hx.
    subst. apply Qle_refl.
  - destruct (IH (Qmax q a)) as [Hin Hle]. split.
    + apply elem_of_cons in Hin as [->|Hin]; [|set_solver].
      destruct (Qmax_cases q a) as [[-> _]|[-> _]]; set_solver.
    + intros x Hx.
      assert (Hm : (Qmax q a <= fold_left Qmax qs (Qmax q a))%Q)
        by (apply Hle; set_solver).
      apply elem_of_cons in Hx as [->|Hx].
      * eapply Qle_trans; [|exact Hm].
        destruct (Qmax_cases q a) as [[-> ?]|[-> ?]]; [apply Qle_refl|done].
      * apply elem_of_cons in Hx as [->|Hx]; [|apply Hle; set_solver].
        eapply Qle_trans; [|exact Hm].
        destruct (Qmax_cases q a) as [[-> ?]|[-> ?]]; [done|apply Qle_refl].
Qed.

Lemma elem_of_finite (xs : list num) (q : Q) : q ∈ finite xs <-> Fin q ∈ xs.
Proof.
  induction xs as [|[|p] xs IH]; simpl.
  - set_solver.
  - rewrite IH. set_solver.
  - rewrite !elem_of_cons, IH. split; intros [H|H]; auto.
    + left. by subst.
    + left. by injection H.
Qed.

Lemma nanmin_spec (xs : list num) (q : Q) :
  Fin q ∈ xs ->
  exists lo, nanmin xs = Ok (Fin lo) /\ Fin lo ∈ xs /\
             forall x, Fin x ∈ xs -> (lo <= x)%Q.
Proof.
  intros Hq. unfold nanmin. destruct xs as [|x0 xs']; [set_solver|].
  remember (x0 :: xs') as xs. apply elem_of_finite in Hq as Hf.
  destruct (finite xs) as [|p ps] eqn:E; [set_solver|].
  destruct (fold_Qmin_least ps p) as [Hin Hle].
  exists (fold_left Qmin ps p). split; [done|]. split.
  - apply elem_of_finite. by rewrite E.
  - intros x Hx. apply Hle. rewrite <- E. by apply elem_of_finite.
Qed.

Lemma nanmax_spec (xs : list num) (q : Q) :
  Fin q ∈ xs ->
  exists hi, nanmax xs = Ok (Fin hi) /\ Fin hi ∈ xs /\
             forall x, Fin x ∈ xs -> (x <= hi)%Q.
Proof.
  intros Hq. unfold nanmax. destruct xs as [|x0 xs']; [set_solver|].
  remember (x0 :: xs') as xs. apply elem_of_finite in Hq as Hf.
  destruct (finite xs) as [|p ps] eqn:E; [set_solver|].
  destruct (fold_Qmax_greatest ps p) as [Hin Hle].
  exists (fold_left Qmax ps p). split; [done|]. split.
  - apply elem_of_finite. by rewrite E.
  - intros x Hx. apply Hle. rewrite <- E. by apply elem_of_finite.
Qed.

(** ** [range] *)

(** C9: with a bounding region, [range] of key dimension 0 is (left, right)
    and of key dimension 1 is (bottom, top), whatever the array holds; of a
    value dimension (index 2 up to 2 + len(vdims) - 1, channel index - 2) it
    is the least and the greatest entry of the channel that is a number,
    (1, 4) for [[1, NaN], [3, 4]]; of any other index it is (None, None). *)
Theorem range_by_index (obj : Dataset) (bb : BoundingBox) :
  bounds obj = Some bb ->
  range obj 0 = Ok (Some (Fin (bb_left bb)), Some (Fin (bb_right bb))) /\
  range obj 1 = Ok (Some (Fin (bb_bottom bb)), Some (Fin (bb_top bb))) /\
  (forall (k : Z) (ch : list (list num)) (q : Q),
      2 <= k < 2 + Z.of_nat (length (vdims obj)) ->
      channel (data obj) (k - 2) = Ok ch ->
      Fin q ∈ concat ch ->
      exists lo hi : Q,
        range obj k = Ok (Some (Fin lo), Some (Fin hi)) /\
        Fin lo ∈ concat ch /\ Fin hi ∈ concat ch /\
        forall x, Fin x ∈ concat ch -> (lo <= x)%Q /\ (x <= hi)%Q) /\
  (forall k : Z,
      k < 0 \/ 2 + Z.of_nat (length (vdims obj)) <= k ->
      range obj k = Ok (None, None)) /\
  range nan_image 2 = Ok (Some (qz 1), Some (qz 4)).
Proof.
  intros Hb. split_and!.
  - unfold range, bounds_lbrt. by rewrite Hb.
  - unfold range, bounds_lbrt. by rewrite Hb.
  - intros k ch q Hk Hch Hq.
    destruct (nanmin_spec _ _ Hq) as (lo & Hlo & Hlo_in & Hlo_le).
    destruct (nanmax_spec _ _ Hq) as (hi & Hhi & Hhi_in & Hhi_le).
    exists lo, hi. split; [|split; [done|split; [done|]]].
    + unfold range.
      replace (k =? 0) with false by lia.
      replace (k =? 1) with false by lia.
      replace (1 <? k) with true by lia.
      replace (k <? Z.of_nat (length (vdims obj)) + 2) with true by lia.
      simpl. rewrite Hch. simpl. rewrite Hlo. simpl. rewrite Hhi. done.
    + intros x Hx. split; [by apply Hlo_le | by apply Hhi_le].
  - intros k Hk. unfold range.
    replace (k =? 0) with false by lia.
    replace (k =? 1) with false by lia. simpl.
    destruct Hk as [Hk|Hk].
    + replace (1 <? k) with false by lia. done.
    + replace (k <? Z.of_nat (length (vdims obj)) + 2) with false by lia.
      by rewrite andb_false_r.
  - vm_compute. done.
Qed.

Lemma range_by_index_witness :
  range nan_image 0 = Ok (Some (qz 0), Some (qz 1)) /\
  range nan_image 3 = Ok (None, None).
Proof.
  destruct (range_by_index nan_image
              {| bb_left := 0; bb_bottom := 0; bb_right := 1; bb_top := 1 |}
              eq_refl) as (H0 & _ & _ & Hother & _).
  split; [exact H0|]. apply Hother. right. simpl. lia.
Defined.

(** C10: without bounds, [range] of key dimension 0 or 1 is (None, None):
    the key-dimension branch asks for truthy bounds, and these indices are
    below the value-dimension indices. *)
Theorem range_without_bounds (obj : Dataset) (dim_idx : Z) :
  bounds obj = None ->
  dim_idx = 0 \/ dim_idx = 1 ->
  range obj dim_idx = Ok (None, None).
Proof.
  intros Hb Hd. unfold range. rewrite Hb.
  rewrite bool_decide_eq_false_2 by (intros [? ?]; discriminate).
  rewrite andb_false_r.
  replace (1 <? dim_idx) with false by lia. done.
Qed.

Lemma range_without_bounds_witness :
  range unbounded_image 1 = Ok (None, None).
Proof.
  apply (range_without_bounds unbounded_image 1); [reflexivity | by right].
Defined.

(** ** [aggregate] *)

Lemma isscalar_atleast_1d (v : npvalue) : isscalar (atleast_1d v) = false.
Proof. by destruct v. Qed.

(** C1: reducing over all axes does not return the scalar.  [np.mean] over
    both axes of [[1, 2], [3, 4]] is the scalar 5/2, yet [aggregate] with no
    key dimension kept returns nothing: the reduced value goes through
    [np.atleast_1d], of which [np.isscalar] is never true, so no call of
    [aggregate] returns through the scalar branch. *)
Theorem aggregate_all_axes_returns_nothing :
  np_mean (data square_image) [1; 0] = Ok (NpScalar (Fin (5 # 2))) /\
  aggregate square_image [] np_mean = Ok AggNone /\
  forall dataset kdims' function v,
    aggregate dataset kdims' function <> Ok (AggScalar v).
Proof.
  split_and!; [by vm_compute | by vm_compute |].
  intros dataset kdims' function v. unfold aggregate.
  destruct (mapM _ _) as [axes|e]; simpl; [|done].
  destruct (function _ _) as [reduced|e]; simpl; [|done].
  rewrite isscalar_atleast_1d.
  destruct (length axes =? 1)%nat; [|done].
  destruct (first_dim kdims'); simpl; [|done].
  destruct (values _ _ _ _); simpl; [|done].
  by destruct (first_dim (vdims dataset)).
Qed.

(** ** [groupby] *)

(** C5: with a container type that is no NdMapping, [groupby] returns no
    container: once the groups are computed, the last statement raises a
    NameError for [grouped_data]. *)
Theorem groupby_plain_container_raises {G C} (dataset : Dataset)
    (dim_names : list Dimension) (container_type : container_class G C)
    (group_type : group_class G) :
  is_NdMapping container_type = false ->
  (forall c, groupby dataset dim_names container_type group_type <> Ok c) /\
  (forall groups, groupby_groups dataset dim_names = Ok groups ->
     groupby dataset dim_names container_type group_type
     = Raise (NameError "grouped_data")).
Proof.
  intros Hct. unfold groupby. rewrite Hct. split.
  - intros c. by destruct (groupby_groups dataset dim_names).
  - intros groups ->. done.
Qed.

Lemma groupby_plain_container_raises_witness :
  groupby square_image ["x"] plain_container tuple_group
  = Raise (NameError "grouped_data").
Proof.
  destruct (groupby_plain_container_raises square_image ["x"]
              plain_container tuple_group eq_refl) as [_ H].
  destruct (groupby_groups square_image ["x"]) as [groups|e] eqn:E.
  - by apply (H groups).
  - by vm_compute in E.
Defined.

(** ** [init] *)

Lemma getitem_0 {A} (x : A) (l : list A) : getitem (x :: l) 0 = Ok x.
Proof.
  unfold getitem, norm_index.
  replace (0 <? Z.of_nat (length (x :: l))) with true; [done|].
  symmetry. apply Z.ltb_lt. simpl length. lia.
Qed.

Lemma getitem_1 {A} (x y : A) (l : list A) : getitem (x :: y :: l) 1 = Ok y.
Proof.
  unfold getitem, norm_index.
  replace (1 <? Z.of_nat (length (x :: y :: l))) with true; [done|].
  symmetry. apply Z.ltb_lt. simpl length. lia.
Qed.


Lemma dict_get_found (d : gmap string ndarray) (k : string) (a : ndarray) :
  d !! k = Some a -> dict_get d k = Ok a.
Proof. unfold dict_get. by intros ->. Qed.

#[local] Arguments dict_get : simpl never.
#[local] Arguments bound_range : simpl never.




(** ** Cell centres *)

Lemma Qnat_pos (n : nat) : (0 < n)%nat -> (0 < Qnat n)%Q.
Proof.
  intros H. unfold Qnat. replace 0%Q with (inject_Z 0) by done.
  rewrite <- Zlt_Qlt. lia.
Qed.

Lemma Qnat_S (n : nat) : (Qnat (S n) == Qnat n + 1)%Q.
Proof.
  unfold Qnat. rewrite Nat2Z.inj_succ. unfold Z.succ.
  rewrite inject_Z_plus. reflexivity.
Qed.

Lemma length_linspace (a b : Q) (n : nat) : length (linspace a b n) = n.
Proof.
  destruct n as [|[|k]]; simpl; try done.
  rewrite length_app, length_map, length_seq. simpl. lia.
Qed.

Lemma linspace_lookup (a b : Q) (n i : nat) (x : Q) :
  linspace a b n !! i = Some x ->
  (n = 1%nat /\ x = a) \/
  ((2 <= n)%nat /\ (x == a + Qnat i * ((b - a) / Qnat (n - 1)))%Q).
Proof.
  intros Hx. assert (Hi : (i < n)%nat).
  { apply lookup_lt_Some in Hx. by rewrite length_linspace in Hx. }
  destruct n as [|[|k]]; [lia | |].
  - left. destruct i; [|lia]. simpl in Hx. by inversion Hx.
  - right. split; [lia|]. unfold linspace in Hx.
    replace (S (S k) - 1)%nat with (S k) by lia.
    destruct (decide (i < S k)%nat) as [Hlt|Hge].
    + rewrite lookup_app_l in Hx by (rewrite length_map, length_seq; lia).
      rewrite list_lookup_fmap, lookup_seq_lt in Hx by lia.
      simpl in Hx. inversion Hx. ring.
    + assert (i = S k) as -> by lia.
      rewrite lookup_app_r in Hx by (rewrite length_map, length_seq; lia).
      rewrite length_map, length_seq, Nat.sub_diag in Hx.
      simpl in Hx. inversion Hx. subst x.
      pose proof (Qnat_pos (S k) ltac:(lia)) as Hp.
      field. intros H0. rewrite H0 in Hp. by apply Qlt_irrefl in Hp.
Qed.

Lemma linspace_centres (lo hi : Q) (n i : nat) (x : Q) :
  let hu := ((hi - lo) / Qnat n / 2)%Q in
  linspace (lo + hu) (hi - hu) n !! i = Some x ->
  (x == lo + (2 * Qnat i + 1) * hu)%Q.
Proof.
  intros hu Hx. assert (Hi : (i < n)%nat).
  { apply lookup_lt_Some in Hx. by rewrite length_linspace in Hx. }
  pose proof (Qnat_pos n ltac:(lia)) as Hn.
  apply linspace_lookup in Hx as [[-> ->]|[Hn2 ->]].
  - assert (i = 0%nat) as -> by lia. unfold Qnat. simpl. ring.
  - pose proof (Qnat_pos (n - 1) ltac:(lia)) as Hn1.
    assert (Hn' : (Qnat n == Qnat (n - 1) + 1)%Q).
    { rewrite <- Qnat_S. by replace (S (n - 1)) with n by lia. }
    unfold hu. rewrite Hn'. rewrite Hn' in Hn. field. split; lra.
Qed.

Lemma centre_inside (lo hi x : Q) (n i : nat) :
  (lo < hi)%Q -> (i < n)%nat ->
  (x == lo + (2 * Qnat i + 1) * ((hi - lo) / Qnat n / 2))%Q ->
  (lo < x)%Q /\ (x < hi)%Q.
Proof.
  intros Hlh Hi Hx.
  pose proof (Qnat_pos n ltac:(lia)) as Hn.
  set (hu := ((hi - lo) / Qnat n / 2)%Q) in *.
  assert (Hw : (2 * Qnat n * hu == hi - lo)%Q).
  { unfold hu. field. lra. }
  assert (Hhu : (0 < hu)%Q).
  { unfold hu. apply Qlt_shift_div_l; [lra|]. apply Qlt_shift_div_l; lra. }
  assert (Hin : (Qnat i + 1 <= Qnat n)%Q).
  { rewrite <- Qnat_S. unfold Qnat. rewrite <- Zle_Qle. lia. }
  assert (Hi0 : (0 <= Qnat i)%Q).
  { unfold Qnat. replace 0%Q with (inject_Z 0) by done. rewrite <- Zle_Qle. lia. }
  split; nra.
Qed.

Lemma linspace_cell_centres (lo hi : Q) (n : nat) :
  (0 < n)%nat -> (lo < hi)%Q ->
  cell_centres lo hi n
    (linspace (lo + half_unit lo hi n) (hi - half_unit lo hi n) n).
Proof.
  intros Hn Hlh. pose proof (Qnat_pos n Hn) as HQn.
  set (xs := linspace _ _ n).
  assert (Hlen : length xs = n) by apply length_linspace.
  assert (Hc : forall i x, xs !! i = Some x ->
            (x == lo + (2 * Qnat i + 1) * half_unit lo hi n)%Q).
  { intros i x Hx. by apply linspace_centres. }
  split_and!; [done| | |].
  - intros i x Hx. split; [by apply Hc|].
    apply (centre_inside lo hi x n i); [done| |by apply Hc].
    apply lookup_lt_Some in Hx. lia.
  - intros i x x' Hx Hx'. rewrite (Hc _ _ Hx), (Hc _ _ Hx'), Qnat_S.
    unfold half_unit. field. lra.
  - destruct (lookup_lt_is_Some_2 xs 0%nat) as [x0 H0]; [lia|].
    destruct (lookup_lt_is_Some_2 xs (n - 1)%nat) as [xn Hxn]; [lia|].
    exists x0, xn. split_and!; [done|done| |].
    + rewrite (Hc _ _ H0). unfold Qnat. simpl. ring.
    + rewrite (Hc _ _ Hxn).
      assert (Hn' : (Qnat n == Qnat (n - 1) + 1)%Q).
      { rewrite <- Qnat_S. by replace (S (n - 1)) with n by lia. }
      unfold half_unit. rewrite Hn'. rewrite Hn' in HQn. field. lra.
Qed.

Lemma pydiv_Qnat (a : Q) (n : nat) :
  (0 < n)%nat -> pydiv a (Qnat n) = Ok (a / Qnat n)%Q.
Proof.
  intros Hn. unfold pydiv.
  destruct (Qeq_bool (Qnat n) 0) eqn:E; [|done].
  apply Qeq_bool_eq in E. pose proof (Qnat_pos n Hn) as Hp.
  rewrite E in Hp. by apply Qlt_irrefl in Hp.
Qed.

(** The two coordinate sequences [values] builds for the key dimensions. *)
Lemma values_unexpanded (dataset : Dataset) (bb : BoundingBox)
    (dim2 dim1 : nat) (flat : bool) :
  bounds dataset = Some bb ->
  shape2 (data dataset) = Ok (dim2, dim1) ->
  (0 < dim1)%nat -> (0 < dim2)%nat ->
  let xs := linspace (bb_left bb + half_unit (bb_left bb) (bb_right bb) dim1)
              (bb_right bb - half_unit (bb_left bb) (bb_right bb) dim1) dim1 in
  let ys := linspace (bb_bottom bb + half_unit (bb_bottom bb) (bb_top bb) dim2)
              (bb_top bb - half_unit (bb_bottom bb) (bb_top bb) dim2) dim2 in
  values dataset 0 false flat = Ok (ValArray (Arr1 (Fin <$> xs))) /\
  values dataset 1 false flat = Ok (ValArray (Arr1 (Fin <$> ys))) /\
  values dataset 0 true false
    = Ok (ValArray (Arr2 dim2 (map (fun x => repeat x dim2) (Fin <$> xs)))) /\
  values dataset 1 true false
    = Ok (ValArray (Arr2 dim2 (repeat (Fin <$> ys) dim1))) /\
  values dataset 0 true true
    = Ok (ValArray (Arr1 (concat (map (fun x => repeat x dim2)
                                      (Fin <$> xs))))) /\
  values dataset 1 true true
    = Ok (ValArray (Arr1 (concat (repeat (Fin <$> ys) dim1)))).
Proof.
  intros Hb Hs H1 H2 xs ys.
  unfold values, bounds_lbrt, meshgrid. rewrite Hb, Hs. simpl.
  rewrite !pydiv_Qnat by done. simpl.
  rewrite !length_map, !length_linspace.
  by split_and!.
Qed.

(** ** [values] *)

(** C8: for key dimension 0, [values] with [expanded=False] returns
    [shape[1]] cell centres evenly spaced inside (l, r), from
    [l + half_unit] to [r - half_unit] with
    [half_unit = (r - l) / count / 2]; for key dimension 1 it returns
    [shape[0]] cell centres inside (b, t) in the same way. *)
Theorem values_unexpanded_centres (dataset : Dataset) (bb : BoundingBox)
    (dim2 dim1 : nat) (flat : bool) :
  bounds dataset = Some bb ->
  shape (data dataset) = [dim2; dim1] ->
  (0 < dim1)%nat -> (0 < dim2)%nat ->
  (bb_left bb < bb_right bb)%Q -> (bb_bottom bb < bb_top bb)%Q ->
  exists xs ys,
    values dataset 0 false flat = Ok (ValArray (Arr1 (Fin <$> xs))) /\
    values dataset 1 false flat = Ok (ValArray (Arr1 (Fin <$> ys))) /\
    cell_centres (bb_left bb) (bb_right bb) dim1 xs /\
    cell_centres (bb_bottom bb) (bb_top bb) dim2 ys.
Proof.
  intros Hb Hs H1 H2 Hx Hy.
  assert (Hs2 : shape2 (data dataset) = Ok (dim2, dim1)).
  { unfold shape2. by rewrite Hs. }
  destruct (values_unexpanded dataset bb dim2 dim1 flat Hb Hs2 H1 H2)
    as (Hvx & Hvy & _).
  eexists _, _. split_and!; [exact Hvx | exact Hvy | |].
  - by apply linspace_cell_centres.
  - by apply linspace_cell_centres.
Qed.

Lemma values_unexpanded_centres_witness :
  exists xs ys,
    values wide_image 0 false true = Ok (ValArray (Arr1 (Fin <$> xs))) /\
    values wide_image 1 false true = Ok (ValArray (Arr1 (Fin <$> ys))) /\
    cell_centres 0 3 3 xs /\ cell_centres 0 2 2 ys.
Proof.
  apply (values_unexpanded_centres wide_image
           {| bb_left := 0; bb_bottom := 0; bb_right := 3; bb_top := 2 |}
           2 3 true); try reflexivity; lia.
Defined.




(** ** [groupby]: orientation *)

Lemma norm_index_nat (n i : nat) :
  (i < n)%nat -> norm_index n (Z.of_nat i) = Ok i.
Proof.
  intros Hi. unfold norm_index.
  replace (0 <=? Z.of_nat i) with true by (symmetry; apply Z.leb_le; lia).
  replace (Z.of_nat i <? Z.of_nat n) with true
    by (symmetry; apply Z.ltb_lt; lia).
  simpl. by rewrite Nat2Z.id.
Qed.

Lemma getitem_nat {A} (l : list A) (i : nat) (x : A) :
  l !! i = Some x -> getitem l (Z.of_nat i) = Ok x.
Proof.
  intros Hx. unfold getitem.
  rewrite norm_index_nat by (by eapply lookup_lt_Some). simpl.
  by rewrite Hx.
Qed.

(** One sample after the other, each paired with its coordinate. *)
Lemma mapM_samples (a : ndarray) (xvals : values_result)
    (h : nat -> sample) (v : nat -> ndarray) (idxs : list nat)
    (cs : list (option num)) :
  Forall (fun i => index_sample a (h i) = Ok (v i)) idxs ->
  mapM (fun '(s, c) =>
          vals ← index_sample a s;
          Ok (KeyCoord c, GroupColumns xvals vals))
       (zip (map h idxs) cs)
  = Ok (zip_with (fun i c => (KeyCoord c, GroupColumns xvals (v i))) idxs cs).
Proof.
  intros Hall. revert cs.
  induction Hall as [|i idxs Hi _ IH]; intros cs; [done|].
  destruct cs as [|c cs]; [done|].
  simpl. rewrite Hi. simpl. by rewrite IH.
Qed.

Lemma rows_by_index (m : list (list num)) :
  map (fun i => default [] (m !! i)) (seq 0 (length m)) = m.
Proof.
  apply list_eq. intros i.
  change (map ?f ?l) with (f <$> l). rewrite list_lookup_fmap.
  destruct (decide (i < length m)%nat) as [Hlt|Hge].
  - rewrite lookup_seq_lt by done. simpl.
    destruct (lookup_lt_is_Some_2 m i Hlt) as [x ->]. done.
  - rewrite lookup_seq_ge by lia. simpl.
    symmetry. apply lookup_ge_None. lia.
Qed.

Lemma reverse_rows_by_index (m : list (list num)) :
  reverse m
  = map (fun i => default [] (m !! i)) (reverse (seq 0 (length m))).
Proof.
  rewrite <- (rows_by_index m) at 1.
  change (map ?f ?l) with (f <$> l). by rewrite fmap_reverse.
Qed.

Lemma zip_with_indexed {A R B} (G : option A -> R -> B) (row : nat -> R)
    (idxs : list nat) (qs : list A) :
  zip_with (fun i c => G c (row i)) idxs (Some <$> qs)
  = zip_with (fun c r => G (Some c) r) qs (map row idxs).
Proof.
  revert qs. induction idxs as [|i idxs IH]; intros [|q qs]; simpl; try done.
  by rewrite IH.
Qed.

Lemma index_of_head (d : Dimension) (ds : list Dimension) :
  index_of d (d :: ds) = Some 0%nat.
Proof. simpl. by rewrite String.eqb_refl. Qed.

Lemma index_of_second (d d' : Dimension) (ds : list Dimension) :
  d <> d' -> index_of d' (d :: d' :: ds) = Some 1%nat.
Proof.
  intros Hne. simpl. rewrite String.eqb_refl.
  destruct (String.eqb d' d) eqn:E; [|done].
  apply String.eqb_eq in E. congruence.
Qed.

(** C2, as the code has it: grouping by the y axis (key dimension 1) leaves
    the array and the coordinate order as they are and takes the rows in
    reversed order, so the ascending coordinate [k] meets row [n - 1 - k];
    grouping by the x axis (key dimension 0) reverses the rows of the array
    and pairs coordinate [k] with column [k] of the reversed array. *)
Theorem groupby_orientation (dataset : Dataset) (bb : BoundingBox)
    (w : nat) (m : list (list num)) (kx ky : Dimension) :
  bounds dataset = Some bb ->
  data dataset = Arr2 w m ->
  (0 < w)%nat -> (0 < length m)%nat ->
  kdims dataset = [kx; ky] -> kx <> ky ->
  exists xs ys,
    values dataset 0 false true = Ok (ValArray (Arr1 xs)) /\
    values dataset 1 false true = Ok (ValArray (Arr1 ys)) /\
    length xs = w /\ length ys = length m /\
    groupby_groups dataset [ky]
    = Ok (zip_with (fun c row => (KeyCoord (Some c),
                                  GroupColumns (ValArray (Arr1 xs)) (Arr1 row)))
            ys (reverse m)) /\
    groupby_groups dataset [kx]
    = Ok (zip_with (fun c k => (KeyCoord (Some c),
                                GroupColumns (ValArray (Arr1 ys))
                                  (Arr1 (column k (reverse m)))))
            xs (seq 0 w)).
Proof.
  intros Hb Hd Hw Hm Hk Hne.
  assert (Hs : shape2 (data dataset) = Ok (length m, w)) by (by rewrite Hd).
  destruct (values_unexpanded dataset bb (length m) w true Hb Hs Hw Hm)
    as (Hvx & Hvy & _).
  eexists _, _. split_and!; [exact Hvx | exact Hvy | | | |].
  - by rewrite length_fmap, length_linspace.
  - by rewrite length_fmap, length_linspace.
  - unfold groupby_groups, dimension_values, get_dimension_index.
    rewrite Hk. simpl app. rewrite (index_of_second _ _ _ Hne).
    cbn [mbind result_bind]. change (Z.of_nat 1) with 1.
    rewrite Hvy. change (Z.abs (1 - 1)) with 0. rewrite Hvx.
    cbn [mbind result_bind]. rewrite Hd.
    unfold groupby_samples.
    change (Z.abs (1 - 1)) with 0. simpl shape. rewrite getitem_0.
    cbn [mbind result_bind Z.eqb items_of].
    change (map ?f ?l) with (f <$> l). rewrite <- fmap_reverse.
    change (?f <$> ?l) with (map f l) at 1.
    rewrite (mapM_samples _ _ _ (fun i => Arr1 (default [] (m !! i)))).
    2:{ apply Forall_forall. intros i Hi.
        apply elem_of_reverse, elem_of_seq in Hi.
        destruct (lookup_lt_is_Some_2 m i ltac:(lia)) as [row Hrow].
        simpl. rewrite (getitem_nat _ _ _ Hrow), Hrow. done. }
    f_equal.
    rewrite reverse_rows_by_index.
    apply (zip_with_indexed
             (fun c row => (KeyCoord c, GroupColumns _ (Arr1 row)))).
  - unfold groupby_groups, dimension_values, get_dimension_index.
    rewrite Hk. simpl app. rewrite index_of_head.
    cbn [mbind result_bind]. change (Z.of_nat 0) with 0.
    rewrite Hvx. change (Z.abs (0 - 1)) with 1. rewrite Hvy.
    cbn [mbind result_bind]. rewrite Hd.
    unfold groupby_samples.
    change (Z.abs (0 - 1)) with 1. simpl shape. rewrite getitem_1.
    cbn [mbind result_bind Z.eqb items_of flipud].
    rewrite (mapM_samples _ _ _ (fun k => Arr1 (column k (reverse m)))).
    2:{ apply Forall_forall. intros i Hi.
        apply elem_of_seq in Hi.
        simpl. rewrite norm_index_nat by lia. done. }
    f_equal.
    rewrite <- (map_id (seq 0 w)) at 2.
    apply (zip_with_indexed
             (fun c k => (KeyCoord c,
                          GroupColumns _ (Arr1 (column k (reverse m)))))).
Qed.

Lemma groupby_orientation_witness :
  exists xs ys,
    values square_image 0 false true = Ok (ValArray (Arr1 xs)) /\
    values square_image 1 false true = Ok (ValArray (Arr1 ys)) /\
    length xs = 2%nat /\ length ys = 2%nat /\
    groupby_groups square_image ["y"]
    = Ok (zip_with (fun c row => (KeyCoord (Some c),
                                  GroupColumns (ValArray (Arr1 xs)) (Arr1 row)))
            ys [[qz 3; qz 4]; [qz 1; qz 2]]) /\
    groupby_groups square_image ["x"]
    = Ok (zip_with (fun c k => (KeyCoord (Some c),
                                GroupColumns (ValArray (Arr1 ys))
                                  (Arr1 (column k [[qz 3; qz 4]; [qz 1; qz 2]]))))
            xs [0; 1]%nat).
Proof.
  apply (groupby_orientation square_image
           {| bb_left := 0; bb_bottom := 0; bb_right := 2; bb_top := 2 |}
           2 [[qz 1; qz 2]; [qz 3; qz 4]] "x" "y");
    try reflexivity; try (simpl; lia); discriminate.
Defined.

(** C2 as stated fails: on [[1, 2], [3, 4]] the groups of the y axis keep
    the coordinates in ascending order, and the groups of the x axis hold
    the columns of the array with its rows reversed. *)
Lemma groupby_orientation_not_as_stated :
  groupby_groups square_image ["y"] <> spec_groupby_pairs square_image 1 /\
  groupby_groups square_image ["x"] <> spec_groupby_pairs square_image 0.
Proof. split; intros H; vm_compute in H; congruence. Qed.

(** ** [select] *)

Lemma convert_selection_ok (selection : gmap string selval) :
  map_Forall (fun _ sel => is_Some (coord_of sel)) selection ->
  convert_selection selection = Ok (omap coord_of selection).
Proof.
  intros H. unfold convert_selection. by rewrite bool_decide_eq_true_2.
Qed.

Lemma lookup_converted (selection : gmap string selval) (k : string)
    (sel : selval) (c : coord) :
  selection !! k = Some sel -> coord_of sel = Some c ->
  omap coord_of selection !! k = Some c.
Proof. intros Hk Hc. by rewrite lookup_omap, Hk. Qed.

Lemma Qfloor_half (n : Z) (q : Q) :
  (q == inject_Z n + (1 # 2))%Q -> Qfloor q = n.
Proof.
  intros ->. symmetry. apply Z.le_antisymm.
  - rewrite <- (Qfloor_Z n) at 1. apply Qfloor_resp_le.
    assert (H : (0 <= 1 # 2)%Q) by done. lra.
  - apply Z.lt_succ_r. rewrite Zlt_Qlt.
    eapply Qle_lt_trans; [apply Qfloor_le|].
    unfold Z.succ. rewrite inject_Z_plus.
    assert (H : ((1 # 2) < inject_Z 1)%Q) by done. lra.
Qed.

#[local] Arguments Qfloor : simpl never.
#[local] Arguments Qceiling : simpl never.

Lemma sheet2matrixidx_centre (dataset : Dataset) (bb : BoundingBox)
    (i j : Z) (x y : Q) :
  bounds dataset = Some bb ->
  (0 < xdensity dataset)%Q -> (0 < ydensity dataset)%Q ->
  (x == bb_left bb + (inject_Z j + (1 # 2)) / xdensity dataset)%Q ->
  (y == bb_top bb - (inject_Z i + (1 # 2)) / ydensity dataset)%Q ->
  sheet2matrixidx dataset x y = Ok (i, j).
Proof.
  intros Hb Hxd Hyd Hx Hy.
  unfold sheet2matrixidx, sheet2matrix, bounds_lbrt. rewrite Hb. simpl.
  f_equal. f_equal.
  - apply Qfloor_half. rewrite Hy. field. lra.
  - apply Qfloor_half. rewrite Hx. field. lra.
Qed.

Lemma matrixidx2sheet_centre (dataset : Dataset) (bb : BoundingBox)
    (i j : Z) :
  bounds dataset = Some bb ->
  matrixidx2sheet dataset i j
  = Ok ((bb_left bb + (inject_Z j + (1 # 2)) / xdensity dataset)%Q,
        (bb_top bb - (inject_Z i + (1 # 2)) / ydensity dataset)%Q).
Proof.
  intros Hb. unfold matrixidx2sheet, matrix2sheet, bounds_lbrt.
  by rewrite Hb.
Qed.

(** C7: when both key dimensions are selected by scalars, [select] returns
    the array entry at the cell that the sheet-to-matrix index conversion
    gives for the two coordinates, with empty metadata; at the centre of
    cell (i, j) this is what indexing the array at (i, j) returns. *)
Theorem select_scalars (dataset : Dataset) (selection : gmap string selval)
    (kx ky : Dimension) (x y : Q) :
  kdims dataset = [kx; ky] ->
  map_Forall (fun _ sel => is_Some (coord_of sel)) selection ->
  selection !! kx = Some (SelScalar x) ->
  selection !! ky = Some (SelScalar y) ->
  select dataset selection
  = (idx ← sheet2matrixidx dataset x y;
     v ← getitem2 (data dataset) idx;
     Ok (v, ∅)) /\
  (forall (bb : BoundingBox) (i j : Z),
     bounds dataset = Some bb ->
     (0 < xdensity dataset)%Q -> (0 < ydensity dataset)%Q ->
     (x == bb_left bb + (inject_Z j + (1 # 2)) / xdensity dataset)%Q ->
     (y == bb_top bb - (inject_Z i + (1 # 2)) / ydensity dataset)%Q ->
     closest_cell_center dataset x y
     = Ok ((bb_left bb + (inject_Z j + (1 # 2)) / xdensity dataset)%Q,
           (bb_top bb - (inject_Z i + (1 # 2)) / ydensity dataset)%Q) /\
     select dataset selection
     = (v ← getitem2 (data dataset) (i, j); Ok (v, ∅))).
Proof.
  intros Hk Hall Hx Hy.
  assert (Hsel : select dataset selection
                 = (idx ← sheet2matrixidx dataset x y;
                    v ← getitem2 (data dataset) idx;
                    Ok (v, ∅))).
  { unfold select. rewrite (convert_selection_ok _ Hall), Hk.
    cbn [mbind result_bind map].
    rewrite (lookup_converted _ _ _ (CScalar x) Hx eq_refl).
    rewrite (lookup_converted _ _ _ (CScalar y) Hy eq_refl).
    done. }
  split; [exact Hsel|].
  intros bb i j Hb Hxd Hyd Hcx Hcy.
  pose proof (sheet2matrixidx_centre dataset bb i j x y Hb Hxd Hyd Hcx Hcy)
    as Hidx.
  split.
  - unfold closest_cell_center. rewrite Hidx. simpl.
    by apply matrixidx2sheet_centre.
  - rewrite Hsel, Hidx. done.
Qed.

Lemma select_scalars_witness :
  select square_image {[ "x" := SelScalar (3 # 2); "y" := SelScalar (3 # 2) ]}
  = Ok (NpScalar (qz 2), ∅).
Proof.
  assert (Hall : map_Forall (fun _ sel => is_Some (coord_of sel))
            ({[ "x" := SelScalar (3 # 2); "y" := SelScalar (3 # 2) ]}
               : gmap string selval)).
  { apply (bool_decide_unpack _). by vm_compute. }
  destruct (select_scalars square_image
              {[ "x" := SelScalar (3 # 2); "y" := SelScalar (3 # 2) ]}
              "x" "y" (3 # 2) (3 # 2) eq_refl Hall eq_refl eq_refl)
    as [_ Hcentre].
  destruct (Hcentre
              {| bb_left := 0; bb_bottom := 0; bb_right := 2; bb_top := 2 |}
              0 1 eq_refl eq_refl eq_refl eq_refl eq_refl) as [_ ->].
  reflexivity.
Defined.

(** ** [select]: ranges *)

Lemma Qnat_nonneg (n : nat) : (0 <= Qnat n)%Q.
Proof.
  unfold Qnat. replace 0%Q with (inject_Z 0) by done.
  rewrite <- Zle_Qle. lia.
Qed.

(** An edge at [u] cells from the origin is taken to a cell boundary
    between 0 and [n]. *)
Lemma nearest_boundary (u : Q) (n : nat) :
  (0 <= u)%Q -> (u <= Qnat n)%Q ->
  0 <= Qceiling (u - (1 # 2)) <= Z.of_nat n /\
  0 <= Qfloor (u + (1 # 2)) <= Z.of_nat n.
Proof.
  intros H0 Hn. assert (Hh : (0 <= 1 # 2)%Q) by done. split_and!.
  - change 0 with (Qceiling (- (1 # 2))). apply Qceiling_resp_le. lra.
  - rewrite <- (Qceiling_Z (Z.of_nat n)). apply Qceiling_resp_le.
    unfold Qnat in Hn. lra.
  - change 0 with (Qfloor 0). apply Qfloor_resp_le. lra.
  - rewrite <- (Qfloor_half (Z.of_nat n) (Qnat n + (1 # 2))) by done.
    apply Qfloor_resp_le. lra.
Qed.

Lemma nearest_boundary_0 (u : Q) :
  (u == 0)%Q -> Qceiling (u - (1 # 2)) = 0.
Proof. by intros ->. Qed.

Lemma nearest_boundary_n (u : Q) (n : nat) :
  (u == Qnat n)%Q -> Qfloor (u + (1 # 2)) = Z.of_nat n.
Proof. intros ->. by apply Qfloor_half. Qed.

(** A point of the axis lies a number of cells between 0 and [n] from its
    origin. *)
Lemma cells_from_origin (lo hi d x : Q) (n : nat) :
  (0 < d)%Q -> ((hi - lo) * d == Qnat n)%Q ->
  (lo <= x)%Q -> (x <= hi)%Q ->
  (0 <= (x - lo) * d)%Q /\ ((x - lo) * d <= Qnat n)%Q.
Proof. intros Hd Hn Hlo Hhi. rewrite <- Hn. split; nra. Qed.

Lemma cells_to_top (lo hi d y : Q) (n : nat) :
  (0 < d)%Q -> ((hi - lo) * d == Qnat n)%Q ->
  (lo <= y)%Q -> (y <= hi)%Q ->
  (0 <= (hi - y) * d)%Q /\ ((hi - y) * d <= Qnat n)%Q.
Proof. intros Hd Hn Hlo Hhi. rewrite <- Hn. split; nra. Qed.

(** A cell boundary between 0 and [n] lies on the axis. *)
Lemma boundary_on_axis (lo hi d : Q) (n : nat) (c : Z) :
  (0 < d)%Q -> ((hi - lo) * d == Qnat n)%Q ->
  0 <= c <= Z.of_nat n ->
  (lo <= lo + inject_Z c / d)%Q /\ (lo + inject_Z c / d <= hi)%Q /\
  (lo <= hi - inject_Z c / d)%Q /\ (hi - inject_Z c / d <= hi)%Q.
Proof.
  intros Hd Hn [Hc0 Hcn].
  assert (H0 : (0 <= inject_Z c)%Q).
  { replace 0%Q with (inject_Z 0) by done. by rewrite <- Zle_Qle. }
  assert (H1 : (inject_Z c <= Qnat n)%Q).
  { unfold Qnat. by rewrite <- Zle_Qle. }
  assert (Hq : (0 <= inject_Z c / d)%Q).
  { apply Qle_shift_div_l; [done|]. lra. }
  assert (Hw : (inject_Z c / d <= hi - lo)%Q).
  { apply Qle_shift_div_r; [done|]. lra. }
  split_and!; lra.
Qed.

Lemma points_inside (bb : BoundingBox) (l b r t : Q) :
  corners_inside bb l b r t ->
  let p := BoundingBox_points (l, b) (r, t) in
  corners_inside bb (bb_left p) (bb_bottom p) (bb_right p) (bb_top p).
Proof.
  intros (Hl & Hr & Hb & Ht). simpl. unfold corners_inside.
  destruct (Qmin_cases l r) as [[-> _]|[-> _]];
    destruct (Qmax_cases l r) as [[-> _]|[-> _]];
    destruct (Qmin_cases b t) as [[-> _]|[-> _]];
    destruct (Qmax_cases b t) as [[-> _]|[-> _]]; done.
Qed.

Lemma inside_within (bb p : BoundingBox) :
  corners_inside bb (bb_left p) (bb_bottom p) (bb_right p) (bb_top p) ->
  within p bb.
Proof. intros (Hl & Hr & Hb & Ht). unfold within. tauto. Qed.

Section WholeCells.
Context (dataset : Dataset) (bb : BoundingBox) (nrows ncols : nat).
Hypothesis Hwc : whole_cells dataset bb nrows ncols.

Lemma sheet2matrix_ok (x y : Q) :
  sheet2matrix dataset x y
  = Ok (((bb_top bb - y) * ydensity dataset)%Q,
        ((x - bb_left bb) * xdensity dataset)%Q).
Proof.
  destruct Hwc as (Hb & _). unfold sheet2matrix, bounds_lbrt.
  by rewrite Hb.
Qed.

Lemma matrix2sheet_ok (frow fcol : Q) :
  matrix2sheet dataset frow fcol
  = Ok ((bb_left bb + fcol / xdensity dataset)%Q,
        (bb_top bb - frow / ydensity dataset)%Q).
Proof.
  destruct Hwc as (Hb & _). unfold matrix2sheet, bounds_lbrt.
  by rewrite Hb.
Qed.

Lemma bounds_ordered :
  (bb_left bb <= bb_right bb)%Q /\ (bb_bottom bb <= bb_top bb)%Q.
Proof.
  destruct Hwc as (_ & _ & Hxd & Hyd & Hw & Hh).
  pose proof (Qnat_nonneg ncols). pose proof (Qnat_nonneg nrows).
  split; nra.
Qed.

(** The slice of a rectangle on the axes names rows and columns of the
    array, and all of them along an axis the rectangle spans. *)
Lemma slice_on_axes (l b r t : Q) :
  corners_inside bb l b r t ->
  exists r1 r2 c1 c2,
    Slice (BoundingBox_points (l, b) (r, t)) dataset = Ok (r1, r2, c1, c2) /\
    0 <= r1 <= Z.of_nat nrows /\ 0 <= r2 <= Z.of_nat nrows /\
    0 <= c1 <= Z.of_nat ncols /\ 0 <= c2 <= Z.of_nat ncols /\
    ((l == bb_left bb)%Q -> (r == bb_right bb)%Q ->
     c1 = 0 /\ c2 = Z.of_nat ncols) /\
    ((b == bb_bottom bb)%Q -> (t == bb_top bb)%Q ->
     r1 = 0 /\ r2 = Z.of_nat nrows).
Proof.
  intros Hin. pose proof (points_inside bb l b r t Hin) as Hp.
  destruct Hp as ((HL0 & HL1) & (HR0 & HR1) & (HB0 & HB1) & (HT0 & HT1)).
  destruct Hwc as (Hb & _ & Hxd & Hyd & Hw & Hh).
  destruct bounds_ordered as [Hlr Hbt].
  unfold Slice. cbn [lbrt]. rewrite !sheet2matrix_ok.
  cbn [mbind result_bind].
  eexists _, _, _, _. split; [reflexivity|].
  cbn [bb_left bb_right bb_top bb_bottom BoundingBox_points fst snd] in *.
  destruct (cells_to_top _ _ _ (Qmax b t) _ Hyd Hh HT0 HT1) as [Ht0 Ht1].
  destruct (cells_to_top _ _ _ (Qmin b t) _ Hyd Hh HB0 HB1) as [Hb0 Hb1].
  destruct (cells_from_origin _ _ _ (Qmin l r) _ Hxd Hw HL0 HL1)
    as [Hl0 Hl1].
  destruct (cells_from_origin _ _ _ (Qmax l r) _ Hxd Hw HR0 HR1)
    as [Hr0 Hr1].
  destruct (nearest_boundary _ _ Ht0 Ht1) as [? _].
  destruct (nearest_boundary _ _ Hb0 Hb1) as [_ ?].
  destruct (nearest_boundary _ _ Hl0 Hl1) as [? _].
  destruct (nearest_boundary _ _ Hr0 Hr1) as [_ ?].
  do 4 (split; [done|]). split.
  - intros El Er. split.
    + apply nearest_boundary_0.
      rewrite Q.min_l by (rewrite El, Er; done). rewrite El. ring.
    + apply nearest_boundary_n.
      rewrite Q.max_r by (rewrite El, Er; done). by rewrite Er.
  - intros Eb Et. split.
    + apply nearest_boundary_0.
      rewrite Q.max_r by (rewrite Eb, Et; done). rewrite Et. ring.
    + apply nearest_boundary_n.
      rewrite Q.min_l by (rewrite Eb, Et; done). by rewrite Eb.
Qed.

(** The bounds a slice inside the array realises lie on the axes. *)
Lemma compute_bounds_on_axes (r1 r2 c1 c2 : Z) :
  0 <= r1 <= Z.of_nat nrows -> 0 <= r2 <= Z.of_nat nrows ->
  0 <= c1 <= Z.of_nat ncols -> 0 <= c2 <= Z.of_nat ncols ->
  exists realised,
    compute_bounds (r1, r2, c1, c2) dataset = Ok realised /\
    corners_inside bb (bb_left realised) (bb_bottom realised)
      (bb_right realised) (bb_top realised).
Proof.
  intros Hr1 Hr2 Hc1 Hc2.
  destruct Hwc as (Hb & _ & Hxd & Hyd & Hw & Hh).
  unfold compute_bounds. rewrite !matrix2sheet_ok.
  cbn [mbind result_bind].
  eexists. split; [reflexivity|].
  apply points_inside. unfold corners_inside.
  pose proof (boundary_on_axis _ _ _ _ c1 Hxd Hw Hc1).
  pose proof (boundary_on_axis _ _ _ _ c2 Hxd Hw Hc2).
  pose proof (boundary_on_axis _ _ _ _ r1 Hyd Hh Hr1).
  pose proof (boundary_on_axis _ _ _ _ r2 Hyd Hh Hr2).
  tauto.
Qed.
End WholeCells.

Lemma pydiv_pos (d : Q) : (0 < d)%Q -> pydiv 1 d = Ok (1 / d)%Q.
Proof.
  intros Hd. unfold pydiv. destruct (Qeq_bool d 0) eqn:E; [|done].
  apply Qeq_bool_eq in E. rewrite E in Hd. by apply Qlt_irrefl in Hd.
Qed.

Lemma slice_bound_0 (n : nat) : slice_bound n 0 = 0%nat.
Proof. unfold slice_bound. simpl. lia. Qed.

Lemma slice_bound_full (n : nat) : slice_bound n (Z.of_nat n) = n.
Proof.
  unfold slice_bound.
  replace (Z.of_nat n <? 0) with false by (symmetry; apply Z.ltb_ge; lia).
  lia.
Qed.

Lemma length_pyslice_full {A} (l : list A) :
  length (pyslice l 0 (Z.of_nat (length l))) = length l.
Proof.
  unfold pyslice. rewrite slice_bound_0, slice_bound_full.
  rewrite length_take, length_drop. lia.
Qed.

Lemma getitem_in_range {A} (l : list A) (i : Z) :
  0 <= i < Z.of_nat (length l) -> exists x, getitem l i = Ok x.
Proof.
  intros Hi. destruct (lookup_lt_is_Some_2 l (Z.to_nat i)) as [x Hx]; [lia|].
  exists x. rewrite <- (Z2Nat.id i) by lia. by apply getitem_nat.
Qed.

Lemma submatrix_of_image (a : ndarray) (nr nc : nat) (slc : Z * Z * Z * Z) :
  shape2 a = Ok (nr, nc) -> exists sub, submatrix slc a = Ok sub.
Proof.
  destruct slc as [[[r1 r2] c1] c2].
  destruct a; [discriminate| |]; intros _; simpl; eauto.
Qed.

Lemma column_of_submatrix (a : ndarray) (nr nc : nat) (r1 r2 xi : Z) :
  shape2 a = Ok (nr, nc) -> 0 <= xi < Z.of_nat nc ->
  exists sub sub',
    submatrix (r1, r2, 0, Z.of_nat nc) a = Ok sub /\
    column_keepdims sub xi = Ok sub'.
Proof.
  intros Hs Hxi.
  assert (Hn : norm_index (slice_bound nc (Z.of_nat nc) - slice_bound nc 0) xi
               = Ok (Z.to_nat xi)).
  { rewrite slice_bound_0, slice_bound_full, Nat.sub_0_r.
    rewrite <- (Z2Nat.id xi) at 1 by lia. apply norm_index_nat. lia. }
  destruct a as [v|w m|w ch c]; [discriminate| |];
    simpl in Hs; inversion Hs; subst; eexists _, _;
    (split; [reflexivity|]); cbn [column_keepdims]; rewrite Hn; reflexivity.
Qed.

Lemma row_of_submatrix (a : ndarray) (nr nc : nat) (c1 c2 yi : Z) :
  shape2 a = Ok (nr, nc) -> 0 <= yi < Z.of_nat nr ->
  exists sub sub',
    submatrix (0, Z.of_nat nr, c1, c2) a = Ok sub /\
    row_keepdims sub yi = Ok sub'.
Proof.
  intros Hs Hyi.
  destruct a as [v|w m|w ch c]; [discriminate| |];
    simpl in Hs; inversion Hs; subst.
  - destruct (getitem_in_range
                (map (fun row => pyslice row c1 c2)
                     (pyslice m 0 (Z.of_nat (length m)))) yi) as [row Hrow].
    { by rewrite length_map, length_pyslice_full. }
    eexists _, _. split; [reflexivity|].
    cbn [row_keepdims]. rewrite Hrow. reflexivity.
  - destruct (getitem_in_range
                (map (fun row => pyslice row c1 c2)
                     (pyslice c 0 (Z.of_nat (length c)))) yi) as [row Hrow].
    { by rewrite length_map, length_pyslice_full. }
    eexists _, _. split; [reflexivity|].
    cbn [row_keepdims]. rewrite Hrow. reflexivity.
Qed.

(** The cell of a point that lies fewer than [n] cells from the origin. *)
Lemma cell_in_range (u : Q) (n : nat) :
  (0 <= u)%Q -> (u < Qnat n)%Q -> 0 <= Qfloor u < Z.of_nat n.
Proof.
  intros H0 Hn. split.
  - change 0 with (Qfloor 0). by apply Qfloor_resp_le.
  - rewrite Zlt_Qlt. eapply Qle_lt_trans; [apply Qfloor_le|done].
Qed.

Lemma clamp_low_inside (lo hi : Q) (start : option Q) :
  (lo <= hi)%Q -> (forall s, start = Some s -> (s <= hi)%Q) ->
  (lo <= clamp_low lo start)%Q /\ (clamp_low lo start <= hi)%Q.
Proof.
  intros Hlh Hs. destruct start as [s|]; simpl; [|split; [apply Qle_refl|done]].
  specialize (Hs s eq_refl).
  destruct (Qmax_cases lo s) as [[-> ?]|[-> ?]]; split;
    done || apply Qle_refl.
Qed.

Lemma clamp_high_inside (lo hi : Q) (stop : option Q) :
  (lo <= hi)%Q -> (forall s, stop = Some s -> (lo <= s)%Q) ->
  (lo <= clamp_high hi stop)%Q /\ (clamp_high hi stop <= hi)%Q.
Proof.
  intros Hlh Hs. destruct stop as [s|]; simpl; [|split; [done|apply Qle_refl]].
  specialize (Hs s eq_refl).
  destruct (Qmin_cases hi s) as [[-> ?]|[-> ?]]; split;
    done || apply Qle_refl.
Qed.

Lemma clamp_axis_inside (idx : coord) (lo hi : Q) :
  (lo <= hi)%Q ->
  match idx with
  | CSlice start stop =>
      (forall s, start = Some s -> (s <= hi)%Q) /\
      (forall s, stop = Some s -> (lo <= s)%Q)
  | CScalar _ => True
  end ->
  exists l r,
    clamp_axis idx lo hi = (l, r) /\
    ((lo <= l)%Q /\ (l <= hi)%Q) /\ ((lo <= r)%Q /\ (r <= hi)%Q) /\
    (is_slice idx = false -> l = lo /\ r = hi).
Proof.
  intros Hlh Hm. destruct idx as [x|start stop]; simpl;
    eexists _, _; (split; [reflexivity|]).
  - pose proof (Qle_refl lo). pose proof (Qle_refl hi). by split_and!.
  - destruct Hm as [Hs He].
    pose proof (clamp_low_inside lo hi start Hlh Hs).
    pose proof (clamp_high_inside lo hi stop Hlh He).
    split_and!; tauto || discriminate.
Qed.

(** C6, as the code has it: the rectangle asked for is clamped per axis to
    the dataset's bounds ([max] for the lower bound, [min] for the upper
    bound) on the axes selected by a range.  For a dataset whose bounds hold
    whole cells at its densities, and a selection that meets the bounds
    (a range does not start above the upper edge nor stop below the lower
    edge, a scalar lies inside the array), [select] returns bounds that are
    no larger than the dataset's bounds on any side. *)
Theorem select_ranges_within (dataset : Dataset)
    (selection : gmap string selval) (bb : BoundingBox) (nrows ncols : nat)
    (kx ky : Dimension) (xidx yidx : coord) :
  whole_cells dataset bb nrows ncols ->
  kdims dataset = [kx; ky] ->
  map_Forall (fun _ sel => is_Some (coord_of sel)) selection ->
  xidx = default (CSlice None None) (omap coord_of selection !! kx) ->
  yidx = default (CSlice None None) (omap coord_of selection !! ky) ->
  is_slice xidx || is_slice yidx = true ->
  x_meets bb xidx -> y_meets bb yidx ->
  (exists l b r t,
     clamp_selection xidx yidx (lbrt bb) = (l, b, r, t) /\
     (bb_left bb <= l)%Q /\ (bb_bottom bb <= b)%Q /\
     (r <= bb_right bb)%Q /\ (t <= bb_top bb)%Q) /\
  (exists sub bb',
     select dataset selection = Ok (NpArray sub, {[ "bounds" := bb' ]}) /\
     within bb' bb).
Proof.
  intros Hwc Hk Hall Hx Hy Hsl Hxm Hym.
  destruct (bounds_ordered dataset bb nrows ncols Hwc) as [Hlr Hbt].
  assert (Hcl : exists l b r t,
            clamp_selection xidx yidx (lbrt bb) = (l, b, r, t) /\
            corners_inside bb l b r t /\
            (is_slice xidx = false -> l = bb_left bb /\ r = bb_right bb) /\
            (is_slice yidx = false -> b = bb_bottom bb /\ t = bb_top bb)).
  { unfold clamp_selection, lbrt, corners_inside.
    destruct (clamp_axis_inside xidx _ _ Hlr) as (l & r & -> & ? & ? & ?).
    { by destruct xidx; [|destruct Hxm]. }
    destruct (clamp_axis_inside yidx _ _ Hbt) as (b & t & -> & ? & ? & ?).
    { by destruct yidx; [|destruct Hym]. }
    by exists l, b, r, t. }
  destruct Hcl as (l & b & r & t & Hcl & Hin & Hxfull & Hyfull).
  split.
  { exists l, b, r, t. destruct Hin as ((? & ?) & (? & ?) & (? & ?) & (? & ?)).
    by split_and!. }
  destruct Hwc as (Hb & Hs2 & Hxd & Hyd & Hw & Hh).
  assert (Hwc : whole_cells dataset bb nrows ncols) by (by split_and!).
  destruct (slice_on_axes dataset bb nrows ncols Hwc l b r t Hin)
    as (r1 & r2 & c1 & c2 & HS & Hr1 & Hr2 & Hc1 & Hc2 & Hcfull & Hrfull).
  destruct (compute_bounds_on_axes dataset bb nrows ncols Hwc r1 r2 c1 c2
              Hr1 Hr2 Hc1 Hc2) as (realised & HR & Hrin).
  destruct Hrin as (HRl & HRr & HRb & HRt).
  unfold select. rewrite (convert_selection_ok _ Hall), Hk.
  cbn [mbind result_bind map]. rewrite <- Hx, <- Hy.
  cbn [existsb]. rewrite orb_false_r, Hsl. cbn [negb].
  unfold bounds_lbrt at 1. rewrite Hb.
  rewrite (pydiv_pos _ Hxd), (pydiv_pos _ Hyd).
  cbn [mbind result_bind]. rewrite Hcl, HS. cbn [mbind result_bind].
  destruct xidx as [x|sx ex], yidx as [y|sy ey]; [discriminate| | |].
  - (* x is a scalar, y a range *)
    destruct (Hxfull eq_refl) as [-> ->].
    destruct (Hcfull ltac:(reflexivity) ltac:(reflexivity)) as [-> ->].
    destruct Hxm as [Hx0 Hx1].
    assert (Hxi : 0 <= Qfloor ((x - bb_left bb) * xdensity dataset)
                  < Z.of_nat ncols).
    { apply cell_in_range; [nra | rewrite <- Hw; nra]. }
    destruct (column_of_submatrix _ _ _ r1 r2 _ Hs2 Hxi)
      as (sub & sub' & -> & Hcol).
    cbn [mbind result_bind]. rewrite HR. cbn [mbind result_bind lbrt].
    unfold closest_cell_center, sheet2matrixidx, matrixidx2sheet.
    rewrite (sheet2matrix_ok _ _ _ _ Hwc). cbn [mbind result_bind].
    rewrite (matrix2sheet_ok _ _ _ _ Hwc). cbn [mbind result_bind].
    rewrite Hcol. cbn [mbind result_bind].
    eexists _, _. split; [reflexivity|].
    apply inside_within, points_inside. unfold corners_inside.
    set (xi := Qfloor ((x - bb_left bb) * xdensity dataset)) in *.
    assert (E1 : (bb_left bb + (inject_Z xi + (1 # 2)) / xdensity dataset
                  - 1 / xdensity dataset / 2
                  == bb_left bb + inject_Z xi / xdensity dataset)%Q)
      by (field; lra).
    assert (E2 : (bb_left bb + (inject_Z xi + (1 # 2)) / xdensity dataset
                  + 1 / xdensity dataset / 2
                  == bb_left bb + inject_Z (xi + 1) / xdensity dataset)%Q)
      by (rewrite inject_Z_plus; simpl (inject_Z 1); field; lra).
    rewrite E1, E2.
    pose proof (boundary_on_axis _ _ _ _ xi Hxd Hw ltac:(lia)).
    pose proof (boundary_on_axis _ _ _ _ (xi + 1) Hxd Hw ltac:(lia)).
    tauto.
  - (* x is a range, y a scalar *)
    destruct (Hyfull eq_refl) as [-> ->].
    destruct (Hrfull ltac:(reflexivity) ltac:(reflexivity)) as [-> ->].
    destruct Hym as [Hy0 Hy1].
    assert (Hyi : 0 <= Qfloor ((bb_top bb - y) * ydensity dataset)
                  < Z.of_nat nrows).
    { apply cell_in_range; [nra | rewrite <- Hh; nra]. }
    destruct (row_of_submatrix _ _ _ c1 c2 _ Hs2 Hyi)
      as (sub & sub' & -> & Hrow).
    cbn [mbind result_bind]. rewrite HR. cbn [mbind result_bind lbrt].
    unfold closest_cell_center, sheet2matrixidx, matrixidx2sheet.
    rewrite (sheet2matrix_ok _ _ _ _ Hwc). cbn [mbind result_bind].
    rewrite (matrix2sheet_ok _ _ _ _ Hwc). cbn [mbind result_bind].
    rewrite Hrow. cbn [mbind result_bind].
    eexists _, _. split; [reflexivity|].
    apply inside_within, points_inside. unfold corners_inside.
    set (yi := Qfloor ((bb_top bb - y) * ydensity dataset)) in *.
    assert (E1 : (bb_top bb - (inject_Z yi + (1 # 2)) / ydensity dataset
                  - 1 / ydensity dataset / 2
                  == bb_top bb - inject_Z (yi + 1) / ydensity dataset)%Q)
      by (rewrite inject_Z_plus; simpl (inject_Z 1); field; lra).
    assert (E2 : (bb_top bb - (inject_Z yi + (1 # 2)) / ydensity dataset
                  + 1 / ydensity dataset / 2
                  == bb_top bb - inject_Z yi / ydensity dataset)%Q)
      by (field; lra).
    rewrite E1, E2.
    pose proof (boundary_on_axis _ _ _ _ yi Hyd Hh ltac:(lia)).
    pose proof (boundary_on_axis _ _ _ _ (yi + 1) Hyd Hh ltac:(lia)).
    tauto.
  - (* both are ranges *)
    destruct (submatrix_of_image _ _ _ (r1, r2, c1, c2) Hs2) as [sub ->].
    cbn [mbind result_bind]. rewrite HR. cbn [mbind result_bind lbrt].
    eexists _, _. split; [reflexivity|].
    by apply inside_within, points_inside.
Qed.

Lemma select_ranges_within_witness :
  (exists l b r t,
     clamp_selection (CScalar (1 # 2)) (CSlice (Some (-1)%Q) (Some 1%Q))
       (lbrt square_bounds) = (l, b, r, t) /\
     (bb_left square_bounds <= l)%Q /\ (bb_bottom square_bounds <= b)%Q /\
     (r <= bb_right square_bounds)%Q /\ (t <= bb_top square_bounds)%Q) /\
  (exists sub bb',
     select square_image selection_lower_left
     = Ok (NpArray sub, {[ "bounds" := bb' ]}) /\
     within bb' square_bounds).
Proof.
  apply (select_ranges_within square_image selection_lower_left
           square_bounds 2 2 "x" "y").
  - by split_and!.
  - reflexivity.
  - apply (bool_decide_unpack _). by vm_compute.
  - by vm_compute.
  - by vm_compute.
  - reflexivity.
  - by split.
  - split; intros s [= <-]; done.
Defined.

(** C6 as stated fails: with a scalar x half a cell left of the image and
    the whole y range, [select] returns the last column under bounds that
    reach from -1 to 0 on the x axis, left of the dataset's bounds. *)
Lemma select_scalar_axis_leaves_bounds :
  exists sub bb',
    select square_image selection_left_of_image
    = Ok (NpArray sub, {[ "bounds" := bb' ]}) /\
    (bb_left bb' < bb_left square_bounds)%Q /\
    ~ within bb' square_bounds.
Proof.
  eexists _, _. split; [by vm_compute|]. split; [by vm_compute|].
  intros (Hl & _). by vm_compute in Hl.
Qed.

(** * Further properties of the interface *)

(** ** [init]: what it returns *)

(** X1: whatever [init] is given, an array it returns has rank 2 or 3, and
    it comes with the key and value dimensions passed, or those of the
    element type where none were passed. *)
Theorem init_returns_image (eltype_kdims eltype_vdims : list Dimension)
    (data : pydata) (kdims' vdims' : option (list Dimension))
    (a : ndarray) (K V : list Dimension) :
  init eltype_kdims eltype_vdims data kdims' vdims' = Ok (a, K, V) ->
  (ndim a = 2%nat \/ ndim a = 3%nat) /\
  K = default eltype_kdims kdims' /\ V = default eltype_vdims vdims'.
Proof.
  unfold init. intros H.
  match type of H with
  | (?r ≫= _) = _ => destruct r as [[a'| | |]|e] eqn:E
  end; simpl in H; try discriminate.
  destruct (bool_decide (ndim a' = 2%nat \/ ndim a' = 3%nat)) eqn:Hr;
    [|discriminate].
  apply bool_decide_eq_true_1 in Hr. by inversion H; subst.
Qed.

Lemma init_returns_image_witness :
  (ndim (Arr2 2 [[qz 1; qz 2]; [qz 3; qz 4]]) = 2%nat \/
   ndim (Arr2 2 [[qz 1; qz 2]; [qz 3; qz 4]]) = 3%nat) /\
  ["x"; "y"] = default ["x"; "y"] None /\ ["z"] = default ["z"] None.
Proof.
  apply (init_returns_image ["x"; "y"] ["z"]
           (PyArray (Arr2 2 [[qz 1; qz 2]; [qz 3; qz 4]])) None None).
  reflexivity.
Defined.

Lemma dict_of_pairs_snoc (kvs : list (string * ndarray)) (k : string)
    (a : ndarray) :
  dict_of_pairs (kvs ++ [(k, a)]) = <[k := a]> (dict_of_pairs kvs).
Proof. unfold dict_of_pairs. by rewrite fold_left_app. Qed.

(** [dict(zip(names, items))] holds item [i] under name [i] when the names
    differ from one another. *)
Lemma dict_of_zip_lookup (names : list string) (items : list ndarray)
    (i : nat) (k : string) (a : ndarray) :
  NoDup names -> names !! i = Some k -> items !! i = Some a ->
  dict_of_pairs (zip names items) !! k = Some a.
Proof.
  intros Hnd Hk Ha. unfold dict_of_pairs.
  assert (Hgen : forall (acc : gmap string ndarray) ns its j,
            NoDup ns -> ns !! j = Some k -> its !! j = Some a ->
            fold_left (fun d kv => <[kv.1 := kv.2]> d) (zip ns its) acc !! k
            = Some a).
  { clear. intros acc ns. revert acc.
    induction ns as [|n ns IH]; intros acc its j Hnd Hk Ha; [done|].
    destruct its as [|it its]; [by destruct j|].
    apply NoDup_cons in Hnd as [Hn Hnd]. destruct j as [|j]; simpl in *.
    - inversion Hk; inversion Ha; subst. clear IH Hk Ha.
      assert (Hkeep : forall (acc' : gmap string ndarray) ns' its',
                k ∉ ns' -> acc' !! k = Some a ->
                fold_left (fun d kv => <[kv.1 := kv.2]> d) (zip ns' its') acc'
                  !! k = Some a).
      { clear. intros acc' ns'. revert acc'.
        induction ns' as [|n' ns' IH]; intros acc' its' Hn Hacc; [done|].
        destruct its' as [|it' its']; [done|]. simpl.
        apply not_elem_of_cons in Hn as [Hne Hn].
        apply IH; [done|]. by rewrite lookup_insert_ne. }
      apply Hkeep; [done|]. by rewrite lookup_insert_eq.
    - by eapply IH. }
  by eapply Hgen.
Qed.

(** X2: a tuple is read by position: with key dimensions [kx], [ky] and one
    value dimension [vz], all named differently, [init] returns the third
    item of the tuple when it has rank 2 or 3 and [bound_range] accepts the
    first two; the bounds and densities computed from the coordinates are
    not part of the result, and items beyond the third are not looked at. *)
Theorem init_tuple_by_position (kx ky vz : Dimension)
    (xs ys zs : ndarray) (more : list ndarray) :
  NoDup [kx; ky; vz] ->
  (exists bx, bound_range xs = Ok bx) ->
  (exists by', bound_range ys = Ok by') ->
  ndim zs = 2%nat \/ ndim zs = 3%nat ->
  init [kx; ky] [vz] (PyTuple (xs :: ys :: zs :: more)) None None
  = Ok (zs, [kx; ky], [vz]).
Proof.
  intros Hnd [bx Hbx] [by' Hby] Hrank.
  set (items := xs :: ys :: zs :: more).
  assert (Hx : dict_of_pairs (zip [kx; ky; vz] items) !! kx = Some xs)
    by (by apply (dict_of_zip_lookup _ _ 0%nat)).
  assert (Hy : dict_of_pairs (zip [kx; ky; vz] items) !! ky = Some ys)
    by (by apply (dict_of_zip_lookup _ _ 1%nat)).
  assert (Hz : dict_of_pairs (zip [kx; ky; vz] items) !! vz = Some zs)
    by (by apply (dict_of_zip_lookup _ _ 2%nat)).
  unfold init. cbn [default app].
  rewrite !getitem_0, getitem_1. cbn [mbind result_bind].
  rewrite (dict_get_found _ _ _ Hx). cbn [mbind result_bind].
  rewrite Hbx. cbn [mbind result_bind].
  rewrite (dict_get_found _ _ _ Hy). cbn [mbind result_bind].
  rewrite Hby. cbn [mbind result_bind length Nat.eqb].
  rewrite (dict_get_found _ _ _ Hz). cbn [mbind result_bind].
  by rewrite bool_decide_eq_true_2.
Qed.

Lemma init_tuple_by_position_witness :
  init ["x"; "y"] ["z"] (PyTuple square_tuple) None None
  = Ok (Arr2 2 [[qz 1; qz 2]; [qz 3; qz 4]], ["x"; "y"], ["z"]).
Proof.
  apply (init_tuple_by_position "x" "y" "z").
  - apply (bool_decide_unpack _). by vm_compute.
  - eexists. by vm_compute.
  - eexists. by vm_compute.
  - by left.
Defined.

(** ** [length] and the columns of [values] *)

Lemma length_concat_rect {A} (w : nat) (m : list (list A)) :
  rect w m -> length (concat m) = (length m * w)%nat.
Proof.
  induction 1 as [|r m Hr _ IH]; [done|].
  simpl. rewrite length_app, IH, Hr. lia.
Qed.

Lemma rect_concat {A} (w ch : nat) (c : list (list (list A))) :
  Forall (rect ch) c -> rect ch (concat c).
Proof.
  induction 1 as [|r c Hr _ IH]; [constructor|].
  simpl. by apply Forall_app.
Qed.

Lemma length_flatten (a : ndarray) :
  well_shaped a -> length (flatten a) = np_product (shape a).
Proof.
  destruct a as [v|w m|w ch c]; unfold np_product; simpl.
  - intros _. lia.
  - intros H. rewrite (length_concat_rect w) by done. lia.
  - intros [H1 H2].
    rewrite (length_concat_rect ch) by (by apply (rect_concat w)).
    rewrite (length_concat_rect w) by done. lia.
Qed.

Lemma well_shaped_flipud (a : ndarray) :
  well_shaped a -> well_shaped (flipud a) /\ shape (flipud a) = shape a.
Proof.
  destruct a as [v|w m|w ch c]; simpl; rewrite ?length_reverse.
  - done.
  - intros H. split; [|done]. by apply Forall_reverse.
  - intros [H1 H2]. split; [|done]. split; by apply Forall_reverse.
Qed.

(** X3: [length] is the number of entries of the array: for an array whose
    rows agree with its shape, of rank 2 or 3, the flat column [values]
    returns for the value dimension has [length] entries. *)
Theorem length_counts_entries (dataset : Dataset) :
  well_shaped (data dataset) ->
  interface_length dataset = length (flatten (data dataset)) /\
  exists xs,
    values dataset 2 true true = Ok (ValArray (Arr1 xs)) /\
    length xs = interface_length dataset.
Proof.
  intros Hw. unfold interface_length.
  split; [by rewrite length_flatten|].
  eexists. split; [reflexivity|].
  destruct (well_shaped_flipud _ Hw) as [Hw' Hs].
  by rewrite length_flatten, Hs.
Qed.

Lemma length_counts_entries_witness :
  interface_length wide_image = length (flatten (data wide_image)) /\
  exists xs,
    values wide_image 2 true true = Ok (ValArray (Arr1 xs)) /\
    length xs = interface_length wide_image.
Proof.
  apply length_counts_entries. simpl. unfold rect.
  repeat constructor.
Defined.

Lemma length_concat_repeat {A} (xs : list A) (n : nat) :
  length (concat (map (fun x => repeat x n) xs)) = (length xs * n)%nat.
Proof.
  rewrite (length_concat_rect n), length_map; [done|].
  unfold rect. apply Forall_map, Forall_forall.
  intros x _. simpl. apply repeat_length.
Qed.

Lemma length_concat_copies {A} (ys : list A) (n : nat) :
  length (concat (repeat ys n)) = (n * length ys)%nat.
Proof.
  rewrite (length_concat_rect (length ys)), repeat_length; [done|].
  unfold rect. apply Forall_forall. intros r Hr.
  by apply list_elem_of_In, repeat_spec in Hr as ->.
Qed.

(** X4: for an image of rank 2 the three flat columns agree in length: the
    expanded coordinates of either key dimension and the values each have
    [length] entries, one per cell. *)
Theorem columns_have_length (dataset : Dataset) (bb : BoundingBox)
    (w : nat) (m : list (list num)) :
  bounds dataset = Some bb ->
  data dataset = Arr2 w m -> rect w m ->
  (0 < w)%nat -> (0 < length m)%nat ->
  exists cx cy cz,
    values dataset 0 true true = Ok (ValArray (Arr1 cx)) /\
    values dataset 1 true true = Ok (ValArray (Arr1 cy)) /\
    values dataset 2 true true = Ok (ValArray (Arr1 cz)) /\
    length cx = interface_length dataset /\
    length cy = interface_length dataset /\
    length cz = interface_length dataset /\
    interface_length dataset = (length m * w)%nat.
Proof.
  intros Hb Hd Hr Hw Hm.
  assert (Hs : shape2 (data dataset) = Ok (length m, w)) by (by rewrite Hd).
  destruct (values_unexpanded dataset bb (length m) w true Hb Hs Hw Hm)
    as (_ & _ & _ & _ & Hfx & Hfy).
  assert (Hlen : interface_length dataset = (length m * w)%nat).
  { unfold interface_length, np_product. rewrite Hd. simpl. lia. }
  eexists _, _, _. split_and!; [exact Hfx | exact Hfy | reflexivity | | | |done].
  - rewrite length_concat_repeat, length_fmap, length_linspace. lia.
  - rewrite length_concat_copies, length_fmap, length_linspace. lia.
  - rewrite Hd. simpl.
    rewrite (length_concat_rect w) by (by apply Forall_reverse).
    rewrite length_reverse. lia.
Qed.

Lemma columns_have_length_witness :
  exists cx cy cz,
    values wide_image 0 true true = Ok (ValArray (Arr1 cx)) /\
    values wide_image 1 true true = Ok (ValArray (Arr1 cy)) /\
    values wide_image 2 true true = Ok (ValArray (Arr1 cz)) /\
    length cx = interface_length wide_image /\
    length cy = interface_length wide_image /\
    length cz = interface_length wide_image /\
    interface_length wide_image = (2 * 3)%nat.
Proof.
  apply (columns_have_length wide_image
           {| bb_left := 0; bb_bottom := 0; bb_right := 3; bb_top := 2 |} 3
           [[qz 1; qz 2; qz 3]; [qz 4; qz 5; qz 6]]);
    try reflexivity; try (simpl; lia).
  unfold rect. repeat constructor.
Defined.

(** ** [range] and [values] *)

Lemma elem_of_concat {A} (x : A) (ls : list (list A)) :
  x ∈ concat ls <-> exists l, l ∈ ls /\ x ∈ l.
Proof.
  rewrite list_elem_of_In, in_concat. split.
  - intros (l & Hl & Hx). exists l. by rewrite !list_elem_of_In.
  - intros (l & Hl & Hx). exists l. by rewrite <- !list_elem_of_In.
Qed.

Lemma elem_of_grid_rows {A} (y : A) (xs : list A) (n : nat) :
  y ∈ concat (map (fun x => repeat x n) xs) -> y ∈ xs.
Proof.
  intros (l & Hl & Hy)%elem_of_concat.
  change (map ?f ?l) with (f <$> l) in Hl.
  apply list_elem_of_fmap in Hl as (x & -> & Hx).
  by apply list_elem_of_In, repeat_spec in Hy as ->.
Qed.

Lemma elem_of_grid_copies {A} (y : A) (ys : list A) (n : nat) :
  y ∈ concat (repeat ys n) -> y ∈ ys.
Proof.
  intros (l & Hl & Hy)%elem_of_concat.
  by apply list_elem_of_In, repeat_spec in Hl as ->.
Qed.

Lemma linspace_inside (lo hi : Q) (n : nat) (y : num) :
  (0 < n)%nat -> (lo < hi)%Q ->
  y ∈ Fin <$> linspace (lo + half_unit lo hi n) (hi - half_unit lo hi n) n ->
  exists x, y = Fin x /\ (lo < x)%Q /\ (x < hi)%Q.
Proof.
  intros Hn Hlh (x & -> & Hx)%list_elem_of_fmap. exists x. split; [done|].
  apply list_elem_of_lookup in Hx as [i Hi].
  destruct (linspace_cell_centres lo hi n Hn Hlh) as (_ & Hc & _).
  by destruct (Hc i x Hi) as (_ & ? & ?).
Qed.

(** X5: the sample coordinates lie inside the continuous extent: every
    coordinate [values] returns for a key dimension, expanded or not, flat
    or not, lies strictly between the two ends [range] returns for that
    dimension. *)
Theorem coordinates_inside_range (dataset : Dataset) (bb : BoundingBox)
    (dim2 dim1 : nat) (dim_idx : Z) (expanded flat : bool) :
  bounds dataset = Some bb ->
  shape2 (data dataset) = Ok (dim2, dim1) ->
  (0 < dim1)%nat -> (0 < dim2)%nat ->
  (bb_left bb < bb_right bb)%Q -> (bb_bottom bb < bb_top bb)%Q ->
  dim_idx = 0 \/ dim_idx = 1 ->
  exists lo hi v,
    range dataset dim_idx = Ok (Some (Fin lo), Some (Fin hi)) /\
    values dataset dim_idx expanded flat = Ok v /\
    forall y, y ∈ entries v ->
      exists x, y = Fin x /\ (lo < x)%Q /\ (x < hi)%Q.
Proof.
  intros Hb Hs H1 H2 Hx Hy Hd.
  destruct (values_unexpanded dataset bb dim2 dim1 flat Hb Hs H1 H2)
    as (Hvx & Hvy & Hgx & Hgy & Hfx & Hfy).
  assert (Hr0 : range dataset 0
                = Ok (Some (Fin (bb_left bb)), Some (Fin (bb_right bb)))).
  { unfold range, bounds_lbrt. by rewrite Hb. }
  assert (Hr1 : range dataset 1
                = Ok (Some (Fin (bb_bottom bb)), Some (Fin (bb_top bb)))).
  { unfold range, bounds_lbrt. by rewrite Hb. }
  destruct Hd as [-> | ->]; destruct expanded, flat; eexists _, _, _;
    (split; [eassumption|]); (split; [eassumption|]);
    simpl; intros y Hin.
  - apply elem_of_grid_rows in Hin. by apply linspace_inside in Hin.
  - apply elem_of_grid_rows in Hin. by apply linspace_inside in Hin.
  - by apply linspace_inside in Hin.
  - by apply linspace_inside in Hin.
  - apply elem_of_grid_copies in Hin. by apply linspace_inside in Hin.
  - apply elem_of_grid_copies in Hin. by apply linspace_inside in Hin.
  - by apply linspace_inside in Hin.
  - by apply linspace_inside in Hin.
Qed.

Lemma coordinates_inside_range_witness :
  exists lo hi v,
    range wide_image 0 = Ok (Some (Fin lo), Some (Fin hi)) /\
    values wide_image 0 true false = Ok v /\
    forall y, y ∈ entries v ->
      exists x, y = Fin x /\ (lo < x)%Q /\ (x < hi)%Q.
Proof.
  apply (coordinates_inside_range wide_image
           {| bb_left := 0; bb_bottom := 0; bb_right := 3; bb_top := 2 |}
           2 3 0 true false); try reflexivity; try lia.
Defined.

Lemma elem_of_concat_reverse {A} (x : A) (m : list (list A)) :
  x ∈ concat (reverse m) <-> x ∈ concat m.
Proof.
  rewrite !elem_of_concat. by setoid_rewrite elem_of_reverse.
Qed.

(** X6: the range of the value dimension encloses the values: for an image
    of rank 2 that holds a number, [range] of dimension 2 returns two
    entries of the array, and every number among the values of dimension 2,
    flat or not, lies between them. *)
Theorem values_inside_range (dataset : Dataset) (w : nat)
    (m : list (list num)) (q : Q) (flat : bool) :
  data dataset = Arr2 w m ->
  (0 < length (vdims dataset))%nat ->
  Fin q ∈ concat m ->
  exists lo hi v,
    range dataset 2 = Ok (Some (Fin lo), Some (Fin hi)) /\
    values dataset 2 true flat = Ok v /\
    Fin lo ∈ entries v /\ Fin hi ∈ entries v /\
    forall x, Fin x ∈ entries v -> (lo <= x)%Q /\ (x <= hi)%Q.
Proof.
  intros Hd Hv Hq.
  destruct (nanmin_spec _ _ Hq) as (lo & Hlo & Hlo_in & Hlo_le).
  destruct (nanmax_spec _ _ Hq) as (hi & Hhi & Hhi_in & Hhi_le).
  exists lo, hi. eexists. split_and!.
  - unfold range.
    replace (2 <? Z.of_nat (length (vdims dataset)) + 2) with true
      by (symmetry; apply Z.ltb_lt; lia).
    cbn [Z.eqb orb andb Z.ltb Z.compare Pos.compare Pos.compare_cont].
    rewrite Hd. simpl channel. cbn [mbind result_bind].
    rewrite Hlo. cbn [mbind result_bind]. by rewrite Hhi.
  - reflexivity.
  - rewrite Hd. destruct flat; simpl; by apply elem_of_concat_reverse.
  - rewrite Hd. destruct flat; simpl; by apply elem_of_concat_reverse.
  - rewrite Hd. intros x Hx.
    assert (Hx' : Fin x ∈ concat m)
      by (destruct flat; simpl in Hx; by apply elem_of_concat_reverse).
    split; [by apply Hlo_le | by apply Hhi_le].
Qed.

Lemma values_inside_range_witness :
  exists lo hi v,
    range nan_image 2 = Ok (Some (Fin lo), Some (Fin hi)) /\
    values nan_image 2 true true = Ok v /\
    Fin lo ∈ entries v /\ Fin hi ∈ entries v /\
    forall x, Fin x ∈ entries v -> (lo <= x)%Q /\ (x <= hi)%Q.
Proof.
  apply (values_inside_range nan_image 2 [[qz 1; NaN]; [qz 3; qz 4]]
           (inject_Z 1) true); [reflexivity | simpl; lia |].
  apply elem_of_cons. by left.
Defined.

(** ** [select]: what the selection may hold *)

(** X7: [select] looks only at the entries of the selection that a key
    dimension names: adding an entry under any other name, such as a value
    dimension, changes nothing. *)
Theorem select_ignores_other_keys (dataset : Dataset)
    (selection : gmap string selval) (k : string) (sel : selval) :
  k ∉ kdims dataset ->
  selection !! k = None ->
  is_Some (coord_of sel) ->
  select dataset (<[k := sel]> selection) = select dataset selection.
Proof.
  intros Hk Hfresh [c Hc]. unfold select, convert_selection.
  destruct (decide (map_Forall (fun _ s => is_Some (coord_of s)) selection))
    as [Hall|Hnot].
  - rewrite !bool_decide_eq_true_2; [|done|].
    2:{ apply map_Forall_insert; [done|]. split; [by rewrite Hc|done]. }
    cbn [mbind result_bind]. rewrite (omap_insert_Some _ _ _ _ c Hc).
    assert (Hco : map (fun kd => default (CSlice None None)
                          (<[k := c]> (omap coord_of selection) !! kd))
                      (kdims dataset)
                  = map (fun kd => default (CSlice None None)
                          (omap coord_of selection !! kd))
                      (kdims dataset)).
    { apply map_ext_in. intros kd Hin. apply list_elem_of_In in Hin.
      rewrite lookup_insert_ne; [done|]. intros ->. by apply Hk. }
    by rewrite Hco.
  - rewrite !bool_decide_eq_false_2; [done|done|].
    intros Hall. apply Hnot. by apply map_Forall_insert in Hall as [_ ?].
Qed.

Lemma select_ignores_other_keys_witness :
  select square_image (<["z" := SelScalar 3]> selection_lower_left)
  = select square_image selection_lower_left.
Proof.
  apply select_ignores_other_keys.
  - apply (bool_decide_unpack _). by vm_compute.
  - by vm_compute.
  - by eexists.
Defined.

(** X8: a tuple in the selection is unpacked into [slice], which takes one
    to three arguments: an empty tuple or one of more than three entries
    makes [select] raise a TypeError, under whatever name it stands. *)
Theorem select_malformed_tuple (dataset : Dataset)
    (selection : gmap string selval) (k : string) (t : list (option Q)) :
  selection !! k = Some (SelTuple t) ->
  length t = 0%nat \/ (3 < length t)%nat ->
  select dataset selection = Raise TypeError.
Proof.
  intros Hk Hlen. unfold select, convert_selection.
  rewrite bool_decide_eq_false_2; [done|].
  intros Hall. specialize (Hall k _ Hk). destruct Hall as [c Hc].
  destruct t as [|? [|? [|? [|? ?]]]]; simpl in *; try lia; discriminate.
Qed.

Lemma select_malformed_tuple_witness :
  select square_image {[ "colour" := SelTuple [] ]} = Raise TypeError.
Proof.
  apply (select_malformed_tuple square_image _ "colour" []).
  - by vm_compute.
  - by left.
Defined.

(** ** [select]: the whole image *)

Lemma pyslice_full {A} (l : list A) :
  pyslice l 0 (Z.of_nat (length l)) = l.
Proof.
  unfold pyslice. rewrite slice_bound_0, slice_bound_full, Nat.sub_0_r.
  simpl. by rewrite take_ge.
Qed.

Lemma pyslice_rows_full {A} (w : nat) (m : list (list A)) :
  rect w m -> map (fun row => pyslice row 0 (Z.of_nat w)) m = m.
Proof.
  induction 1 as [|r m Hr _ IH]; [done|].
  simpl. rewrite IH. f_equal. rewrite <- Hr. apply pyslice_full.
Qed.

Lemma submatrix_full (a : ndarray) (nr nc : nat) :
  shape2 a = Ok (nr, nc) -> well_shaped a ->
  submatrix (0, Z.of_nat nr, 0, Z.of_nat nc) a = Ok a.
Proof.
  destruct a as [v|w m|w ch c]; [discriminate| |];
    simpl; intros Hs Hw; inversion Hs; subst.
  - rewrite slice_bound_0, slice_bound_full, Nat.sub_0_r.
    by rewrite pyslice_full, pyslice_rows_full.
  - destruct Hw as [Hw _].
    rewrite slice_bound_0, slice_bound_full, Nat.sub_0_r.
    by rewrite pyslice_full, pyslice_rows_full.
Qed.

(** X9: a selection that names neither key dimension selects everything:
    for a well-formed image [select] returns the array itself, under bounds
    that are those of the dataset. *)
Theorem select_nothing_is_everything (dataset : Dataset)
    (selection : gmap string selval) (bb : BoundingBox) (nrows ncols : nat)
    (kx ky : Dimension) :
  whole_cells dataset bb nrows ncols ->
  well_shaped (data dataset) ->
  kdims dataset = [kx; ky] ->
  map_Forall (fun _ sel => is_Some (coord_of sel)) selection ->
  selection !! kx = None -> selection !! ky = None ->
  exists bb',
    select dataset selection
    = Ok (NpArray (data dataset), {[ "bounds" := bb' ]}) /\
    same_region bb' bb.
Proof.
  intros Hwc Hws Hk Hall Hx Hy.
  destruct (bounds_ordered dataset bb nrows ncols Hwc) as [Hlr Hbt].
  pose proof Hwc as (Hb & Hs2 & Hxd & Hyd & Hw & Hh).
  assert (Hin : corners_inside bb (bb_left bb) (bb_bottom bb)
                  (bb_right bb) (bb_top bb)).
  { unfold corners_inside.
    pose proof (Qle_refl (bb_left bb)). pose proof (Qle_refl (bb_right bb)).
    pose proof (Qle_refl (bb_bottom bb)). pose proof (Qle_refl (bb_top bb)).
    tauto. }
  destruct (slice_on_axes dataset bb nrows ncols Hwc _ _ _ _ Hin)
    as (r1 & r2 & c1 & c2 & HS & _ & _ & _ & _ & Hcfull & Hrfull).
  destruct (Hcfull ltac:(reflexivity) ltac:(reflexivity)) as [-> ->].
  destruct (Hrfull ltac:(reflexivity) ltac:(reflexivity)) as [-> ->].
  unfold select. rewrite (convert_selection_ok _ Hall), Hk.
  cbn [mbind result_bind map].
  rewrite !lookup_omap, Hx, Hy.
  cbn [existsb default from_option option_bind mbind is_slice orb negb id].
  unfold bounds_lbrt at 1. rewrite Hb.
  rewrite (pydiv_pos _ Hxd), (pydiv_pos _ Hyd).
  cbn [mbind result_bind clamp_selection clamp_axis clamp_low clamp_high lbrt].
  rewrite HS. cbn [mbind result_bind].
  rewrite (submatrix_full _ _ _ Hs2 Hws). cbn [mbind result_bind].
  unfold compute_bounds. rewrite !(matrix2sheet_ok _ _ _ _ Hwc).
  cbn [mbind result_bind lbrt].
  eexists. split; [reflexivity|].
  unfold same_region.
  cbn [bb_left bb_bottom bb_right bb_top BoundingBox_points fst snd].
  assert (E0 : (bb_left bb + inject_Z 0 / xdensity dataset == bb_left bb)%Q)
    by (simpl (inject_Z 0); field; lra).
  assert (E1 : (bb_left bb + inject_Z (Z.of_nat ncols) / xdensity dataset
                == bb_right bb)%Q).
  { unfold Qnat in Hw. rewrite <- Hw. field. lra. }
  assert (E2 : (bb_top bb - inject_Z (Z.of_nat nrows) / ydensity dataset
                == bb_bottom bb)%Q).
  { unfold Qnat in Hh. rewrite <- Hh. field. lra. }
  assert (E3 : (bb_top bb - inject_Z 0 / ydensity dataset == bb_top bb)%Q)
    by (simpl (inject_Z 0); field; lra).
  set (lft := (bb_left bb + inject_Z 0 / xdensity dataset)%Q) in *.
  set (rgt := (bb_left bb + inject_Z (Z.of_nat ncols) / xdensity dataset)%Q)
    in *.
  set (bot := (bb_top bb - inject_Z (Z.of_nat nrows) / ydensity dataset)%Q)
    in *.
  set (top := (bb_top bb - inject_Z 0 / ydensity dataset)%Q) in *.
  assert (Hlr' : (lft <= rgt)%Q) by (rewrite E0, E1; done).
  assert (Hbt' : (bot <= top)%Q) by (rewrite E2, E3; done).
  assert (M1 : (Qmin lft rgt == lft)%Q) by (by apply Q.min_l).
  assert (M2 : (Qmax lft rgt == rgt)%Q) by (by apply Q.max_r).
  assert (M3 : (Qmin bot top == bot)%Q) by (by apply Q.min_l).
  assert (M4 : (Qmax bot top == top)%Q) by (by apply Q.max_r).
  split_and!.
  - rewrite Q.min_l by (rewrite M1, M2; done). by rewrite M1.
  - rewrite Q.min_l by (rewrite M3, M4; done). by rewrite M3.
  - rewrite Q.max_r by (rewrite M1, M2; done). by rewrite M2.
  - rewrite Q.max_r by (rewrite M3, M4; done). by rewrite M4.
Qed.

Lemma select_nothing_is_everything_witness :
  exists bb',
    select square_image ∅
    = Ok (NpArray (data square_image), {[ "bounds" := bb' ]}) /\
    same_region bb' square_bounds.
Proof.
  apply (select_nothing_is_everything square_image ∅ square_bounds 2 2
           "x" "y").
  - by split_and!.
  - simpl. unfold rect. repeat constructor.
  - reflexivity.
  - apply map_Forall_empty.
  - reflexivity.
  - reflexivity.
Defined.

(** ** [aggregate]: the axes *)

Lemma filter_keep_first (kx ky : string) :
  kx <> ky -> filter (fun kdim => kdim ∉ [kx]) [kx; ky] = [ky].
Proof.
  intros Hne. rewrite filter_cons_False by (intros H; apply H; set_solver).
  rewrite filter_cons_True by set_solver. done.
Qed.

Lemma filter_keep_second (kx ky : string) :
  kx <> ky -> filter (fun kdim => kdim ∉ [ky]) [kx; ky] = [kx].
Proof.
  intros Hne. rewrite filter_cons_True by set_solver.
  rewrite filter_cons_False by (intros H; apply H; set_solver). done.
Qed.

Lemma filter_keep_both (kx ky : string) :
  filter (fun kdim => kdim ∉ [kx; ky]) [kx; ky] = [].
Proof.
  rewrite filter_cons_False by (intros H; apply H; set_solver).
  rewrite filter_cons_False by (intros H; apply H; set_solver). done.
Qed.

Lemma get_dimension_index_x (dataset : Dataset) (kx ky : Dimension) :
  kdims dataset = [kx; ky] -> get_dimension_index dataset kx = Ok 0.
Proof.
  intros Hk. unfold get_dimension_index. rewrite Hk. simpl app.
  by rewrite index_of_head.
Qed.

Lemma get_dimension_index_y (dataset : Dataset) (kx ky : Dimension) :
  kdims dataset = [kx; ky] -> kx <> ky ->
  get_dimension_index dataset ky = Ok 1.
Proof.
  intros Hk Hne. unfold get_dimension_index. rewrite Hk. simpl app.
  by rewrite (index_of_second _ _ _ Hne).
Qed.

Lemma aggregate_one_axis_core (dataset : Dataset) (kx ky v : Dimension)
    (vs : list Dimension) (cx cy : values_result)
    (function : ndarray -> list Z -> result npvalue) :
  kdims dataset = [kx; ky] -> kx <> ky ->
  vdims dataset = v :: vs ->
  values dataset 0 false true = Ok cx ->
  values dataset 1 false true = Ok cy ->
  aggregate dataset [kx] function
  = (reduced ← function (data dataset) [0];
     Ok (AggDict (<[v := AggData (atleast_1d reduced)]>
                    {[ kx := AggCoords cx ]}))) /\
  aggregate dataset [ky] function
  = (reduced ← function (data dataset) [1];
     Ok (AggDict (<[v := AggData (atleast_1d reduced)]>
                    {[ ky := AggCoords cy ]}))).
Proof.
  intros Hk Hne Hv Hcx Hcy. unfold aggregate. rewrite Hk, Hv. split.
  - rewrite (filter_keep_first _ _ Hne). cbn [mapM].
    rewrite (get_dimension_index_y _ _ _ Hk Hne).
    cbn [mbind result_bind mret result_ret length].
    change (Z.of_nat 2 - 1 - 1) with 0.
    destruct (function (data dataset) [0]) as [reduced|e];
      cbn [mbind result_bind]; [|done].
    rewrite isscalar_atleast_1d. cbn [length Nat.eqb head default from_option id first_dim].
    cbn [mbind result_bind]. by rewrite Hcx.
  - rewrite (filter_keep_second _ _ Hne). cbn [mapM].
    rewrite (get_dimension_index_x _ _ _ Hk).
    cbn [mbind result_bind mret result_ret length].
    change (Z.of_nat 2 - 0 - 1) with 1.
    destruct (function (data dataset) [1]) as [reduced|e];
      cbn [mbind result_bind]; [|done].
    rewrite isscalar_atleast_1d. cbn [length Nat.eqb head default from_option id first_dim].
    cbn [mbind result_bind]. by rewrite Hcy.
Qed.

(** X10: keeping one key dimension reduces over the array axis of the
    other one: keeping x calls the function with axis 0 (down the rows) and
    keeping y with axis 1 (along the rows); the result pairs the kept
    dimension with its coordinates and the first value dimension with the
    reduced array. *)
Theorem aggregate_one_axis (dataset : Dataset) (kx ky v : Dimension)
    (vs : list Dimension) (cx cy : values_result)
    (function : ndarray -> list Z -> result npvalue) :
  kdims dataset = [kx; ky] -> kx <> ky ->
  vdims dataset = v :: vs ->
  values dataset 0 false true = Ok cx ->
  values dataset 1 false true = Ok cy ->
  aggregate dataset [kx] function
  = (reduced ← function (data dataset) [0];
     Ok (AggDict (<[v := AggData (atleast_1d reduced)]>
                    {[ kx := AggCoords cx ]}))) /\
  aggregate dataset [ky] function
  = (reduced ← function (data dataset) [1];
     Ok (AggDict (<[v := AggData (atleast_1d reduced)]>
                    {[ ky := AggCoords cy ]}))).
Proof. apply aggregate_one_axis_core. Qed.

Lemma aggregate_one_axis_witness :
  exists cx cy,
    aggregate square_image ["x"] np_mean
    = (reduced ← np_mean (data square_image) [0];
       Ok (AggDict (<["z" := AggData (atleast_1d reduced)]>
                      {[ "x" := AggCoords cx ]}))) /\
    aggregate square_image ["y"] np_mean
    = (reduced ← np_mean (data square_image) [1];
       Ok (AggDict (<["z" := AggData (atleast_1d reduced)]>
                      {[ "y" := AggCoords cy ]}))).
Proof.
  eexists _, _.
  apply (aggregate_one_axis square_image "x" "y" "z" [] _ _ np_mean);
    try reflexivity. discriminate.
Defined.

(** X11: keeping every key dimension, like keeping none, returns nothing:
    the function is called (with no axis, or with both), and its result is
    dropped, since only one reduced axis leads to the dict. *)
Theorem aggregate_needs_one_axis (dataset : Dataset) (kx ky : Dimension)
    (function : ndarray -> list Z -> result npvalue) :
  kdims dataset = [kx; ky] -> kx <> ky ->
  aggregate dataset [kx; ky] function
  = (_ ← function (data dataset) []; Ok AggNone) /\
  aggregate dataset [] function
  = (_ ← function (data dataset) [1; 0]; Ok AggNone).
Proof.
  intros Hk Hne. unfold aggregate. rewrite Hk. split.
  - rewrite filter_keep_both. cbn [mapM mbind result_bind mret result_ret].
    destruct (function (data dataset) []) as [reduced|e];
      cbn [mbind result_bind]; [|done].
    by rewrite isscalar_atleast_1d.
  - rewrite !filter_cons_True by apply not_elem_of_nil. rewrite filter_nil.
    cbn [mapM]. rewrite (get_dimension_index_x _ _ _ Hk).
    rewrite (get_dimension_index_y _ _ _ Hk Hne).
    cbn [mbind result_bind mret result_ret length].
    change (Z.of_nat 2 - 0 - 1) with 1. change (Z.of_nat 2 - 1 - 1) with 0.
    destruct (function (data dataset) [1; 0]) as [reduced|e];
      cbn [mbind result_bind]; [|done].
    by rewrite isscalar_atleast_1d.
Qed.

Lemma aggregate_needs_one_axis_witness :
  aggregate square_image ["x"; "y"] np_mean
  = (_ ← np_mean (data square_image) []; Ok AggNone) /\
  aggregate square_image [] np_mean
  = (_ ← np_mean (data square_image) [1; 0]; Ok AggNone).
Proof.
  apply (aggregate_needs_one_axis square_image "x" "y" np_mean);
    [reflexivity | discriminate].
Defined.

Lemma np_mean_axis_0 (w : nat) (m : list (list num)) :
  np_mean (Arr2 w m) [0]
  = Ok (NpArray (Arr1 (map (fun k => mean1 (column k m)) (seq 0 w)))).
Proof. reflexivity. Qed.

Lemma np_mean_axis_1 (w : nat) (m : list (list num)) :
  np_mean (Arr2 w m) [1] = Ok (NpArray (Arr1 (mean1 <$> m))).
Proof. reflexivity. Qed.

(** X12: the mean profiles of an image of rank 2.  Keeping x gives the means
    of the columns, as many as there are x coordinates.  Keeping y gives
    the means of the rows in the order the array stores them, from the top
    row down, as many as there are y coordinates, and pairs them with the
    y coordinates as [values] returns them. *)
Theorem aggregate_mean_profiles (dataset : Dataset) (bb : BoundingBox)
    (w : nat) (m : list (list num)) (kx ky v : Dimension)
    (vs : list Dimension) :
  bounds dataset = Some bb ->
  data dataset = Arr2 w m ->
  (0 < w)%nat -> (0 < length m)%nat ->
  kdims dataset = [kx; ky] -> kx <> ky ->
  vdims dataset = v :: vs ->
  exists xs ys px py,
    values dataset 0 false true = Ok (ValArray (Arr1 xs)) /\
    values dataset 1 false true = Ok (ValArray (Arr1 ys)) /\
    px = map (fun k => mean1 (column k m)) (seq 0 w) /\
    py = map mean1 m /\
    aggregate dataset [kx] np_mean
    = Ok (AggDict (<[v := AggData (NpArray (Arr1 px))]>
                     {[ kx := AggCoords (ValArray (Arr1 xs)) ]})) /\
    aggregate dataset [ky] np_mean
    = Ok (AggDict (<[v := AggData (NpArray (Arr1 py))]>
                     {[ ky := AggCoords (ValArray (Arr1 ys)) ]})) /\
    length px = length xs /\ length py = length ys.
Proof.
  intros Hb Hd Hw Hm Hk Hne Hv.
  assert (Hs : shape2 (data dataset) = Ok (length m, w)) by (by rewrite Hd).
  destruct (values_unexpanded dataset bb (length m) w true Hb Hs Hw Hm)
    as (Hvx & Hvy & _).
  destruct (aggregate_one_axis_core dataset kx ky v vs _ _ np_mean
              Hk Hne Hv Hvx Hvy) as [Hax Hay].
  eexists _, _, _, _.
  split_and!; [exact Hvx | exact Hvy | reflexivity | reflexivity | | | |].
  - by rewrite Hax, Hd, np_mean_axis_0.
  - by rewrite Hay, Hd, np_mean_axis_1.
  - by rewrite length_map, length_seq, length_fmap, length_linspace.
  - by rewrite length_map, length_fmap, length_linspace.
Qed.

Lemma aggregate_mean_profiles_witness :
  exists xs ys px py,
    values square_image 0 false true = Ok (ValArray (Arr1 xs)) /\
    values square_image 1 false true = Ok (ValArray (Arr1 ys)) /\
    px = map (fun k => mean1 (column k [[qz 1; qz 2]; [qz 3; qz 4]]))
             (seq 0 2) /\
    py = map mean1 [[qz 1; qz 2]; [qz 3; qz 4]] /\
    aggregate square_image ["x"] np_mean
    = Ok (AggDict (<["z" := AggData (NpArray (Arr1 px))]>
                     {[ "x" := AggCoords (ValArray (Arr1 xs)) ]})) /\
    aggregate square_image ["y"] np_mean
    = Ok (AggDict (<["z" := AggData (NpArray (Arr1 py))]>
                     {[ "y" := AggCoords (ValArray (Arr1 ys)) ]})) /\
    length px = length xs /\ length py = length ys.
Proof.
  apply (aggregate_mean_profiles square_image square_bounds 2
           [[qz 1; qz 2]; [qz 3; qz 4]] "x" "y" "z" []);
    try reflexivity; try (simpl; lia). discriminate.
Defined.

(** ** [groupby]: the groups and their container *)

(** The groups of one key dimension, written out. *)
Lemma groupby_groups_by_axis (dataset : Dataset) (bb : BoundingBox)
    (w : nat) (m : list (list num)) (kx ky : Dimension) :
  bounds dataset = Some bb ->
  data dataset = Arr2 w m ->
  (0 < w)%nat -> (0 < length m)%nat ->
  kdims dataset = [kx; ky] -> kx <> ky ->
  exists xs ys,
    values dataset 0 false true = Ok (ValArray (Arr1 xs)) /\
    values dataset 1 false true = Ok (ValArray (Arr1 ys)) /\
    length xs = w /\ length ys = length m /\
    groupby_groups dataset [ky]
    = Ok (zip_with (fun c row => (KeyCoord (Some c),
                                  GroupColumns (ValArray (Arr1 xs)) (Arr1 row)))
            ys (reverse m)) /\
    groupby_groups dataset [kx]
    = Ok (zip_with (fun c k => (KeyCoord (Some c),
                                GroupColumns (ValArray (Arr1 ys))
                                  (Arr1 (column k (reverse m)))))
            xs (seq 0 w)).
Proof.
  intros Hb Hd Hw Hm Hk Hne.
  assert (Hs : shape2 (data dataset) = Ok (length m, w)) by (by rewrite Hd).
  destruct (values_unexpanded dataset bb (length m) w true Hb Hs Hw Hm)
    as (Hvx & Hvy & _).
  eexists _, _. split_and!; [exact Hvx | exact Hvy | | | |].
  - by rewrite length_fmap, length_linspace.
  - by rewrite length_fmap, length_linspace.
  - unfold groupby_groups, dimension_values, get_dimension_index.
    rewrite Hk. simpl app. rewrite (index_of_second _ _ _ Hne).
    cbn [mbind result_bind]. change (Z.of_nat 1) with 1.
    rewrite Hvy. change (Z.abs (1 - 1)) with 0. rewrite Hvx.
    cbn [mbind result_bind]. rewrite Hd.
    unfold groupby_samples.
    change (Z.abs (1 - 1)) with 0. simpl shape. rewrite getitem_0.
    cbn [mbind result_bind Z.eqb items_of].
    change (map ?f ?l) with (f <$> l). rewrite <- fmap_reverse.
    change (?f <$> ?l) with (map f l) at 1.
    rewrite (mapM_samples _ _ _ (fun i => Arr1 (default [] (m !! i)))).
    2:{ apply Forall_forall. intros i Hi.
        apply elem_of_reverse, elem_of_seq in Hi.
        destruct (lookup_lt_is_Some_2 m i ltac:(lia)) as [row Hrow].
        simpl. rewrite (getitem_nat _ _ _ Hrow), Hrow. done. }
    f_equal.
    rewrite reverse_rows_by_index.
    apply (zip_with_indexed
             (fun c row => (KeyCoord c, GroupColumns _ (Arr1 row)))).
  - unfold groupby_groups, dimension_values, get_dimension_index.
    rewrite Hk. simpl app. rewrite index_of_head.
    cbn [mbind result_bind]. change (Z.of_nat 0) with 0.
    rewrite Hvx. change (Z.abs (0 - 1)) with 1. rewrite Hvy.
    cbn [mbind result_bind]. rewrite Hd.
    unfold groupby_samples.
    change (Z.abs (0 - 1)) with 1. simpl shape. rewrite getitem_1.
    cbn [mbind result_bind Z.eqb items_of flipud].
    rewrite (mapM_samples _ _ _ (fun k => Arr1 (column k (reverse m)))).
    2:{ apply Forall_forall. intros i Hi.
        apply elem_of_seq in Hi.
        simpl. rewrite norm_index_nat by lia. done. }
    f_equal.
    rewrite <- (map_id (seq 0 w)) at 2.
    apply (zip_with_indexed
             (fun c k => (KeyCoord c,
                          GroupColumns _ (Arr1 (column k (reverse m)))))).
Qed.

(** X13: grouping by one key dimension into an NdMapping: the container is
    made of one group per coordinate of that dimension, in ascending order
    of the coordinates, with the grouped dimension as its key dimension; a
    group type that is an Element is constructed with the other key
    dimension as its [kdims], from that dimension's coordinates and a slice
    of the array of the same length. *)
Theorem groupby_into_mapping {G C} (dataset : Dataset) (bb : BoundingBox)
    (w : nat) (m : list (list num)) (kx ky : Dimension)
    (container_type : container_class G C) (group_type : group_class G) :
  bounds dataset = Some bb ->
  data dataset = Arr2 w m -> rect w m ->
  (0 < w)%nat -> (0 < length m)%nat ->
  kdims dataset = [kx; ky] -> kx <> ky ->
  is_NdMapping container_type = true ->
  is_Element group_type = true ->
  exists xs ys,
    values dataset 0 false true = Ok (ValArray (Arr1 xs)) /\
    values dataset 1 false true = Ok (ValArray (Arr1 ys)) /\
    groupby dataset [ky] container_type group_type
    = Ok (container_new container_type
            (zip_with (fun c row =>
                         (KeyCoord (Some c),
                          group_new group_type (Some [kx])
                            (GroupColumns (ValArray (Arr1 xs)) (Arr1 row))))
               ys (reverse m))
            [ky]) /\
    groupby dataset [kx] container_type group_type
    = Ok (container_new container_type
            (zip_with (fun c k =>
                         (KeyCoord (Some c),
                          group_new group_type (Some [ky])
                            (GroupColumns (ValArray (Arr1 ys))
                               (Arr1 (column k (reverse m))))))
               xs (seq 0 w))
            [kx]) /\
    length ys = length (reverse m) /\ length xs = length (seq 0 w) /\
    Forall (fun row => length row = length xs) (reverse m) /\
    Forall (fun k => length (column k (reverse m)) = length ys) (seq 0 w).
Proof.
  intros Hb Hd Hr Hw Hm Hk Hne Hct Hgt.
  destruct (groupby_groups_by_axis dataset bb w m kx ky Hb Hd Hw Hm Hk Hne)
    as (xs & ys & Hvx & Hvy & Hlx & Hly & Hgy & Hgx).
  exists xs, ys. split_and!; [done|done| | | | | |].
  - unfold groupby. rewrite Hgy, Hct, Hgt, Hk.
    cbn [mbind result_bind]. rewrite (filter_keep_second _ _ Hne).
    do 2 f_equal.
    generalize (reverse m). clear. intros rows. revert rows.
    induction ys as [|c ys IH]; intros [|row rows]; simpl; try done.
    by rewrite IH.
  - unfold groupby. rewrite Hgx, Hct, Hgt, Hk.
    cbn [mbind result_bind]. rewrite (filter_keep_first _ _ Hne).
    do 2 f_equal.
    generalize (seq 0 w). clear. intros ks. revert ks.
    induction xs as [|c xs IH]; intros [|k ks]; simpl; try done.
    by rewrite IH.
  - by rewrite length_reverse.
  - by rewrite length_seq.
  - apply Forall_reverse. by rewrite Hlx.
  - apply Forall_forall. intros k _. unfold column.
    by rewrite length_map, length_reverse.
Qed.

Lemma groupby_into_mapping_witness :
  exists xs ys,
    values square_image 0 false true = Ok (ValArray (Arr1 xs)) /\
    values square_image 1 false true = Ok (ValArray (Arr1 ys)) /\
    groupby square_image ["y"] mapping_container element_group
    = Ok (container_new mapping_container
            (zip_with (fun c row =>
                         (KeyCoord (Some c),
                          group_new element_group (Some ["x"])
                            (GroupColumns (ValArray (Arr1 xs)) (Arr1 row))))
               ys (reverse [[qz 1; qz 2]; [qz 3; qz 4]]))
            ["y"]) /\
    groupby square_image ["x"] mapping_container element_group
    = Ok (container_new mapping_container
            (zip_with (fun c k =>
                         (KeyCoord (Some c),
                          group_new element_group (Some ["y"])
                            (GroupColumns (ValArray (Arr1 ys))
                               (Arr1 (column k
                                        (reverse [[qz 1; qz 2];
                                                  [qz 3; qz 4]]))))))
               xs (seq 0 2))
            ["x"]) /\
    length ys = length (reverse [[qz 1; qz 2]; [qz 3; qz 4]]) /\
    length xs = length (seq 0 2) /\
    Forall (fun row => length row = length xs)
           (reverse [[qz 1; qz 2]; [qz 3; qz 4]]) /\
    Forall (fun k => length (column k (reverse [[qz 1; qz 2]; [qz 3; qz 4]]))
                     = length ys) (seq 0 2).
Proof.
  apply (groupby_into_mapping square_image square_bounds 2
           [[qz 1; qz 2]; [qz 3; qz 4]] "x" "y");
    try reflexivity; try (simpl; lia); try discriminate.
  unfold rect. repeat constructor.
Defined.

Lemma zip_star_three {A} (a b c : list A) :
  length b = length a -> length c = length a ->
  zip_star [a; b; c] (length a)
  = zip_with (fun x yz => [x; yz.1; yz.2]) a (zip b c).
Proof.
  revert b c. induction a as [|x a IH]; intros b c Hb Hc; [done|].
  destruct b as [|y b], c as [|z c]; try discriminate.
  simpl in Hb, Hc. simpl. f_equal. apply IH; lia.
Qed.

Lemma groups_of_columns (cx cy cz : list num) :
  map (fun g => (KeyTuple (take 2 g), GroupRows [drop 2 g]))
      (zip_with (fun x yz => [x; yz.1; yz.2])
         (Some <$> cx) (zip (Some <$> cy) (Some <$> cz)))
  = zip_with (fun x yz =>
                (KeyTuple [Some x; Some yz.1], GroupRows [[Some yz.2]]))
      cx (zip cy cz).
Proof.
  revert cy cz. induction cx as [|x cx IH]; intros [|y cy] [|z cz];
    simpl; try done.
  by rewrite <- IH.
Qed.

(** X14: grouping by anything but a single dimension takes the image apart
    cell by cell: for an image of rank 2 with one value dimension there is
    one group per entry of the array, keyed by the pair of entries of the
    two expanded coordinate columns and holding the entry of the flat value
    column at the same position; the dimensions asked for play no part. *)
Theorem groupby_cell_by_cell (dataset : Dataset) (bb : BoundingBox)
    (w : nat) (m : list (list num)) (kx ky v : Dimension)
    (dimensions : list Dimension) :
  bounds dataset = Some bb ->
  data dataset = Arr2 w m -> rect w m ->
  (0 < w)%nat -> (0 < length m)%nat ->
  kdims dataset = [kx; ky] -> vdims dataset = [v] ->
  length dimensions <> 1%nat ->
  exists cx cy cz groups,
    values dataset 0 true true = Ok (ValArray (Arr1 cx)) /\
    values dataset 1 true true = Ok (ValArray (Arr1 cy)) /\
    values dataset 2 true true = Ok (ValArray (Arr1 cz)) /\
    groupby_groups dataset dimensions = Ok groups /\
    groups = zip_with (fun x yz =>
                         (KeyTuple [Some x; Some yz.1],
                          GroupRows [[Some yz.2]]))
               cx (zip cy cz) /\
    length groups = interface_length dataset.
Proof.
  intros Hb Hd Hr Hw Hm Hk Hv Hdims.
  assert (Hs : shape2 (data dataset) = Ok (length m, w)) by (by rewrite Hd).
  destruct (values_unexpanded dataset bb (length m) w true Hb Hs Hw Hm)
    as (_ & _ & _ & _ & Hfx & Hfy).
  set (cx := concat (map (fun x => repeat x (length m))
               (Fin <$> linspace
                  (bb_left bb + half_unit (bb_left bb) (bb_right bb) w)
                  (bb_right bb - half_unit (bb_left bb) (bb_right bb) w) w)))
    in *.
  set (cy := concat (repeat
               (Fin <$> linspace
                  (bb_bottom bb
                   + half_unit (bb_bottom bb) (bb_top bb) (length m))
                  (bb_top bb
                   - half_unit (bb_bottom bb) (bb_top bb) (length m))
                  (length m)) w)) in *.
  set (cz := flatten (flipud (data dataset))).
  assert (Hfz : values dataset 2 true true = Ok (ValArray (Arr1 cz)))
    by reflexivity.
  assert (Hlx : length cx = (length m * w)%nat).
  { unfold cx. rewrite length_concat_repeat, length_fmap, length_linspace.
    lia. }
  assert (Hly : length cy = (length m * w)%nat).
  { unfold cy. rewrite length_concat_copies, length_fmap, length_linspace.
    lia. }
  assert (Hlz : length cz = (length m * w)%nat).
  { unfold cz. rewrite Hd. simpl.
    rewrite (length_concat_rect w) by (by apply Forall_reverse).
    by rewrite length_reverse. }
  assert (Hlen : interface_length dataset = (length m * w)%nat).
  { unfold interface_length, np_product. rewrite Hd. simpl. lia. }
  assert (Hg : groupby_groups dataset dimensions
               = Ok (map (fun g => (KeyTuple (take 2 g), GroupRows [drop 2 g]))
                       (zip_all [Some <$> cx; Some <$> cy; Some <$> cz]))).
  { unfold groupby_groups, dimension_values.
    destruct dimensions as [|? [|? ?]]; [|done|];
      rewrite Hk, Hv; cbn [app length seq mapM Z.of_nat];
      change (Z.of_nat 0) with 0; change (Z.of_nat 1) with 1;
      change (Z.of_nat 2) with 2;
      rewrite Hfx, Hfy, Hfz; reflexivity. }
  exists cx, cy, cz. eexists. split_and!; [done|done|done|exact Hg| |].
  - unfold zip_all. rewrite zip_star_three by (rewrite !length_fmap; lia).
    apply groups_of_columns.
  - rewrite length_map. unfold zip_all.
    rewrite zip_star_three by (rewrite !length_fmap; lia).
    rewrite length_zip_with, length_zip_with, !length_fmap. lia.
Qed.

Lemma groupby_cell_by_cell_witness :
  exists cx cy cz groups,
    values square_image 0 true true = Ok (ValArray (Arr1 cx)) /\
    values square_image 1 true true = Ok (ValArray (Arr1 cy)) /\
    values square_image 2 true true = Ok (ValArray (Arr1 cz)) /\
    groupby_groups square_image ["x"; "y"] = Ok groups /\
    groups = zip_with (fun x yz =>
                         (KeyTuple [Some x; Some yz.1],
                          GroupRows [[Some yz.2]]))
               cx (zip cy cz) /\
    length groups = interface_length square_image.
Proof.
  apply (groupby_cell_by_cell square_image square_bounds 2
           [[qz 1; qz 2]; [qz 3; qz 4]] "x" "y" "z");
    try reflexivity; try (simpl; lia).
  unfold rect. repeat constructor.
Defined.

(** ** [select]: the result is an image again *)

Lemma ceiling_le_floor (u v : Q) :
  (u <= v)%Q -> Qceiling (u - (1 # 2)) <= Qfloor (v + (1 # 2)).
Proof.
  intros Huv. pose proof (Qceiling_lt (u - (1 # 2))) as Hk.
  revert Hk. generalize (Qceiling (u - (1 # 2))). intros k Hk.
  rewrite <- (Qfloor_Z k). apply Qfloor_resp_le.
  change (k - 1) with (k + -1) in Hk.
  rewrite inject_Z_plus in Hk. change (inject_Z (-1)) with (-1)%Q in Hk.
  lra.
Qed.

Lemma points_ordered (l b r t : Q) :
  (l <= r)%Q -> (b <= t)%Q ->
  let p := BoundingBox_points (l, b) (r, t) in
  (bb_left p == l)%Q /\ (bb_bottom p == b)%Q /\
  (bb_right p == r)%Q /\ (bb_top p == t)%Q.
Proof.
  intros Hlr Hbt. simpl. split_and!.
  - by apply Q.min_l.
  - by apply Q.min_l.
  - by apply Q.max_r.
  - by apply Q.max_r.
Qed.

Lemma slice_bound_in_range (n : nat) (i : Z) :
  0 <= i <= Z.of_nat n -> slice_bound n i = Z.to_nat i.
Proof.
  intros Hi. unfold slice_bound.
  replace (i <? 0) with false by (symmetry; apply Z.ltb_ge; lia). lia.
Qed.

Lemma length_pyslice {A} (l : list A) (s e : Z) :
  0 <= s <= e -> e <= Z.of_nat (length l) ->
  length (pyslice l s e) = Z.to_nat (e - s).
Proof.
  intros Hs He. unfold pyslice.
  rewrite !slice_bound_in_range by lia.
  rewrite length_take, length_drop. lia.
Qed.

Lemma rect_pyslice_rows {A} (w : nat) (m : list (list A)) (s e : Z) :
  rect w m -> 0 <= s <= e -> e <= Z.of_nat w ->
  rect (Z.to_nat (e - s)) (map (fun row => pyslice row s e) m).
Proof.
  intros Hr Hs He. unfold rect in *. apply Forall_map.
  eapply Forall_impl; [exact Hr|]. intros row Hrow. simpl.
  apply length_pyslice; [done|]. by rewrite Hrow.
Qed.

Lemma Forall_pyslice {A} (P : A -> Prop) (l : list A) (s e : Z) :
  Forall P l -> Forall P (pyslice l s e).
Proof. intros H. unfold pyslice. by apply Forall_take, Forall_drop. Qed.

(** The sub-array of a slice inside the array has the rows and columns the
    slice names. *)
Lemma submatrix_shape (a : ndarray) (nr nc : nat) (r1 r2 c1 c2 : Z) :
  shape2 a = Ok (nr, nc) -> well_shaped a ->
  0 <= r1 <= r2 -> r2 <= Z.of_nat nr ->
  0 <= c1 <= c2 -> c2 <= Z.of_nat nc ->
  exists sub,
    submatrix (r1, r2, c1, c2) a = Ok sub /\
    shape2 sub = Ok (Z.to_nat (r2 - r1), Z.to_nat (c2 - c1)) /\
    well_shaped sub.
Proof.
  intros Hs Hw Hr1 Hr2 Hc1 Hc2.
  destruct a as [v|w m|w ch c]; [discriminate| |];
    simpl in Hs; inversion Hs; subst; simpl submatrix;
    rewrite !slice_bound_in_range by lia;
    replace (Z.to_nat c2 - Z.to_nat c1)%nat with (Z.to_nat (c2 - c1)) by lia;
    eexists; (split; [reflexivity|]).
  - split.
    + unfold shape2. simpl. by rewrite length_map, length_pyslice.
    + simpl. eapply rect_pyslice_rows;
        [unfold rect; apply Forall_pyslice; exact Hw | done | done].
  - destruct Hw as [Hw1 Hw2]. split.
    + unfold shape2. simpl. by rewrite length_map, length_pyslice.
    + simpl. split.
      * eapply rect_pyslice_rows;
          [unfold rect; apply Forall_pyslice; exact Hw1 | done | done].
      * apply Forall_map. apply Forall_pyslice.
        eapply Forall_impl; [exact Hw2|]. intros row Hrow. simpl.
        by apply Forall_pyslice.
Qed.

Lemma norm_index_in_range (n : nat) (i : Z) :
  0 <= i < Z.of_nat n -> norm_index n i = Ok (Z.to_nat i).
Proof.
  intros Hi. rewrite <- (Z2Nat.id i) at 1 by lia.
  apply norm_index_nat. lia.
Qed.

Lemma getitem_elem {A} (l : list A) (i : Z) :
  0 <= i < Z.of_nat (length l) -> exists x, getitem l i = Ok x /\ x ∈ l.
Proof.
  intros Hi. destruct (lookup_lt_is_Some_2 l (Z.to_nat i)) as [x Hx]; [lia|].
  exists x. split.
  - rewrite <- (Z2Nat.id i) by lia. by apply getitem_nat.
  - by apply (list_elem_of_lookup_2 _ (Z.to_nat i)).
Qed.

Lemma column_keepdims_shape (sub : ndarray) (nr nc : nat) (xi : Z) :
  shape2 sub = Ok (nr, nc) -> well_shaped sub ->
  0 <= xi < Z.of_nat nc ->
  exists col,
    column_keepdims sub xi = Ok col /\
    shape2 col = Ok (nr, 1%nat) /\ well_shaped col.
Proof.
  intros Hs Hw Hxi.
  destruct sub as [v|w m|w ch c]; [discriminate| |];
    simpl in Hs; inversion Hs; subst; simpl column_keepdims;
    rewrite norm_index_in_range by lia; cbn [mbind result_bind];
    eexists; (split; [reflexivity|]).
  - split; [unfold shape2; simpl; by rewrite length_map|].
    simpl. unfold rect. apply Forall_map, Forall_forall. by intros.
  - destruct Hw as [Hw1 Hw2].
    split; [unfold shape2; simpl; by rewrite length_map|].
    simpl. split.
    + unfold rect. apply Forall_map, Forall_forall. by intros.
    + apply Forall_map. apply Forall_forall. intros row Hrow. simpl.
      unfold rect. apply Forall_cons. split; [|constructor].
      pose proof (proj1 (Forall_forall _ _) Hw1 row Hrow) as Hlen.
      pose proof (proj1 (Forall_forall _ _) Hw2 row Hrow) as Hcells.
      simpl in Hlen.
      destruct (lookup_lt_is_Some_2 row (Z.to_nat xi) ltac:(lia))
        as [cell Hcell].
      rewrite Hcell. simpl.
      by apply (proj1 (Forall_forall _ _) Hcells cell),
               (list_elem_of_lookup_2 _ (Z.to_nat xi)).
Qed.

Lemma row_keepdims_shape (sub : ndarray) (nr nc : nat) (yi : Z) :
  shape2 sub = Ok (nr, nc) -> well_shaped sub ->
  0 <= yi < Z.of_nat nr ->
  exists row,
    row_keepdims sub yi = Ok row /\
    shape2 row = Ok (1%nat, nc) /\ well_shaped row.
Proof.
  intros Hs Hw Hyi.
  destruct sub as [v|w m|w ch c]; [discriminate| |];
    simpl in Hs; inversion Hs; subst; simpl row_keepdims.
  - destruct (getitem_elem m yi Hyi) as (r & -> & Hin).
    cbn [mbind result_bind]. eexists. split; [reflexivity|].
    split; [done|]. simpl. unfold rect. apply Forall_cons.
    split; [|constructor].
    by apply (proj1 (Forall_forall _ _) Hw r).
  - destruct Hw as [Hw1 Hw2].
    destruct (getitem_elem c yi Hyi) as (r & -> & Hin).
    cbn [mbind result_bind]. eexists. split; [reflexivity|].
    split; [done|]. simpl.
    split; (apply Forall_cons; split; [|constructor]).
    + by apply (proj1 (Forall_forall _ _) Hw1 r).
    + by apply (proj1 (Forall_forall _ _) Hw2 r).
Qed.

Lemma slice_ordered (dataset : Dataset) (bb : BoundingBox)
    (nrows ncols : nat) (l b r t : Q) (r1 r2 c1 c2 : Z) :
  whole_cells dataset bb nrows ncols ->
  Slice (BoundingBox_points (l, b) (r, t)) dataset = Ok (r1, r2, c1, c2) ->
  r1 <= r2 /\ c1 <= c2.
Proof.
  intros Hwc HS. pose proof Hwc as (_ & _ & Hxd & Hyd & _ & _).
  unfold Slice in HS. cbn [lbrt] in HS.
  rewrite !(sheet2matrix_ok _ _ _ _ Hwc) in HS.
  cbn [mbind result_bind] in HS. inversion HS; subst. clear HS.
  cbn [bb_left bb_right bb_top bb_bottom BoundingBox_points fst snd].
  pose proof (Q.le_min_l l r). pose proof (Q.le_max_l l r).
  pose proof (Q.le_min_l b t). pose proof (Q.le_max_l b t).
  split; apply ceiling_le_floor; nra.
Qed.

(** The bounds a slice realises hold the cells of the slice. *)
Lemma compute_bounds_extent (dataset : Dataset) (bb : BoundingBox)
    (nrows ncols : nat) (r1 r2 c1 c2 : Z) :
  whole_cells dataset bb nrows ncols ->
  r1 <= r2 -> c1 <= c2 ->
  exists realised,
    compute_bounds (r1, r2, c1, c2) dataset = Ok realised /\
    (bb_left realised <= bb_right realised)%Q /\
    (bb_bottom realised <= bb_top realised)%Q /\
    ((bb_right realised - bb_left realised) * xdensity dataset
     == inject_Z (c2 - c1))%Q /\
    ((bb_top realised - bb_bottom realised) * ydensity dataset
     == inject_Z (r2 - r1))%Q.
Proof.
  intros Hwc Hr Hc. pose proof Hwc as (_ & _ & Hxd & Hyd & _ & _).
  unfold compute_bounds. rewrite !(matrix2sheet_ok _ _ _ _ Hwc).
  cbn [mbind result_bind]. eexists. split; [reflexivity|].
  assert (Hcq : (inject_Z c1 / xdensity dataset
                 <= inject_Z c2 / xdensity dataset)%Q).
  { apply Qmult_le_compat_r; [by rewrite <- Zle_Qle|].
    apply Qlt_le_weak, Qinv_lt_0_compat, Hxd. }
  assert (Hrq : (inject_Z r1 / ydensity dataset
                 <= inject_Z r2 / ydensity dataset)%Q).
  { apply Qmult_le_compat_r; [by rewrite <- Zle_Qle|].
    apply Qlt_le_weak, Qinv_lt_0_compat, Hyd. }
  match goal with
  | |- context [BoundingBox_points (?l, ?b) (?r, ?t)] =>
      destruct (points_ordered l b r t ltac:(lra) ltac:(lra))
        as (El & Eb & Er & Et)
  end.
  split_and!.
  - rewrite El, Er. lra.
  - rewrite Eb, Et. lra.
  - rewrite El, Er. unfold Z.sub. rewrite inject_Z_plus, inject_Z_opp.
    field. lra.
  - rewrite Eb, Et. unfold Z.sub. rewrite inject_Z_plus, inject_Z_opp.
    field. lra.
Qed.

(** A box built from the ordered sides of a box is that box. *)
Lemma points_of_box (p : BoundingBox) :
  (bb_left p <= bb_right p)%Q -> (bb_bottom p <= bb_top p)%Q ->
  same_region
    (BoundingBox_points (bb_left p, bb_bottom p) (bb_right p, bb_top p)) p.
Proof. intros Hlr Hbt. by apply points_ordered. Qed.

(** A box one cell wide about a centre. *)
Lemma points_of_cell (c d lo hi : Q) :
  (0 < d)%Q -> (lo <= hi)%Q ->
  let p := BoundingBox_points ((c - 1 / d / 2)%Q, lo)
                              ((c + 1 / d / 2)%Q, hi) in
  let q := BoundingBox_points (lo, (c - 1 / d / 2)%Q)
                              (hi, (c + 1 / d / 2)%Q) in
  ((bb_right p - bb_left p) * d == 1)%Q /\
  (bb_bottom p == lo)%Q /\ (bb_top p == hi)%Q /\
  ((bb_top q - bb_bottom q) * d == 1)%Q /\
  (bb_left q == lo)%Q /\ (bb_right q == hi)%Q.
Proof.
  intros Hd Hlh.
  assert (Hu : (0 < 1 / d)%Q).
  { unfold Qdiv. rewrite Qmult_1_l. by apply Qinv_lt_0_compat. }
  assert (Hc : (c - 1 / d / 2 <= c + 1 / d / 2)%Q).
  { assert (0 <= 1 / d / 2)%Q; [|lra].
    apply Qle_shift_div_l; [done|]. lra. }
  destruct (points_ordered _ lo _ hi Hc Hlh) as (El & Eb & Er & Et).
  destruct (points_ordered lo _ hi _ Hlh Hc) as (El' & Eb' & Er' & Et').
  split_and!; try done.
  - rewrite El, Er. field. lra.
  - rewrite Eb', Et'. field. lra.
Qed.

(** X18: what a range selection returns is an image again: for a dataset
    whose bounds hold whole cells and whose rows agree with its shape, and
    a selection with at least one range that meets the bounds, the array
    [select] returns has rows that agree with its shape, never more rows or
    columns than the dataset, exactly one column (row) where x (y) is a
    scalar, and the bounds returned hold exactly its rows and columns at
    the densities of the dataset. *)
Theorem select_returns_image (dataset : Dataset)
    (selection : gmap string selval) (bb : BoundingBox) (nrows ncols : nat)
    (kx ky : Dimension) (xidx yidx : coord) :
  whole_cells dataset bb nrows ncols ->
  well_shaped (data dataset) ->
  kdims dataset = [kx; ky] ->
  map_Forall (fun _ sel => is_Some (coord_of sel)) selection ->
  xidx = default (CSlice None None) (omap coord_of selection !! kx) ->
  yidx = default (CSlice None None) (omap coord_of selection !! ky) ->
  is_slice xidx || is_slice yidx = true ->
  x_meets bb xidx -> y_meets bb yidx ->
  exists sub bb' nr nc,
    select dataset selection = Ok (NpArray sub, {[ "bounds" := bb' ]}) /\
    well_shaped sub /\
    (nr <= nrows)%nat /\ (nc <= ncols)%nat /\
    (is_slice xidx = false -> nc = 1%nat) /\
    (is_slice yidx = false -> nr = 1%nat) /\
    whole_cells (selected dataset sub bb') bb' nr nc.
Proof.
  intros Hwc Hws Hk Hall Hx Hy Hsl Hxm Hym.
  destruct (bounds_ordered dataset bb nrows ncols Hwc) as [Hlr Hbt].
  assert (Hcl : exists l b r t,
            clamp_selection xidx yidx (lbrt bb) = (l, b, r, t) /\
            corners_inside bb l b r t /\
            (is_slice xidx = false -> l = bb_left bb /\ r = bb_right bb) /\
            (is_slice yidx = false -> b = bb_bottom bb /\ t = bb_top bb)).
  { unfold clamp_selection, lbrt, corners_inside.
    destruct (clamp_axis_inside xidx _ _ Hlr) as (l & r & -> & ? & ? & ?).
    { by destruct xidx; [|destruct Hxm]. }
    destruct (clamp_axis_inside yidx _ _ Hbt) as (b & t & -> & ? & ? & ?).
    { by destruct yidx; [|destruct Hym]. }
    by exists l, b, r, t. }
  destruct Hcl as (l & b & r & t & Hcl & Hin & Hxfull & Hyfull).
  pose proof Hwc as (Hb & Hs2 & Hxd & Hyd & Hw & Hh).
  destruct (slice_on_axes dataset bb nrows ncols Hwc l b r t Hin)
    as (r1 & r2 & c1 & c2 & HS & Hr1 & Hr2 & Hc1 & Hc2 & Hcfull & Hrfull).
  destruct (slice_ordered _ _ _ _ _ _ _ _ _ _ _ _ Hwc HS) as [Hr12 Hc12].
  destruct (compute_bounds_extent _ _ _ _ r1 r2 c1 c2 Hwc Hr12 Hc12)
    as (realised & HR & HRlr & HRbt & HRw & HRh).
  destruct (submatrix_shape _ _ _ r1 r2 c1 c2 Hs2 Hws
              ltac:(lia) ltac:(lia) ltac:(lia) ltac:(lia))
    as (sub & Hsub & Hss & Hsw).
  unfold select. rewrite (convert_selection_ok _ Hall), Hk.
  cbn [mbind result_bind map]. rewrite <- Hx, <- Hy.
  cbn [existsb]. rewrite orb_false_r, Hsl. cbn [negb].
  unfold bounds_lbrt at 1. rewrite Hb.
  rewrite (pydiv_pos _ Hxd), (pydiv_pos _ Hyd).
  cbn [mbind result_bind]. rewrite Hcl, HS. cbn [mbind result_bind].
  rewrite Hsub. cbn [mbind result_bind].
  rewrite HR. cbn [mbind result_bind lbrt].
  assert (Hnr : inject_Z (r2 - r1) = Qnat (Z.to_nat (r2 - r1))).
  { unfold Qnat. by rewrite Z2Nat.id by lia. }
  assert (Hnc : inject_Z (c2 - c1) = Qnat (Z.to_nat (c2 - c1))).
  { unfold Qnat. by rewrite Z2Nat.id by lia. }
  destruct xidx as [x|sx ex], yidx as [y|sy ey]; [discriminate| | |].
  - (* x is a scalar, y a range *)
    destruct (Hxfull eq_refl) as [-> ->].
    destruct (Hcfull ltac:(reflexivity) ltac:(reflexivity)) as [-> ->].
    destruct Hxm as [Hx0 Hx1].
    assert (Hxi : 0 <= Qfloor ((x - bb_left bb) * xdensity dataset)
                  < Z.of_nat ncols).
    { apply cell_in_range; [nra | rewrite <- Hw; nra]. }
    replace (Z.to_nat (Z.of_nat ncols - 0)) with ncols in Hss by lia.
    destruct (column_keepdims_shape _ _ _ _ Hss Hsw Hxi)
      as (col & Hcol & Hcs & Hcw).
    unfold closest_cell_center, sheet2matrixidx, matrixidx2sheet.
    rewrite (sheet2matrix_ok _ _ _ _ Hwc). cbn [mbind result_bind].
    rewrite (matrix2sheet_ok _ _ _ _ Hwc). cbn [mbind result_bind].
    rewrite Hcol. cbn [mbind result_bind].
    eexists _, _, (Z.to_nat (r2 - r1)), 1%nat.
    split; [reflexivity|].
    split_and!; [done | lia | lia | done | discriminate |].
    match goal with
    | |- context [BoundingBox_points ((?c - _)%Q, _) _] =>
        destruct (points_of_cell c (xdensity dataset) _ _ Hxd HRbt)
          as (Ew & Eb & Et & _)
    end.
    unfold whole_cells. cbn [selected bounds data xdensity ydensity].
    split_and!; [done | done | done | done | by rewrite Ew |].
    by rewrite Eb, Et, HRh, Hnr.
  - (* x is a range, y a scalar *)
    destruct (Hyfull eq_refl) as [-> ->].
    destruct (Hrfull ltac:(reflexivity) ltac:(reflexivity)) as [-> ->].
    destruct Hym as [Hy0 Hy1].
    assert (Hyi : 0 <= Qfloor ((bb_top bb - y) * ydensity dataset)
                  < Z.of_nat nrows).
    { apply cell_in_range; [nra | rewrite <- Hh; nra]. }
    replace (Z.to_nat (Z.of_nat nrows - 0)) with nrows in Hss by lia.
    destruct (row_keepdims_shape _ _ _ _ Hss Hsw Hyi)
      as (row & Hrow & Hrs & Hrw).
    unfold closest_cell_center, sheet2matrixidx, matrixidx2sheet.
    rewrite (sheet2matrix_ok _ _ _ _ Hwc). cbn [mbind result_bind].
    rewrite (matrix2sheet_ok _ _ _ _ Hwc). cbn [mbind result_bind].
    rewrite Hrow. cbn [mbind result_bind].
    eexists _, _, 1%nat, (Z.to_nat (c2 - c1)).
    split; [reflexivity|].
    split_and!; [done | lia | lia | discriminate | done |].
    match goal with
    | |- context [BoundingBox_points (_, (?c - _)%Q) _] =>
        destruct (points_of_cell c (ydensity dataset) _ _ Hyd HRlr)
          as (_ & _ & _ & Eh & El & Er)
    end.
    unfold whole_cells. cbn [selected bounds data xdensity ydensity].
    split_and!; [done | done | done | done | | by rewrite Eh].
    by rewrite El, Er, HRw, Hnc.
  - (* both are ranges *)
    eexists _, _, (Z.to_nat (r2 - r1)), (Z.to_nat (c2 - c1)).
    split; [reflexivity|].
    split_and!; [done | lia | lia | discriminate | discriminate |].
    destruct (points_of_box realised HRlr HRbt) as (El & Eb & Er & Et).
    unfold whole_cells. cbn [selected bounds data xdensity ydensity].
    split_and!; [done | done | done | done | |].
    + by rewrite El, Er, HRw, Hnc.
    + by rewrite Eb, Et, HRh, Hnr.
Qed.

Lemma select_returns_image_witness :
  exists sub bb' nr nc,
    select square_image selection_lower_left
    = Ok (NpArray sub, {[ "bounds" := bb' ]}) /\
    well_shaped sub /\
    (nr <= 2)%nat /\ (nc <= 2)%nat /\
    (is_slice (CScalar (1 # 2)) = false -> nc = 1%nat) /\
    (is_slice (CSlice (Some (-1)%Q) (Some 1%Q)) = false -> nr = 1%nat) /\
    whole_cells (selected square_image sub bb') bb' nr nc.
Proof.
  apply (select_returns_image square_image selection_lower_left
           square_bounds 2 2 "x" "y").
  - by split_and!.
  - simpl. unfold rect. repeat constructor.
  - reflexivity.
  - apply (bool_decide_unpack _). by vm_compute.
  - by vm_compute.
  - by vm_compute.
  - reflexivity.
  - by split.
  - split; intros s [= <-]; done.
Defined.

(** ** [init]: several value dimensions *)

Lemma mapM_dict_get_found (d : gmap string ndarray) (ks : list string)
    (arrs : list ndarray) :
  Forall2 (fun k a => d !! k = Some a) ks arrs ->
  mapM (dict_get d) ks = Ok arrs.
Proof.
  induction 1 as [|k a ks arrs Hk _ IH]; [done|].
  simpl. rewrite (dict_get_found _ _ _ Hk). cbn [mbind result_bind].
  by rewrite IH.
Qed.

Lemma stack_row (n : nat) (row : list (list num)) (r' : list num) :
  length row = length r' ->
  Forall (fun cell : list num => length cell = n) row ->
  let row' := zip_with app row (map (fun x => [x]) r') in
  length row' = length row /\
  Forall (fun cell : list num => length cell = S n) row' /\
  (forall k, (k < n)%nat -> row_channel k row' = row_channel k row) /\
  row_channel n row' = r'.
Proof.
  revert r'. induction row as [|cell row IH]; intros r' Hlen Hrow;
    destruct r' as [|x r']; try discriminate; simpl.
  { by split_and!. }
  apply Forall_cons in Hrow as [Hcell Hrow].
  destruct (IH r' ltac:(by injection Hlen) Hrow) as (IH1 & IH2 & IH3 & IH4).
  simpl in *. split_and!.
  - by rewrite IH1.
  - constructor; [|done]. rewrite length_app. simpl. lia.
  - intros k Hk. rewrite (IH3 k Hk). by rewrite lookup_app_l by lia.
  - rewrite IH4. rewrite lookup_app_r by lia.
    by replace (n - length cell)%nat with 0%nat by lia.
Qed.

(** Stacking one more array [m'] onto [acc]: the channels already there
    stay, and [m'] becomes the last one. *)
Lemma stack_one_more (w n : nat) (acc : list (list (list num)))
    (m' : list (list num)) :
  length acc = length m' -> cells w n acc -> rect w m' ->
  let acc' := zip_with (zip_with app) acc (map (map (fun x => [x])) m') in
  length acc' = length acc /\ cells w (S n) acc' /\
  (forall k, (k < n)%nat ->
     map (row_channel k) acc' = map (row_channel k) acc) /\
  map (row_channel n) acc' = m'.
Proof.
  revert m'. induction acc as [|row acc IH]; intros m' Hlen Hacc Hm';
    destruct m' as [|r' m']; try discriminate; simpl.
  { split_and!; try done. constructor. }
  apply Forall_cons in Hacc as [[Hw Hrow] Hacc].
  apply Forall_cons in Hm' as [Hr' Hm']. simpl in Hr'.
  destruct (IH m' ltac:(by injection Hlen) Hacc Hm')
    as (IH1 & IH2 & IH3 & IH4).
  destruct (stack_row n row r' ltac:(congruence) Hrow)
    as (R1 & R2 & R3 & R4).
  simpl in *. split_and!.
  - by rewrite IH1.
  - constructor; [|done]. split; [congruence|done].
  - intros k Hk. by rewrite (IH3 k Hk), (R3 k Hk).
  - by rewrite IH4, R4.
Qed.

Lemma stack_all (w nr : nat) (ms : list (list (list num))) :
  forall (seen : list (list (list num))) (acc : list (list (list num))),
  length acc = nr -> cells w (length seen) acc ->
  (forall k m, seen !! k = Some m -> map (row_channel k) acc = m) ->
  Forall (fun m => rect w m /\ length m = nr) ms ->
  let rest := map (fun m => (w, 1%nat, map (map (fun x : num => [x])) m)) ms in
  let c := fold_left (fun acc '(_, _, c') => zip_with (zip_with app) acc c')
             rest acc in
  forallb (fun '(w', _, c') => (w' =? w)%nat && (length c' =? nr)%nat) rest
  = true /\
  fold_left (fun n '(_, ch', _) => (n + ch')%nat) rest (length seen)
  = length (seen ++ ms) /\
  length c = nr /\ cells w (length (seen ++ ms)) c /\
  (forall k m, (seen ++ ms) !! k = Some m -> map (row_channel k) c = m).
Proof.
  induction ms as [|m ms IH]; intros seen acc Hlen Hacc Hseen Hms; simpl.
  { rewrite app_nil_r. by split_and!. }
  apply Forall_cons in Hms as [[Hm Hmn] Hms].
  destruct (stack_one_more w (length seen) acc m ltac:(congruence) Hacc Hm)
    as (S1 & S2 & S3 & S4).
  simpl in S1, S2, S3, S4.
  destruct (IH (seen ++ [m]) _ (eq_trans S1 Hlen))
    as (I1 & I2 & I3 & I4 & I5).
  { rewrite length_app. simpl.
    by replace (length seen + 1)%nat with (S (length seen)) by lia. }
  { intros k m0 Hk. apply lookup_app_Some in Hk as [Hk|[Hge Hk]].
    - rewrite S3 by (by eapply lookup_lt_Some). by apply Hseen.
    - destruct (k - length seen)%nat as [|j] eqn:Ej; [|done].
      simpl in Hk. inversion Hk; subst.
      by replace k with (length seen) by lia. }
  { done. }
  simpl in I1, I2, I3, I4, I5.
  rewrite length_app in I2. simpl in I2.
  rewrite <- !app_assoc in *. simpl in *.
  rewrite length_map, Nat.eqb_refl, Hmn, Nat.eqb_refl. simpl.
  by split_and!.
Qed.

Lemma single_cells (w : nat) (m : list (list num)) :
  rect w m ->
  cells w 1 (map (map (fun x => [x])) m) /\
  map (row_channel 0) (map (map (fun x => [x])) m) = m.
Proof.
  induction 1 as [|row m Hrow _ [IH1 IH2]]; [by split; [constructor|]|].
  simpl. split.
  - constructor; [|done]. split; [by rewrite length_map|].
    apply Forall_map, Forall_forall. by intros.
  - rewrite IH2. f_equal. unfold row_channel. rewrite map_map. simpl.
    apply map_id.
Qed.

(** X19: several value dimensions are stacked in their order: given a
    mapping that holds, besides the coordinates, a rank-2 array of one and
    the same shape for each of two or more value dimensions, [init] returns
    an array of rank 3 with one channel per value dimension, and channel
    [k] holds the array of value dimension [k]. *)
Theorem init_stacks_value_dimensions (kx ky : Dimension)
    (vs : list Dimension) (d : gmap string ndarray) (xs ys : ndarray)
    (w nr : nat) (ms : list (list (list num))) :
  d !! kx = Some xs -> d !! ky = Some ys ->
  (exists bx, bound_range xs = Ok bx) ->
  (exists by', bound_range ys = Ok by') ->
  (1 < length vs)%nat ->
  Forall2 (fun vd m => d !! vd = Some (Arr2 w m) /\
                       rect w m /\ length m = nr) vs ms ->
  exists c,
    init [kx; ky] vs (PyDict d) None None
    = Ok (Arr3 w (length vs) c, [kx; ky], vs) /\
    shape (Arr3 w (length vs) c) = [nr; w; length vs] /\
    forall k m, ms !! k = Some m ->
      channel (Arr3 w (length vs) c) (Z.of_nat k) = Ok m.
Proof.
  intros Hx Hy [bx Hbx] [by' Hby] Hlen Hall.
  pose proof (Forall2_length _ _ _ Hall) as Hvm.
  assert (Hget : mapM (dict_get d) vs = Ok (map (Arr2 w) ms)).
  { apply mapM_dict_get_found.
    change (map ?f ?l) with (f <$> l). apply Forall2_fmap_r.
    eapply Forall2_impl; [exact Hall|]. by intros vd m (? & _). }
  assert (Hms : Forall (fun m => rect w m /\ length m = nr) ms).
  { apply Forall_forall. intros m Hm.
    apply list_elem_of_lookup in Hm as [i Hi].
    destruct (Forall2_lookup_r _ _ _ _ _ Hall Hi) as (vd & _ & _ & ? & ?).
    done. }
  destruct ms as [|m0 ms]; [simpl in Hvm; lia|].
  apply Forall_cons in Hms as [[Hm0 Hn0] Hms].
  destruct (single_cells w m0 Hm0) as [Hc0 Hch0].
  destruct (stack_all w nr ms [m0] (map (map (fun x => [x])) m0))
    as (S1 & S2 & S3 & S4 & S5); [by rewrite length_map | done | | done |].
  { intros k m Hk. destruct k as [|k]; [|done]. by inversion Hk; subst. }
  simpl in S1, S2, S3, S4, S5.
  eexists. split_and!.
  - unfold init. cbn [default app].
    rewrite getitem_0, getitem_1. cbn [mbind result_bind].
    rewrite (dict_get_found _ _ _ Hx). cbn [mbind result_bind].
    rewrite Hbx. cbn [mbind result_bind].
    rewrite (dict_get_found _ _ _ Hy). cbn [mbind result_bind].
    rewrite Hby. cbn [mbind result_bind].
    replace (length vs =? 1)%nat with false
      by (symmetry; apply Nat.eqb_neq; lia).
    rewrite Hget. cbn [mbind result_bind].
    unfold dstack. cbn [fmap list_fmap map atleast_3d].
    change (list_fmap _ _ atleast_3d (map (Arr2 w) ms))
      with (atleast_3d <$> (Arr2 w <$> ms)).
    rewrite <- list_fmap_compose.
    change (atleast_3d ∘ Arr2 w)
      with (fun m : list (list num) =>
              (w, 1%nat, map (map (fun x : num => [x])) m)).
    change (?f <$> ms) with (map f ms).
    rewrite length_map, Hn0, S1, S2. cbn [mbind result_bind].
    rewrite bool_decide_eq_true_2 by (by right).
    rewrite Hvm. reflexivity.
  - simpl. by rewrite S3.
  - intros k m Hk. simpl channel.
    rewrite norm_index_nat by (rewrite Hvm; by eapply lookup_lt_Some).
    cbn [mbind result_bind]. f_equal. by apply S5.
Qed.

Lemma init_stacks_value_dimensions_witness :
  exists c,
    init ["x"; "y"] ["r"; "g"] (PyDict two_channel_mapping) None None
    = Ok (Arr3 2 2 c, ["x"; "y"], ["r"; "g"]) /\
    shape (Arr3 2 2 c) = [2; 2; 2]%nat /\
    forall k m,
      [[[qz 1; qz 2]; [qz 3; qz 4]]; [[qz 5; qz 6]; [qz 7; qz 8]]] !! k
      = Some m ->
      channel (Arr3 2 2 c) (Z.of_nat k) = Ok m.
Proof.
  apply (init_stacks_value_dimensions "x" "y" ["r"; "g"] two_channel_mapping
           (Arr1 [qz 0; qz 1]) (Arr1 [qz 0; qz 1]) 2 2).
  - by vm_compute.
  - by vm_compute.
  - eexists. by vm_compute.
  - eexists. by vm_compute.
  - simpl. lia.
  - repeat constructor.
Defined.

(** * DataFrameView: the key dimensions *)

Lemma index_of_Some (c : string) (cols : list string) (i : nat) :
  index_of c cols = Some i -> cols !! i = Some c /\ (i < length cols)%nat.
Proof.
  revert i. induction cols as [|c' cols IH]; intros i; simpl; [done|].
  destruct (String.eqb c c') eqn:E.
  - intros [= <-]. apply String.eqb_eq in E as ->. split; [done|lia].
  - destruct (index_of c cols) as [j|]; [|done].
    intros [= <-]. destruct (IH j eq_refl) as [? ?]. split; [done|lia].
Qed.

Lemma index_of_inj (c c' : string) (cols : list string) (i : nat) :
  index_of c cols = Some i -> index_of c' cols = Some i -> c = c'.
Proof.
  intros H1 H2. apply index_of_Some in H1 as [H1 _].
  apply index_of_Some in H2 as [H2 _]. congruence.
Qed.

Lemma length_override_dim (cols : list string) (name : string)
    (dim : dim_entry) (dims : list dim_entry) :
  length (override_dim cols name dim dims) = length dims.
Proof.
  unfold override_dim. destruct (index_of name cols); [|done].
  apply length_insert.
Qed.

(** The loop over [dimensions], entry by entry of the result. *)
Lemma overrides_pointwise (cols : list string)
    (dimensions : gmap string dim_entry) (dims0 : list dim_entry) :
  length dims0 = length cols ->
  let dims := map_fold (override_dim cols) dims0 dimensions in
  length dims = length cols /\
  forall i c, cols !! i = Some c ->
    dims !! i = if decide (index_of c cols = Some i)
                then match dimensions !! c with
                     | Some d => Some d
                     | None => dims0 !! i
                     end
                else dims0 !! i.
Proof.
  intros Hlen.
  apply (map_fold_weak_ind
           (fun dims (dimensions : gmap string dim_entry) =>
              length dims = length cols /\
              forall i c, cols !! i = Some c ->
                dims !! i = if decide (index_of c cols = Some i)
                            then match dimensions !! c with
                                 | Some d => Some d
                                 | None => dims0 !! i
                                 end
                            else dims0 !! i)).
  - split; [done|]. intros i c Hc. rewrite lookup_empty. by case_decide.
  - intros name d m dims Hfresh [Hl IH]. split.
    + by rewrite length_override_dim.
    + intros i c Hc. unfold override_dim.
      destruct (index_of name cols) as [j|] eqn:Ej.
      * destruct (decide (j = i)) as [->|Hji].
        -- assert (c = name) as ->.
           { apply index_of_Some in Ej as [Ej _]. congruence. }
           rewrite decide_True by done.
           rewrite lookup_insert_eq.
           apply list_lookup_insert_eq. apply index_of_Some in Ej. lia.
        -- rewrite list_lookup_insert_ne by done. rewrite (IH i c Hc).
           case_decide as Hci; [|done].
           rewrite lookup_insert_ne; [done|]. intros ->. congruence.
      * rewrite (IH i c Hc). case_decide as Hci; [|done].
        rewrite lookup_insert_ne; [done|]. intros ->. congruence.
Qed.

Lemma length_initial_dims (cols : list string)
    (kdims' : option (list dim_entry)) (clone_override : bool)
    (dims0 : list dim_entry) (shared : bool) :
  initial_dims cols kdims' clone_override = Ok (dims0, shared) ->
  length dims0 = length cols.
Proof.
  unfold initial_dims. destruct clone_override.
  - destruct kdims' as [ks|]; [|done].
    destruct (dim_dict ks ∅); simpl; [|done].
    intros [= <- <-]. by rewrite length_map.
  - destruct kdims' as [[|k ks]|].
    + intros [= <- <-]. by rewrite length_fmap.
    + destruct (length (k :: ks) =? length cols)%nat eqn:E; [|done].
      intros [= <- <-]. by apply Nat.eqb_eq.
    + intros [= <- <-]. by rewrite length_fmap.
Qed.

(** X15: the key dimensions of a DataFrameView are one per column of the
    frame, whatever branch builds them.  A dimension given in [dimensions]
    under the name of a column takes the place of the first column of that
    name; the other columns keep what [kdims], or the column labels, gave
    them, and names that are no column are passed over. *)
Theorem dataframe_dims_by_column (columns : list string)
    (dimensions : gmap string dim_entry) (kdims' : option (list dim_entry))
    (clone_override : bool) (dims0 : list dim_entry) (shared : bool) :
  initial_dims columns kdims' clone_override = Ok (dims0, shared) ->
  exists dims after,
    dataframe_dims true columns dimensions kdims' clone_override
    = Ok (dims, after) /\
    length dims = length columns /\
    forall i c, columns !! i = Some c ->
      dims !! i = if decide (index_of c columns = Some i)
                  then match dimensions !! c with
                       | Some d => Some d
                       | None => dims0 !! i
                       end
                  else dims0 !! i.
Proof.
  intros H0. pose proof (length_initial_dims _ _ _ _ _ H0) as Hlen.
  destruct (overrides_pointwise columns dimensions dims0 Hlen) as [Hl Hp].
  unfold dataframe_dims. rewrite H0. cbn [negb mbind result_bind].
  eexists _, _. split; [reflexivity|]. by split.
Qed.

Lemma dataframe_dims_by_column_witness :
  exists dims after,
    dataframe_dims true abc_columns a_override None false
    = Ok (dims, after) /\
    length dims = length abc_columns /\
    forall i c, abc_columns !! i = Some c ->
      dims !! i = if decide (index_of c abc_columns = Some i)
                  then match a_override !! c with
                       | Some d => Some d
                       | None => (Label <$> abc_columns) !! i
                       end
                  else (Label <$> abc_columns) !! i.
Proof.
  apply (dataframe_dims_by_column abc_columns a_override None false
           (Label <$> abc_columns) false).
  reflexivity.
Defined.

(** X16: without [clone_override], a non-empty [kdims] must have one entry
    per column, or the constructor raises its ValueError; when it has, the
    list itself is used: after the call the caller's list holds every
    dimension that [dimensions] gave for a column, at that column's first
    place. *)
Theorem dataframe_kdims_shared (columns : list string)
    (dimensions : gmap string dim_entry) (k : dim_entry)
    (ks : list dim_entry) :
  (length (k :: ks) <> length columns ->
   dataframe_dims true columns dimensions (Some (k :: ks)) false
   = Raise (ValueError "Supplied key dimensions do not match data columns"))
  /\
  (length (k :: ks) = length columns ->
   exists dims,
     dataframe_dims true columns dimensions (Some (k :: ks)) false
     = Ok (dims, Some dims) /\
     forall i c d, index_of c columns = Some i -> dimensions !! c = Some d ->
       dims !! i = Some d).
Proof.
  split; intros Hlen.
  - unfold dataframe_dims, initial_dims.
    apply Nat.eqb_neq in Hlen. by rewrite Hlen.
  - destruct (overrides_pointwise columns dimensions (k :: ks) Hlen)
      as [_ Hp].
    unfold dataframe_dims, initial_dims.
    apply Nat.eqb_eq in Hlen. rewrite Hlen. cbn [negb mbind result_bind].
    eexists. split; [reflexivity|].
    intros i c d Hi Hd. pose proof (index_of_Some _ _ _ Hi) as [Hc _].
    rewrite (Hp i c Hc), decide_True by done. by rewrite Hd.
Qed.

Lemma dataframe_kdims_shared_witness :
  exists dims,
    dataframe_dims true ["a"; "b"] time_override (Some ab_kdims) false
    = Ok (dims, Some dims) /\
    dims !! 1%nat = Some (DimOf {| dim_name := "time"; dim_unit := "s" |}).
Proof.
  destruct (proj2 (dataframe_kdims_shared ["a"; "b"] time_override
                     (DimOf (unit_dim "a")) [DimOf (unit_dim "b")]) eq_refl)
    as (dims & H & Hp).
  exists dims. split; [exact H|].
  apply (Hp 1%nat "b"); [reflexivity | by vm_compute].
Defined.

Lemma dim_dict_lookup (ds : list DimObj) (acc : gmap string DimObj) :
  NoDup (dim_name <$> ds) ->
  exists dd,
    dim_dict (DimOf <$> ds) acc = Ok dd /\
    forall c,
      (forall d, d ∈ ds -> dim_name d = c -> dd !! c = Some d) /\
      ((forall d, d ∈ ds -> dim_name d <> c) -> dd !! c = acc !! c).
Proof.
  revert acc. induction ds as [|d ds IH]; intros acc Hnd.
  - exists acc. split; [done|]. intros c. split; [|done].
    intros d Hd. by apply elem_of_nil in Hd.
  - apply NoDup_cons in Hnd as [Hd Hnd].
    destruct (IH (<[dim_name d := d]> acc) Hnd) as (dd & Hdd & Hl).
    exists dd. split; [done|]. intros c.
    destruct (Hl c) as [Hin Hout]. split.
    + intros d0 Hd0 Hn. apply elem_of_cons in Hd0 as [->|Hd0].
      * rewrite Hout; [by rewrite <- Hn, lookup_insert_eq|].
        intros d' Hd' Hn'. apply Hd. rewrite Hn, <- Hn'.
        apply list_elem_of_fmap. by exists d'.
      * by apply Hin.
    + intros Hno. rewrite Hout.
      * rewrite lookup_insert_ne; [done|]. apply Hno, elem_of_cons. by left.
      * intros d' Hd'. apply Hno, elem_of_cons. by right.
Qed.

(** X17: with [clone_override] the dimensions are put back on the columns by
    name: whatever their order and number in [kdims], a column gets the
    dimension of its name, and a column no dimension is named after keeps
    its bare label. *)
Theorem dataframe_clone_by_name (columns : list string) (ds : list DimObj) :
  NoDup (dim_name <$> ds) ->
  exists dims after,
    dataframe_dims true columns ∅ (Some (DimOf <$> ds)) true
    = Ok (dims, after) /\
    after = Some (DimOf <$> ds) /\
    length dims = length columns /\
    forall i c, columns !! i = Some c ->
      (forall d, d ∈ ds -> dim_name d = c -> dims !! i = Some (DimOf d)) /\
      ((forall d, d ∈ ds -> dim_name d <> c) -> dims !! i = Some (Label c)).
Proof.
  intros Hnd. destruct (dim_dict_lookup ds ∅ Hnd) as (dd & Hdd & Hl).
  unfold dataframe_dims, initial_dims. rewrite Hdd.
  cbn [negb mbind result_bind]. rewrite map_fold_empty.
  eexists _, _. split_and!; [reflexivity|reflexivity|by rewrite length_map|].
  intros i c Hc. change (map ?f ?l) with (f <$> l).
  rewrite list_lookup_fmap, Hc. simpl. destruct (Hl c) as [Hin Hout]. split.
  - intros d Hd Hn. by rewrite (Hin d Hd Hn).
  - intros Hno. by rewrite (Hout Hno), lookup_empty.
Qed.

Lemma dataframe_clone_by_name_witness :
  exists dims after,
    dataframe_dims true ["b"; "a"; "c"] ∅
      (Some (DimOf <$> [unit_dim "a"; unit_dim "b"])) true
    = Ok (dims, after) /\
    after = Some (DimOf <$> [unit_dim "a"; unit_dim "b"]) /\
    length dims = length ["b"; "a"; "c"] /\
    forall i c, ["b"; "a"; "c"] !! i = Some c ->
      (forall d, d ∈ [unit_dim "a"; unit_dim "b"] -> dim_name d = c ->
         dims !! i = Some (DimOf d)) /\
      ((forall d, d ∈ [unit_dim "a"; unit_dim "b"] -> dim_name d <> c) ->
         dims !! i = Some (Label c)).
Proof.
  apply (dataframe_clone_by_name ["b"; "a"; "c"]
           [unit_dim "a"; unit_dim "b"]).
  apply (bool_decide_unpack _). by vm_compute.
Defined.
